(** * Receipt pipeline: extraction and normalisation logic

    A shallow embedding of the decision logic of the two Lambda handlers

      - [src/lambda/receipt_bedrock_processor.py]   (model stage)
      - [src/lambda/receipt_textract_processor.py]  (OCR stage)

    Python values are an inductive type of JSON-shaped data, [str] is a
    sequence of Unicode code points, exceptions are an error monad, the
    blob store is explicit state, and the regular expressions of the source
    are abstract syntax run by a backtracking matcher with Python's
    priorities. *)

From Stdlib Require Import ZArith NArith List String Ascii Bool Lia.
From Stdlib Require Import Floats.SpecFloat.
Import ListNotations.

Set Implicit Arguments.
Set Warnings "-register-all".
Local Open Scope list_scope.

(* ================================================================== *)
(** * Python strings *)
(* ================================================================== *)

Module PyStr.

(** A Python [str] is a sequence of code points. *)
Definition pystr := list N.

(** UTF-8 decoding of a literal of this file (the literals only hold
    well-formed UTF-8 of one to three bytes per code point). *)
Fixpoint u (s : string) : pystr :=
  match s with
  | EmptyString => []
  | String a rest =>
      let x := N_of_ascii a in
      if (x <? 128)%N then x :: u rest
      else
        match rest with
        | String b rest1 =>
            let y := N_of_ascii b in
            if (x <? 224)%N
            then ((x - 192) * 64 + (y - 128))%N :: u rest1
            else
              match rest1 with
              | String c rest2 =>
                  let z := N_of_ascii c in
                  ((x - 224) * 4096 + (y - 128) * 64 + (z - 128))%N :: u rest2
              | EmptyString => [x; y]
              end
        | EmptyString => [x]
        end
  end.

Fixpoint eqb (a b : pystr) : bool :=
  match a, b with
  | [], [] => true
  | x :: a', y :: b' => (x =? y)%N && eqb a' b'
  | _, _ => false
  end.

(** [s.startswith(p)] *)
Fixpoint startswith (p s : pystr) : bool :=
  match p, s with
  | [], _ => true
  | x :: p', y :: s' => (x =? y)%N && startswith p' s'
  | _ :: _, [] => false
  end.

(** [s.endswith(p)] *)
Definition endswith (p s : pystr) : bool := startswith (rev p) (rev s).

(** [sub in s] *)
Fixpoint contains (sub s : pystr) : bool :=
  startswith sub s ||
  match s with
  | [] => false
  | _ :: s' => contains sub s'
  end.

(** [str.isspace] on one code point: the characters that [str.strip()]
    removes. *)
Definition isspace (c : N) : bool :=
  ((9 <=? c) && (c <=? 13) || (28 <=? c) && (c <=? 32) ||
   (c =? 133) || (c =? 160) || (c =? 5760) ||
   (8192 <=? c) && (c <=? 8202) || (c =? 8232) || (c =? 8233) ||
   (c =? 8239) || (c =? 8287) || (c =? 12288))%N.

Fixpoint lstrip (s : pystr) : pystr :=
  match s with
  | c :: s' => if isspace c then lstrip s' else s
  | [] => []
  end.

Definition rstrip (s : pystr) : pystr := rev (lstrip (rev s)).

(** [s.strip()] *)
Definition strip (s : pystr) : pystr := rstrip (lstrip s).

(** [s.lower()] on the ASCII range; the source only lower-cases the type
    tags of the OCR service, which are ASCII identifiers.  Code points
    outside the range are kept. *)
Definition lower_cp (c : N) : N :=
  if ((65 <=? c) && (c <=? 90))%N then (c + 32)%N else c.

Definition lower (s : pystr) : pystr := map lower_cp s.

(** The longest prefix of code points in the class [p], and the rest. *)
Fixpoint span (p : N -> bool) (s : pystr) : pystr * pystr :=
  match s with
  | c :: s' =>
      if p c
      then let '(ds, r) := span p s' in (c :: ds, r)
      else ([], s)
  | [] => ([], [])
  end.

(** [s.partition(sep)]: what precedes the first occurrence of [sep], and
    what follows it when there is one. *)
Fixpoint partition (sep s : pystr) : pystr * option pystr :=
  if startswith sep s then ([], Some (skipn (List.length sep) s))
  else
    match s with
    | [] => ([], None)
    | c :: s' => let '(b, a) := partition sep s' in (c :: b, a)
    end.

(** [s.split(sep)] for a non-empty separator: cut at every occurrence
    found scanning left to right, occurrences do not overlap.  [skip]
    counts the code points of a separator still to be passed over,
    [cur] is the current piece in reverse. *)
Fixpoint split_aux (sep : pystr) (skip : nat) (cur : pystr) (s : pystr)
  {struct s} : list pystr :=
  match s with
  | [] => [rev cur]
  | c :: s' =>
      match skip with
      | S k => split_aux sep k cur s'
      | O =>
          if startswith sep s
          then rev cur :: split_aux sep (List.length sep - 1) [] s'
          else split_aux sep O (c :: cur) s'
      end
  end.

Definition split (sep s : pystr) : list pystr := split_aux sep 0 [] s.

(** [sep.join(parts)] *)
Fixpoint join (sep : pystr) (parts : list pystr) : pystr :=
  match parts with
  | [] => []
  | [p] => p
  | p :: rest => p ++ sep ++ join sep rest
  end.

(** [s.replace(old, new)] for a non-empty [old]; in Python this is
    [new.join(s.split(old))]. *)
Definition replace (old new s : pystr) : pystr := join new (split old s).

(** [os.path.basename] on POSIX: what follows the last slash. *)
Definition basename (p : pystr) : pystr := last (split [47%N] p) [].

(** Decimal digits of a natural number, as [str(int)] prints them. *)
Fixpoint digits_fuel (fuel : nat) (n : N) (acc : pystr) : pystr :=
  match fuel with
  | O => acc
  | S f =>
      let acc' := (48 + n mod 10)%N :: acc in
      if (n <? 10)%N then acc' else digits_fuel f (n / 10)%N acc'
  end.

Definition of_N (n : N) : pystr := digits_fuel (S (N.to_nat (N.log2 n))) n [].

Definition of_Z (z : Z) : pystr :=
  match z with
  | Zneg p => 45%N :: of_N (Npos p)
  | _ => of_N (Z.to_N z)
  end.

End PyStr.

Import PyStr.

(* ================================================================== *)
(** * Python values, exceptions, floats *)
(* ================================================================== *)

Module Py.

(** The exceptions the modelled code can meet; all of them are subclasses
    of [Exception], which is what the handlers of the source catch. *)
Inductive exn : Type :=
| AttributeError
| TypeError
| KeyError
| IndexError
| JSONDecodeError
| ValueError
| UnicodeError
| ServiceError (code : pystr).

Inductive result (A : Type) : Type :=
| Ok (a : A)
| Raise (e : exn).
Arguments Ok {A} a.
Arguments Raise {A} e.

Definition bind {A B} (c : result A) (k : A -> result B) : result B :=
  match c with
  | Ok a => k a
  | Raise e => Raise e
  end.

(** [try: c  except Exception: h] *)
Definition try_except {A} (c : result A) (h : exn -> result A) : result A :=
  match c with
  | Ok a => Ok a
  | Raise e => h e
  end.

(** Binary64 floats as IEEE-754 data. *)
Definition float := spec_float.

Definition f64_round (neg : bool) (m : positive) (e : Z) : float :=
  binary_round 53 1024 neg m e.

(** [float(text)] for a decimal numeral: [m * 10 ^ e10], rounded to the
    nearest binary64, ties to even; an overflow gives infinity. *)
Definition float_of_decimal (neg : bool) (m : N) (e10 : Z) : float :=
  match m with
  | N0 => S754_zero neg
  | Npos p =>
      match e10 with
      | Zneg k =>
          SFdiv 53 1024 (S754_finite neg p 0)
                        (S754_finite false (Pos.pow 10 k) 0)
      | Z0 => f64_round neg p 0
      | Zpos k => f64_round neg (p * Pos.pow 10 k) 0
      end
  end.

(** JSON-shaped Python values. A [dict] keeps its keys in insertion order
    and they are strings, as in every object the handlers receive. *)
Inductive pyval : Type :=
| PNone
| PBool (b : bool)
| PInt (z : Z)
| PFloat (f : float)
| PStr (s : pystr)
| PList (l : list pyval)
| PDict (d : list (pystr * pyval)).

(** [bool(v)] *)
Definition truthy (v : pyval) : bool :=
  match v with
  | PNone => false
  | PBool b => b
  | PInt z => negb (z =? 0)%Z
  | PFloat (S754_zero _) => false
  | PFloat _ => true
  | PStr s => match s with [] => false | _ => true end
  | PList l => match l with [] => false | _ => true end
  | PDict d => match d with [] => false | _ => true end
  end.

(** [a or b] *)
Definition py_or (a b : pyval) : pyval := if truthy a then a else b.

(** [isinstance(v, str)], [isinstance(v, dict)], [isinstance(v, list)] *)
Definition is_str (v : pyval) : bool :=
  match v with PStr _ => true | _ => false end.
Definition is_dict (v : pyval) : bool :=
  match v with PDict _ => true | _ => false end.
Definition is_list (v : pyval) : bool :=
  match v with PList _ => true | _ => false end.

(** [v == s] for a string literal [s] *)
Definition eq_str (v : pyval) (s : pystr) : bool :=
  match v with PStr t => PyStr.eqb t s | _ => false end.

(** Dictionary lookup and [d[k] = v]. *)
Fixpoint lookup (d : list (pystr * pyval)) (k : pystr) : option pyval :=
  match d with
  | [] => None
  | (k', v) :: d' => if PyStr.eqb k' k then Some v else lookup d' k
  end.

Fixpoint dict_set (d : list (pystr * pyval)) (k : pystr) (v : pyval)
  : list (pystr * pyval) :=
  match d with
  | [] => [(k, v)]
  | (k', v') :: d' =>
      if PyStr.eqb k' k then (k', v) :: d' else (k', v') :: dict_set d' k v
  end.

(** [v.get(k, default)]: only a [dict] has the method. *)
Definition py_get (v : pyval) (k : pystr) (default : pyval) : result pyval :=
  match v with
  | PDict d => Ok (match lookup d k with Some x => x | None => default end)
  | _ => Raise AttributeError
  end.

(** [v[k]] for a string key. *)
Definition py_getitem (v : pyval) (k : pystr) : result pyval :=
  match v with
  | PDict d => match lookup d k with Some x => Ok x | None => Raise KeyError end
  | _ => Raise TypeError
  end.

(** [v[k] = x] for a string key. *)
Definition py_setitem (v : pyval) (k : pystr) (x : pyval) : result pyval :=
  match v with
  | PDict d => Ok (PDict (dict_set d k x))
  | _ => Raise TypeError
  end.

(** [v[0]] *)
Definition py_first (v : pyval) : result pyval :=
  match v with
  | PList (x :: _) => Ok x
  | PList [] => Raise IndexError
  | PStr (c :: _) => Ok (PStr [c])
  | PStr [] => Raise IndexError
  | PDict _ => Raise KeyError
  | _ => Raise TypeError
  end.

(** What [for x in v] walks through. *)
Definition py_iter (v : pyval) : result (list pyval) :=
  match v with
  | PList l => Ok l
  | PStr s => Ok (map (fun c => PStr [c]) s)
  | PDict d => Ok (map (fun kv => PStr (fst kv)) d)
  | _ => Raise TypeError
  end.

(** [needle in v] for a string literal [needle]. *)
Definition py_in (needle : pystr) (v : pyval) : result bool :=
  match v with
  | PStr s => Ok (contains needle s)
  | PList l => Ok (existsb (fun x => eq_str x needle) l)
  | PDict d => Ok (existsb (fun kv => PyStr.eqb (fst kv) needle) d)
  | _ => Raise TypeError
  end.

(** [v.strip()], a method of [str] only. *)
Definition py_strip (v : pyval) : result pystr :=
  match v with
  | PStr s => Ok (strip s)
  | _ => Raise AttributeError
  end.

(** What CPython prints for floats and containers is taken as given:
    the shortest digits that read back as the same float, and the quoting
    of the strings inside a list or a dict. *)
Class Runtime : Type := { py_repr : pyval -> pystr }.

(** [str(v)] *)
Definition py_str `{Runtime} (v : pyval) : pystr :=
  match v with
  | PStr s => s
  | PNone => u "None"
  | PBool true => u "True"
  | PBool false => u "False"
  | PInt z => of_Z z
  | _ => py_repr v
  end.

End Py.

Import Py.

Notation "x <- c ;; k" := (bind c (fun x => k))
  (at level 61, c at next level, right associativity).

(* ================================================================== *)
(** * Regular expressions of the [re] module *)
(* ================================================================== *)

Module Re.

(** The fragment the source uses.  [Rep a lo hi] is the greedy
    repetition [a{lo,hi}] ([hi = None]: unbounded), [WordB] is [\b]. *)
Inductive regex : Type :=
| Eps
| Cls (p : N -> bool)
| Seq (a b : regex)
| Alt (a b : regex)
| Rep (a : regex) (lo : nat) (hi : option nat)
| WordB.

(** [\w] on the ASCII range (the only text [\b] is run on is the output of
    [json.dumps], which is ASCII). *)
Definition is_word (c : N) : bool :=
  ((48 <=? c) && (c <=? 57) || (65 <=? c) && (c <=? 90) ||
   (97 <=? c) && (c <=? 122) || (c =? 95))%N.

Definition word_before (prev : option N) : bool :=
  match prev with Some c => is_word c | None => false end.

Definition word_after (s : pystr) : bool :=
  match s with c :: _ => is_word c | [] => false end.

Definition boundary (prev : option N) (s : pystr) : bool :=
  xorb (word_before prev) (word_after s).

(** Backtracking matcher in continuation-passing style.  [prev] is the
    code point before the current position, [k] is what remains to be
    matched.  Alternatives are tried in the order of the [re] module: the
    left branch first, one more round of a repetition before stopping.
    A round of a repetition has to consume input. *)
Section Matcher.
Context {A : Type}.

Definition cont : Type := option N -> pystr -> option A.

(** The rounds of a greedy repetition of [body]: at most [fuel] of them,
    at least [lo], at most [hi]. *)
Fixpoint rep_loop (body : option N -> pystr -> cont -> option A) (k : cont)
  (fuel lo : nat) (hi : option nat) (prev : option N) (s : pystr)
  {struct fuel} : option A :=
  let stop := match lo with O => k prev s | S _ => None end in
  match fuel with
  | O => stop
  | S fuel' =>
      match hi with
      | Some O => stop
      | _ =>
          match
            body prev s
              (fun prev' s' =>
                 if (List.length s' <? List.length s)%nat
                 then rep_loop body k fuel' (pred lo) (option_map pred hi)
                        prev' s'
                 else None)
          with
          | Some x => Some x
          | None => stop
          end
      end
  end.

Definition cls_step (p : N -> bool) (prev : option N) (s : pystr) (k : cont)
  : option A :=
  match s with
  | c :: s' => if p c then k (Some c) s' else None
  | [] => None
  end.

Fixpoint run (r : regex) (prev : option N) (s : pystr) (k : cont)
  {struct r} : option A :=
  match r with
  | Eps => k prev s
  | Cls p => cls_step p prev s k
  | Seq a b => run a prev s (fun prev' s' => run b prev' s' k)
  | Alt a b =>
      match run a prev s k with
      | Some x => Some x
      | None => run b prev s k
      end
  | WordB => if boundary prev s then k prev s else None
  | Rep a lo hi =>
      rep_loop (fun prev' s' k' => run a prev' s' k') k
        (List.length s) lo hi prev s
  end.

End Matcher.

(** A match anchored at the current position: the text it covers. *)
Definition match_here (r : regex) (prev : option N) (s : pystr)
  : option pystr :=
  match run r prev s (fun _ rest => Some rest) with
  | Some rest => Some (firstn (List.length s - List.length rest) s)
  | None => None
  end.

(** [re.search(r, s).group(0)]: the match at the leftmost position that
    has one; [None] when there is none. *)
Fixpoint search_from (r : regex) (prev : option N) (s : pystr)
  : option pystr :=
  match match_here r prev s with
  | Some m => Some m
  | None =>
      match s with
      | [] => None
      | c :: s' => search_from r (Some c) s'
      end
  end.

Definition search (r : regex) (s : pystr) : option pystr :=
  search_from r None s.

(** Building blocks.  [digit] is the class [[0-9]]; it also stands for
    [\d], which the source only runs on the ASCII output of [json.dumps]. *)
Definition chr (c : N) : regex := Cls (N.eqb c).
Definition any : regex := Cls (fun _ => true).
Definition is_digit (c : N) : bool := ((48 <=? c) && (c <=? 57))%N.
Definition digit : regex := Cls is_digit.
Definition plus (a : regex) : regex := Rep a 1 None.
Definition star (a : regex) : regex := Rep a 0 None.
Definition opt (a : regex) : regex := Rep a 0 (Some 1).

End Re.

(* ================================================================== *)
(** * The [json] module: [loads] and [dumps] *)
(* ================================================================== *)

Module Json.

Definition is_ws (c : N) : bool :=
  ((c =? 32) || (c =? 9) || (c =? 10) || (c =? 13))%N.

Fixpoint skip_ws (s : pystr) : pystr :=
  match s with
  | c :: s' => if is_ws c then skip_ws s' else s
  | [] => []
  end.

Definition hexval (c : N) : option N :=
  if ((48 <=? c) && (c <=? 57))%N then Some (c - 48)%N
  else if ((97 <=? c) && (c <=? 102))%N then Some (c - 87)%N
  else if ((65 <=? c) && (c <=? 70))%N then Some (c - 55)%N
  else None.

Definition hex4 (a b c d : N) : option N :=
  match hexval a, hexval b, hexval c, hexval d with
  | Some x, Some y, Some z, Some w => Some (((x * 16 + y) * 16 + z) * 16 + w)%N
  | _, _, _, _ => None
  end.

Definition simple_escape (c : N) : option N :=
  if (c =? 34)%N then Some 34%N            (* quote *)
  else if (c =? 92)%N then Some 92%N       (* backslash *)
  else if (c =? 47)%N then Some 47%N       (* slash *)
  else if (c =? 98)%N then Some 8%N        (* b: backspace *)
  else if (c =? 102)%N then Some 12%N      (* f: form feed *)
  else if (c =? 110)%N then Some 10%N      (* n: line feed *)
  else if (c =? 114)%N then Some 13%N      (* r: carriage return *)
  else if (c =? 116)%N then Some 9%N       (* t: tab *)
  else None.

Definition is_high_surrogate (c : N) : bool := ((55296 <=? c) && (c <=? 56319))%N.
Definition is_low_surrogate (c : N) : bool := ((56320 <=? c) && (c <=? 57343))%N.

(** The low half of a surrogate pair written [\uXXXX] at the head of [s]. *)
Definition low_escape (s : pystr) : option N :=
  match s with
  | x :: y :: a :: b :: c :: d :: _ =>
      if ((x =? 92) && (y =? 117))%N then
        match hex4 a b c d with
        | Some lo => if is_low_surrogate lo then Some lo else None
        | None => None
        end
      else None
  | _ => None
  end.

(** The body of a string literal, after its opening quote (strict mode:
    a raw control character ends the parse). [acc] is the text so far, in
    reverse; [skip] counts the code points of a low surrogate escape that
    was already read together with its high half. *)
Fixpoint string_body (skip : nat) (acc : pystr) (s : pystr) {struct s}
  : option (pystr * pystr) :=
  match s with
  | [] => None
  | c :: s' =>
      match skip with
      | S n => string_body n acc s'
      | O =>
          if (c =? 34)%N then Some (rev acc, s')
          else if (c =? 92)%N then
            match s' with
            | [] => None
            | e :: s2 =>
                if (e =? 117)%N then
                  match s2 with
                  | a :: b :: h :: d :: s3 =>
                      match hex4 a b h d with
                      | None => None
                      | Some cp =>
                          match (if is_high_surrogate cp then low_escape s3
                                 else None) with
                          | Some lo =>
                              string_body 11
                                (((cp - 55296) * 1024 + (lo - 56320) + 65536)%N
                                   :: acc) s'
                          | None => string_body 5 (cp :: acc) s'
                          end
                      end
                  | _ => None
                  end
                else
                  match simple_escape e with
                  | Some x => string_body 1 (x :: acc) s'
                  | None => None
                  end
            end
          else if (c <? 32)%N then None
          else string_body 0 (c :: acc) s'
      end
  end.

Definition span_digits (s : pystr) : pystr * pystr := span Re.is_digit s.

Definition digits_value (ds : pystr) : N :=
  fold_left (fun acc c => (acc * 10 + (c - 48))%N) ds 0%N.

(** The integer part of a numeral: [0] or a run that starts with [1-9]. *)
Definition int_part (s : pystr) : option (pystr * pystr) :=
  match s with
  | c :: s' =>
      if (c =? 48)%N then Some ([c], s')
      else if Re.is_digit c then Some (span_digits s)
      else None
  | [] => None
  end.

(** [(\.\d+)?] *)
Definition frac_part (s : pystr) : option pystr * pystr :=
  match s with
  | c :: s' =>
      if (c =? 46)%N then
        match span_digits s' with
        | ([], _) => (None, s)
        | (ds, r) => (Some ds, r)
        end
      else (None, s)
  | [] => (None, s)
  end.

(** [([eE][-+]?\d+)?], as the signed exponent *)
Definition exp_part (s : pystr) : option Z * pystr :=
  match s with
  | c :: s' =>
      if ((c =? 101) || (c =? 69))%N then
        let '(neg, s1) :=
          match s' with
          | x :: t =>
              if (x =? 45)%N then (true, t)
              else if (x =? 43)%N then (false, t)
              else (false, s')
          | [] => (false, s')
          end in
        match span_digits s1 with
        | ([], _) => (None, s)
        | (ds, r) =>
            let e := Z.of_N (digits_value ds) in
            (Some (if neg then (- e)%Z else e), r)
        end
      else (None, s)
  | [] => (None, s)
  end.

(** A numeral: an [int] when it has neither fraction nor exponent, a
    [float] otherwise. *)
Definition number (s : pystr) : option (pyval * pystr) :=
  let '(neg, s0) :=
    match s with
    | x :: t => if (x =? 45)%N then (true, t) else (false, s)
    | [] => (false, s)
    end in
  match int_part s0 with
  | None => None
  | Some (ip, r0) =>
      let '(fp, r1) := frac_part r0 in
      let '(ep, r2) := exp_part r1 in
      match fp, ep with
      | None, None =>
          let n := Z.of_N (digits_value ip) in
          Some (PInt (if neg then (- n)%Z else n), r2)
      | _, _ =>
          let fd := match fp with Some ds => ds | None => [] end in
          let e := match ep with Some e => e | None => 0%Z end in
          Some (PFloat (float_of_decimal neg (digits_value (ip ++ fd))
                          (e - Z.of_nat (List.length fd))), r2)
      end
  end.

Definition strip_prefix (p s : pystr) : option pystr :=
  if startswith p s then Some (skipn (List.length p) s) else None.

(** The constants of the scanner, tried before a numeral. *)
Definition literal (s : pystr) : option (pyval * pystr) :=
  match strip_prefix (u "null") s with
  | Some r => Some (PNone, r)
  | None =>
  match strip_prefix (u "true") s with
  | Some r => Some (PBool true, r)
  | None =>
  match strip_prefix (u "false") s with
  | Some r => Some (PBool false, r)
  | None =>
  match strip_prefix (u "NaN") s with
  | Some r => Some (PFloat S754_nan, r)
  | None =>
  match strip_prefix (u "Infinity") s with
  | Some r => Some (PFloat (S754_infinity false), r)
  | None =>
  match strip_prefix (u "-Infinity") s with
  | Some r => Some (PFloat (S754_infinity true), r)
  | None => None
  end end end end end end.

Inductive parsed (A : Type) : Type :=
| Parsed (a : A) (rest : pystr)
| Invalid
| NoFuel.
Arguments Parsed {A} a rest.
Arguments Invalid {A}.
Arguments NoFuel {A}.

(** The scanner. [value] reads one value at the head of [s]; [elements]
    reads the values of an array after its bracket, [members] the pairs of
    an object after its brace ([s] is at the first non-blank).  A key met
    twice keeps its place and takes the later value. *)
Fixpoint value (fuel : nat) (s : pystr) {struct fuel} : parsed pyval :=
  match fuel with
  | O => NoFuel
  | S f =>
      match s with
      | [] => Invalid
      | c :: s' =>
          if (c =? 34)%N then
            match string_body 0 [] s' with
            | Some (str, r) => Parsed (PStr str) r
            | None => Invalid
            end
          else if (c =? 123)%N then
            match skip_ws s' with
            | [] => Invalid
            | x :: r =>
                if (x =? 125)%N then Parsed (PDict []) r
                else members f (x :: r) []
            end
          else if (c =? 91)%N then
            match skip_ws s' with
            | [] => Invalid
            | x :: r =>
                if (x =? 93)%N then Parsed (PList []) r
                else elements f (x :: r) []
            end
          else
            match literal s with
            | Some (v, r) => Parsed v r
            | None =>
                match number s with
                | Some (v, r) => Parsed v r
                | None => Invalid
                end
            end
      end
  end
with elements (fuel : nat) (s : pystr) (acc : list pyval) {struct fuel}
  : parsed pyval :=
  match fuel with
  | O => NoFuel
  | S f =>
      match value f s with
      | Parsed v r =>
          match skip_ws r with
          | [] => Invalid
          | x :: r1 =>
              if (x =? 44)%N then elements f (skip_ws r1) (v :: acc)
              else if (x =? 93)%N then Parsed (PList (rev (v :: acc))) r1
              else Invalid
          end
      | Invalid => Invalid
      | NoFuel => NoFuel
      end
  end
with members (fuel : nat) (s : pystr) (acc : list (pystr * pyval))
  {struct fuel} : parsed pyval :=
  match fuel with
  | O => NoFuel
  | S f =>
      match s with
      | [] => Invalid
      | x :: s1 =>
          if negb (x =? 34)%N then Invalid
          else
            match string_body 0 [] s1 with
            | None => Invalid
            | Some (key, r) =>
                match skip_ws r with
                | [] => Invalid
                | y :: r1 =>
                    if negb (y =? 58)%N then Invalid
                    else
                      match value f (skip_ws r1) with
                      | Parsed v r2 =>
                          match skip_ws r2 with
                          | [] => Invalid
                          | z :: r3 =>
                              if (z =? 44)%N
                              then members f (skip_ws r3) (dict_set acc key v)
                              else if (z =? 125)%N
                              then Parsed (PDict (dict_set acc key v)) r3
                              else Invalid
                          end
                      | Invalid => Invalid
                      | NoFuel => NoFuel
                      end
                end
            end
      end
  end.

(** [json.loads(s)]: one value, blanks around it, nothing else. *)
Definition loads (s : pystr) : result pyval :=
  let s0 := skip_ws s in
  match value (2 * List.length s0 + 2) s0 with
  | Parsed v r =>
      match skip_ws r with
      | [] => Ok v
      | _ :: _ => Raise JSONDecodeError
      end
  | Invalid => Raise JSONDecodeError
  | NoFuel => Raise JSONDecodeError
  end.

(** Serialisation, with the defaults of [json.dumps]: [ensure_ascii],
    separators [", "] and [": "]. *)
Definition hexdigit (n : N) : N :=
  if (n <? 10)%N then (48 + n)%N else (87 + n)%N.

Definition escape_u (c : N) : pystr :=
  [92; 117; hexdigit (c / 4096 mod 16); hexdigit (c / 256 mod 16);
   hexdigit (c / 16 mod 16); hexdigit (c mod 16)]%N.

Definition escape_cp (c : N) : pystr :=
  if (c =? 34)%N then [92; 34]%N
  else if (c =? 92)%N then [92; 92]%N
  else if (c =? 10)%N then [92; 110]%N
  else if (c =? 13)%N then [92; 114]%N
  else if (c =? 9)%N then [92; 116]%N
  else if (c =? 12)%N then [92; 102]%N
  else if (c =? 8)%N then [92; 98]%N
  else if ((32 <=? c) && (c <=? 126))%N then [c]
  else if (c <? 65536)%N then escape_u c
  else escape_u (55296 + (c - 65536) / 1024)%N
       ++ escape_u (56320 + (c - 65536) mod 1024)%N.

Definition dumps_str (s : pystr) : pystr :=
  [34%N] ++ flat_map escape_cp s ++ [34%N].

Definition dumps_float `{Runtime} (f : float) : pystr :=
  match f with
  | S754_nan => u "NaN"
  | S754_infinity false => u "Infinity"
  | S754_infinity true => u "-Infinity"
  | _ => py_repr (PFloat f)
  end.

Definition newline_indent (indent : option nat) (level : nat) : pystr :=
  match indent with
  | None => []
  | Some n => 10%N :: repeat 32%N (n * level)
  end.

Definition item_sep (indent : option nat) (level : nat) : pystr :=
  match indent with
  | None => u ", "
  | Some _ => 44%N :: newline_indent indent level
  end.

(** [json.dumps(v, indent=indent)] at nesting depth [level]. *)
Fixpoint dumps_at `{Runtime} (indent : option nat) (level : nat) (v : pyval)
  {struct v} : pystr :=
  match v with
  | PNone => u "null"
  | PBool true => u "true"
  | PBool false => u "false"
  | PInt z => of_Z z
  | PFloat f => dumps_float f
  | PStr s => dumps_str s
  | PList [] => u "[]"
  | PList l =>
      u "[" ++ newline_indent indent (S level)
        ++ join (item_sep indent (S level))
             ((fix items (l : list pyval) : list pystr :=
                 match l with
                 | [] => []
                 | x :: l' => dumps_at indent (S level) x :: items l'
                 end) l)
        ++ newline_indent indent level ++ u "]"
  | PDict [] => u "{}"
  | PDict d =>
      u "{" ++ newline_indent indent (S level)
        ++ join (item_sep indent (S level))
             ((fix pairs (d : list (pystr * pyval)) : list pystr :=
                 match d with
                 | [] => []
                 | (k, x) :: d' =>
                     (dumps_str k ++ u ": " ++ dumps_at indent (S level) x)
                       :: pairs d'
                 end) d)
        ++ newline_indent indent level ++ u "}"
  end.

Definition dumps `{Runtime} (v : pyval) : pystr := dumps_at None 0 v.
Definition dumps_indent `{Runtime} (n : nat) (v : pyval) : pystr :=
  dumps_at (Some n) 0 v.

End Json.

(* ================================================================== *)
(** * [receipt_bedrock_processor.py] *)
(* ================================================================== *)

Module Bedrock.

Definition RUPEE : pystr := u "₹".
Definition DOLLAR : pystr := u "$".
Definition EURO : pystr := u "€".

(** [r'([0-9]+(?:\.[0-9]+)?)'] *)
Definition NUMBER_RE : Re.regex :=
  Re.Seq (Re.plus Re.digit)
         (Re.opt (Re.Seq (Re.chr 46) (Re.plus Re.digit))).

(** [float(text)] on the numerals [digits] and [digits.digits], the only
    texts [NUMBER_RE] can hand to it. *)
Definition py_float (text : pystr) : result float :=
  let '(ip, r) := Json.span_digits text in
  match ip, r with
  | [], _ => Raise ValueError
  | _ :: _, [] => Ok (float_of_decimal false (Json.digits_value ip) 0)
  | _ :: _, c :: r' =>
      if (c =? 46)%N then
        match Json.span_digits r' with
        | (d :: fd, []) =>
            Ok (float_of_decimal false (Json.digits_value (ip ++ d :: fd))
                  (- Z.of_nat (List.length (d :: fd))))
        | _ => Raise ValueError
        end
      else Raise ValueError
  end.

Section WithRuntime.
Context `{Runtime}.

(** [parse_amount(s)]: the result is [None] or a [float]. *)
Definition parse_amount (s : pyval) : pyval :=
  if negb (truthy s) then PNone
  else
    let s := strip (replace (u ",") [] (py_str s)) in
    match
      Re.search NUMBER_RE
        (replace EURO [] (replace DOLLAR [] (replace RUPEE [] s)))
    with
    | Some m =>
        match py_float m with
        | Ok f => PFloat f
        | Raise _ => PNone
        end
    | None => PNone
    end.

(** [make_prompt(summary_obj)] *)
Definition make_prompt (summary_obj : pyval) : result pystr :=
  v <- py_get summary_obj (u "Vendor") PNone ;;
  let vendor := py_or v (PStr []) in
  t <- py_get summary_obj (u "Total") PNone ;;
  let total := py_or t (PStr []) in
  d <- py_get summary_obj (u "Date") PNone ;;
  let date := py_or d (PStr []) in
  i <- py_get summary_obj (u "Items") PNone ;;
  let items := py_or i (PList []) in
  items_text <-
    (if truthy items
     then its <- py_iter items ;;
          Ok (join (u "
") (map (fun it => u "- " ++ py_str it) its))
     else Ok (u "(none)")) ;;
  Ok (u "Human: You are an expert assistant that converts extracted receipt data into a friendly one-line summary and a normalized JSON object.
Here is the extracted data:

Vendor: " ++ py_str vendor ++ u "
Total: " ++ py_str total ++ u "
Date: " ++ py_str date ++ u "
Items:
" ++ items_text ++ u "

Task:
1) Produce a one-line English summary (concise).
2) Produce ONLY valid JSON (no trailing text) with keys:
   - vendor (string),
   - date (ISO 8601 YYYY-MM-DD or empty string),
   - amount (number or null),
   - currency (string or empty),
   - items (array of strings),
   - category (short string classification like 'Groceries','Transport','Auto','Dining','Other').

Return first the one-line summary, then on a new line write exactly:
===JSON===
and then the JSON only.

Assistant:").

End WithRuntime.

(** [extract_currency(s)] *)
Definition extract_currency (s : pyval) : result pystr :=
  if negb (truthy s) then Ok []
  else
    a <- py_in RUPEE s ;;
    b <- (if a then Ok true else py_in (u "INR") s) ;;
    c <- (if b then Ok true else py_in (u "Rs") s) ;;
    if c then Ok (u "INR")
    else
      d <- py_in DOLLAR s ;;
      if d then Ok (u "USD")
      else
        e <- py_in EURO s ;;
        if e then Ok (u "EUR") else Ok [].

(** The text of the model, out of the body of the provider's response
    (the second half of [call_bedrock_messages], from [json.loads(raw)] on). *)

(** Schema 1: [for c in output: if isinstance(c, dict) and
    c.get("type") == "text" and c.get("text"): text_out = c["text"]; break] *)
Fixpoint newer_loop (output : list pyval) : result pyval :=
  match output with
  | [] => Ok PNone
  | c :: rest =>
      if is_dict c then
        ty <- py_get c (u "type") PNone ;;
        if eq_str ty (u "text") then
          tx <- py_get c (u "text") PNone ;;
          if truthy tx then py_getitem c (u "text") else newer_loop rest
        else newer_loop rest
      else newer_loop rest
  end.

(** Schema 2, inner loop: [for c in out.get("content", []): if
    c.get("type") == "text" and c.get("text"): text_out = c["text"]; break] *)
Fixpoint content_loop (content : list pyval) : result pyval :=
  match content with
  | [] => Ok PNone
  | c :: rest =>
      ty <- py_get c (u "type") PNone ;;
      if eq_str ty (u "text") then
        tx <- py_get c (u "text") PNone ;;
        if truthy tx then py_getitem c (u "text") else content_loop rest
      else content_loop rest
  end.

(** Schema 2, outer loop: [for out in outputs: if out.get("type") ==
    "message": (inner loop); if text_out: break] *)
Fixpoint outputs_loop (outputs : list pyval) : result pyval :=
  match outputs with
  | [] => Ok PNone
  | out :: rest =>
      ty <- py_get out (u "type") PNone ;;
      if eq_str ty (u "message") then
        content <- py_get out (u "content") (PList []) ;;
        items <- py_iter content ;;
        text_out <- content_loop items ;;
        if truthy text_out then Ok text_out else outputs_loop rest
      else outputs_loop rest
  end.

(** [find_text(obj)] *)
Fixpoint find_text (obj : pyval) : pyval :=
  match obj with
  | PDict d =>
      (fix items (d : list (pystr * pyval)) : pyval :=
         match d with
         | [] => PNone
         | (k, v) :: d' =>
             if PyStr.eqb k (u "text") && is_str v then v
             else
               let res := find_text v in
               if truthy res then res else items d'
         end) d
  | PList l =>
      (fix elems (l : list pyval) : pyval :=
         match l with
         | [] => PNone
         | item :: l' =>
             let res := find_text item in
             if truthy res then res else elems l'
         end) l
  | _ => PNone
  end.

Definition extract_text (raw : pystr) : result pyval :=
  match Json.loads raw with
  | Raise _ => Ok (PStr raw)
  | Ok parsed =>
      o <- py_get parsed (u "output") (PDict []) ;;
      output <- py_get o (u "content") (PList []) ;;
      text_out <-
        (match output with
         | PList l => newer_loop l
         | _ => Ok PNone
         end) ;;
      text_out <-
        (if negb (truthy text_out) then
           outputs <- py_get parsed (u "outputs") (PList []) ;;
           match outputs with
           | PList l => outputs_loop l
           | _ => Ok text_out
           end
         else Ok text_out) ;;
      let text_out :=
        if negb (truthy text_out) then find_text parsed else text_out in
      Ok (if truthy text_out then text_out else PStr raw)
  end.

Definition SEPARATOR : pystr := u "===JSON===".

(** [r'\{.*\}'] with [re.DOTALL] *)
Definition BRACES_RE : Re.regex :=
  Re.Seq (Re.chr 123) (Re.Seq (Re.star Re.any) (Re.chr 125)).

Section WithRuntime2.
Context `{Runtime}.

(** [parse_bedrock_output(raw)]: the pair [(summary_text, parsed_json)]. *)
Definition parse_bedrock_output (raw : pyval) : result (pystr * pyval) :=
  if negb (truthy raw) then Ok ([], PDict [])
  else
    let raw := py_str raw in
    let parts := split SEPARATOR raw in
    let summary_text :=
      match parts with p0 :: _ => strip p0 | [] => [] end in
    let json_part :=
      match parts with _ :: p1 :: _ => strip p1 | _ => [] end in
    parsed_json <-
      (match json_part with
       | _ :: _ =>
           try_except (Json.loads json_part)
             (fun _ =>
                match Re.search BRACES_RE raw with
                | Some m => try_except (Json.loads m) (fun _ => Ok (PDict []))
                | None => Ok (PDict [])
                end)
       | [] => Ok (PDict [])
       end) ;;
    Ok (summary_text, parsed_json).

(** Lines 251-252 of [lambda_handler]: amount and currency. *)
Definition normalize (summary_json summary_data : pyval) : result pyval :=
  a <- py_get summary_json (u "amount") PNone ;;
  x <- (if truthy a then Ok a else py_get summary_data (u "Total") PNone) ;;
  summary_json <- py_setitem summary_json (u "amount") (parse_amount x) ;;
  c <- py_get summary_json (u "currency") PNone ;;
  cur <-
    (if truthy c then Ok c
     else
       t <- py_get summary_data (u "Total") (PStr []) ;;
       s <- extract_currency t ;;
       Ok (PStr s)) ;;
  py_setitem summary_json (u "currency") cur.

End WithRuntime2.

(** ** The blob store, the model endpoint and the handler *)

Definition bytes := list N.

(** [s.encode("utf-8")]: a lone surrogate cannot be encoded. *)
Definition encode_cp (c : N) : result bytes :=
  if (c <? 128)%N then Ok [c]
  else if (c <? 2048)%N then Ok [192 + c / 64; 128 + c mod 64]%N
  else if ((55296 <=? c) && (c <=? 57343))%N then Raise UnicodeError
  else if (c <? 65536)%N
  then Ok [224 + c / 4096; 128 + c / 64 mod 64; 128 + c mod 64]%N
  else Ok [240 + c / 262144; 128 + c / 4096 mod 64;
           128 + c / 64 mod 64; 128 + c mod 64]%N.

Fixpoint encode_utf8 (s : pystr) : result bytes :=
  match s with
  | [] => Ok []
  | c :: s' =>
      b <- encode_cp c ;;
      r <- encode_utf8 s' ;;
      Ok (b ++ r)
  end.

(** What the invocation cannot decide: the answer of the model endpoint
    to a request body (already read and decoded, as the first half of
    [call_bedrock_messages] does), the content of an object read from the
    store, and which of the successive [put_object] calls fail. *)
Record env : Type := {
  invoke_model : pystr -> result pystr;
  get_object : pyval -> pystr -> result pystr;
  put_fault : nat -> option exn
}.

Record object : Type := {
  obj_bucket : pyval;
  obj_key : pystr;
  obj_body : bytes
}.

(** The objects written so far (latest first), the number of
    [put_object] calls made, and the log. *)
Record state : Type := {
  written : list object;
  put_calls : nat;
  log : list pystr
}.

Definition M (A : Type) : Type := state -> result A * state.

Definition ret {A} (a : A) : M A := fun st => (Ok a, st).
Definition raise {A} (e : exn) : M A := fun st => (Raise e, st).
Definition lift {A} (c : result A) : M A := fun st => (c, st).

Definition bindM {A B} (c : M A) (k : A -> M B) : M B :=
  fun st =>
    match c st with
    | (Ok a, st') => k a st'
    | (Raise e, st') => (Raise e, st')
    end.

(** [try: c  except Exception: h] *)
Definition tryM {A} (c : M A) (h : exn -> M A) : M A :=
  fun st =>
    match c st with
    | (Ok a, st') => (Ok a, st')
    | (Raise e, st') => h e st'
    end.

Definition add_log (msg : pystr) (st : state) : state :=
  {| written := written st; put_calls := put_calls st; log := msg :: log st |}.

(** [logger.info(msg, ...)] and [logger.exception(msg)]: the message
    template is recorded. *)
Definition logger (msg : pystr) : M unit :=
  fun st => (Ok tt, add_log msg st).

(** The state after a [put_object] call that went through, and after one
    that failed. *)
Definition add_object (bucket : pyval) (key : pystr) (body : bytes)
  (st : state) : state :=
  {| written := {| obj_bucket := bucket; obj_key := key; obj_body := body |}
                  :: written st;
     put_calls := S (put_calls st); log := log st |}.

Definition add_call (st : state) : state :=
  {| written := written st; put_calls := S (put_calls st); log := log st |}.

Definition put_object (E : env) (bucket : pyval) (key : pystr) (body : bytes)
  : M unit :=
  fun st =>
    match put_fault E (put_calls st) with
    | Some e => (Raise e, add_call st)
    | None => (Ok tt, add_object bucket key body st)
    end.


Notation "x <~ c ;; k" := (bindM c (fun x => k))
  (at level 61, c at next level, right associativity).
Notation "c ;;; k" := (bindM c (fun _ => k))
  (at level 61, right associativity).

Definition TEXTRACT_PREFIX : pystr := u "textract-output/".
Definition BEDROCK_PREFIX : pystr := u "bedrock-output/".
Definition SUMMARY_SUFFIX : pystr := u ".summary.json".

(** [key.startswith(p)] and [key.endswith(p)], methods of [str]. *)
Definition py_startswith (v : pyval) (p : pystr) : result bool :=
  match v with
  | PStr s => Ok (startswith p s)
  | _ => Raise AttributeError
  end.

Definition py_endswith (v : pyval) (p : pystr) : result bool :=
  match v with
  | PStr s => Ok (endswith p s)
  | _ => Raise AttributeError
  end.

(** [os.path.basename(key).replace(".summary.json", "")] *)
Definition base_name (key : pystr) : pystr :=
  replace SUMMARY_SUFFIX [] (basename key).

Definition error_key (key : pystr) : pystr :=
  BEDROCK_PREFIX ++ base_name key ++ u ".error.txt".
Definition summary_txt_key (key : pystr) : pystr :=
  BEDROCK_PREFIX ++ base_name key ++ u ".summary.txt".
Definition bedrock_json_key (key : pystr) : pystr :=
  BEDROCK_PREFIX ++ base_name key ++ u ".bedrock.json".

(** The two marker payloads. *)
Definition CALL_FAILED : bytes := u "bedrock_call_failed".
Definition SAVE_FAILED : bytes := u "ERROR saving outputs".

Definition response (status : Z) (body : string) : pyval :=
  PDict [(u "statusCode", PInt status); (u "body", PStr (u body))].

Section Handler.
Context `{Runtime}.
Variable E : env.

(** The request of [call_bedrock_messages]. *)
Definition messages_payload (prompt_text : pystr) : pyval :=
  PDict
    [(u "anthropic_version", PStr (u "bedrock-2023-05-31"));
     (u "messages",
      PList
        [PDict
           [(u "role", PStr (u "user"));
            (u "content",
             PList [PDict [(u "type", PStr (u "text"));
                           (u "text", PStr prompt_text)]])]]);
     (u "max_tokens", PInt 400);
     (u "temperature", PFloat (float_of_decimal false 2 (-1)))].

(** [call_bedrock_messages(prompt_text)] *)
Definition call_bedrock_messages (prompt_text : pystr) : result pyval :=
  raw <- invoke_model E (Json.dumps (messages_payload prompt_text)) ;;
  extract_text raw.

(** [record = event["Records"][0]] and the two names read from it. *)
Definition event_target (event : pyval) : result (pyval * pyval) :=
  records <- py_getitem event (u "Records") ;;
  record <- py_first records ;;
  s3 <- py_getitem record (u "s3") ;;
  b <- py_getitem s3 (u "bucket") ;;
  bucket <- py_getitem b (u "name") ;;
  o <- py_getitem s3 (u "object") ;;
  key <- py_getitem o (u "key") ;;
  Ok (bucket, key).

(** First guarded span (lines 231-235): the call and the parse. *)
Definition model_span (prompt : pystr) : M (pystr * pyval) :=
  raw_out <~ lift (call_bedrock_messages prompt) ;;
  logger (u "Raw Bedrock output length: %d") ;;;
  lift (parse_bedrock_output raw_out).

(** Second guarded span (lines 255-258): the two artifacts. *)
Definition save_span (bucket : pyval) (key summary_line : pystr)
  (summary_json : pyval) : M unit :=
  body1 <~ lift (encode_utf8 summary_line) ;;
  put_object E bucket (summary_txt_key key) body1 ;;;
  body2 <~ lift (encode_utf8 (Json.dumps_indent 2 summary_json)) ;;
  put_object E bucket (bedrock_json_key key) body2 ;;;
  logger (u "✅ Saved Bedrock outputs for %s").

(** The [except] clauses of the two spans: log, try to write the marker,
    log once more when that fails too, and raise again what was caught. *)
Definition on_model_failure (bucket : pyval) (key : pystr) (e : exn)
  : M (pystr * pyval) :=
  logger (u "Bedrock call or parse failed") ;;;
  tryM (put_object E bucket (error_key key) CALL_FAILED)
       (fun _ => logger (u "failed to write error marker")) ;;;
  raise e.

Definition on_save_failure (bucket : pyval) (key : pystr) (e : exn)
  : M unit :=
  logger (u "Failed to save Bedrock outputs to S3") ;;;
  tryM (put_object E bucket (error_key key) SAVE_FAILED)
       (fun _ => logger (u "Also failed to write error marker")) ;;;
  raise e.

(** What follows the guard, for an accepted key. *)
Definition process (bucket : pyval) (key : pystr) : M pyval :=
  summary_data <~
    tryM (lift (text <- get_object E bucket key ;; Json.loads text))
         (fun e => logger (u "Failed to load summary JSON from S3") ;;;
                   raise e) ;;
  prompt <~ lift (make_prompt summary_data) ;;
  logger (u "Calling Bedrock model %s for key %s") ;;;
  out <~ tryM (model_span prompt) (on_model_failure bucket key) ;;
  let '(summary_line, summary_json) := out in
  summary_json <~ lift (normalize summary_json summary_data) ;;
  tryM (save_span bucket key summary_line summary_json)
       (on_save_failure bucket key) ;;;
  ret (response 200 "Success").

(** [lambda_handler(event, context)] *)
Definition lambda_handler (event : pyval) : M pyval :=
  logger (u "Received event: %s") ;;;
  target <~
    tryM (lift (event_target event))
         (fun e => logger (u "Invalid event structure") ;;; raise e) ;;
  let '(bucket, key) := target in
  logger (u "Triggered for S3 object: %s/%s") ;;;
  a <~ lift (py_startswith key TEXTRACT_PREFIX) ;;
  b <~ (if a then lift (py_endswith key SUMMARY_SUFFIX) else ret false) ;;
  if negb (a && b) then
    logger (u "Skipping non-summary or wrong prefix: %s") ;;;
    ret (response 200 "skipped")
  else
    match key with
    | PStr k => process bucket k
    | _ => raise AttributeError
    end.

End Handler.

End Bedrock.

(* ================================================================== *)
(** * [receipt_textract_processor.py] *)
(* ================================================================== *)

Module Textract.

(** The dictionary [out] of [parse_textract_expense]: three entries that
    hold [None] or a string, and the list of item lines. *)
Record summary : Type := {
  Vendor : pyval;
  Total : pyval;
  Date : pyval;
  Items : list pystr
}.

Definition empty_summary : summary :=
  {| Vendor := PNone; Total := PNone; Date := PNone; Items := [] |}.

Definition set_vendor (out : summary) (v : pystr) : summary :=
  {| Vendor := PStr v; Total := Total out; Date := Date out;
     Items := Items out |}.
Definition set_total (out : summary) (v : pystr) : summary :=
  {| Vendor := Vendor out; Total := PStr v; Date := Date out;
     Items := Items out |}.
Definition set_date (out : summary) (v : pystr) : summary :=
  {| Vendor := Vendor out; Total := Total out; Date := PStr v;
     Items := Items out |}.
Definition add_item (out : summary) (line : pystr) : summary :=
  {| Vendor := Vendor out; Total := Total out; Date := Date out;
     Items := Items out ++ [line] |}.

(** [(field.get(name, {}).get("Text") or "").strip()] *)
Definition detection_text (field : pyval) (name : pystr) : result pystr :=
  d <- py_get field name (PDict []) ;;
  t <- py_get d (u "Text") PNone ;;
  py_strip (py_or t (PStr [])).

(** The lower-cased type text [t] and the value [v] of a summary field. *)
Definition field_type (field : pyval) : result pystr :=
  t <- detection_text field (u "Type") ;;
  Ok (lower t).

Definition field_value (field : pyval) : result pystr :=
  v <- detection_text field (u "ValueDetection") ;;
  match v with
  | [] => detection_text field (u "LabelDetection")
  | _ :: _ => Ok v
  end.

Definition is_vendor (t : pystr) : bool :=
  contains (u "vendor") t || contains (u "merchant") t
  || contains (u "merchant_name") t.
Definition is_total (t : pystr) : bool :=
  contains (u "total") t || PyStr.eqb t (u "amount").
Definition is_date (t : pystr) : bool := contains (u "date") t.

(** The body of the loop over [SummaryFields]. *)
Definition field_step (out : summary) (field : pyval) : result summary :=
  t <- field_type field ;;
  v <- field_value field ;;
  Ok (if is_vendor t then set_vendor out v
      else if is_total t then set_total out v
      else if is_date t then set_date out v
      else out).

Fixpoint fields_loop (out : summary) (fields : list pyval) : result summary :=
  match fields with
  | [] => Ok out
  | field :: rest =>
      out' <- field_step out field ;;
      fields_loop out' rest
  end.

(** The loop over [LineItemExpenseFields]: the parts of one line. *)
Fixpoint parts_loop (parts : list pystr) (kvs : list pyval)
  : result (list pystr) :=
  match kvs with
  | [] => Ok parts
  | kv :: rest =>
      name <- detection_text kv (u "Type") ;;
      val <- detection_text kv (u "ValueDetection") ;;
      match name, val with
      | _ :: _, _ :: _ => parts_loop (parts ++ [name ++ u ": " ++ val]) rest
      | _, _ :: _ => parts_loop (parts ++ [val]) rest
      | _, [] => parts_loop parts rest
      end
  end.

Fixpoint lines_loop (out : summary) (lines : list pyval) : result summary :=
  match lines with
  | [] => Ok out
  | line :: rest =>
      f <- py_get line (u "LineItemExpenseFields") (PList []) ;;
      kvs <- py_iter f ;;
      parts <- parts_loop [] kvs ;;
      match parts with
      | _ :: _ => lines_loop (add_item out (join (u " | ") parts)) rest
      | [] => lines_loop out rest
      end
  end.

Fixpoint groups_loop (out : summary) (groups : list pyval) : result summary :=
  match groups with
  | [] => Ok out
  | grp :: rest =>
      l <- py_get grp (u "LineItems") (PList []) ;;
      lines <- py_iter l ;;
      out' <- lines_loop out lines ;;
      groups_loop out' rest
  end.

(** Lines 19-45: the structured fields of one document. *)
Definition document_summary (doc : pyval) : result summary :=
  f <- py_get doc (u "SummaryFields") (PList []) ;;
  fields <- py_iter f ;;
  out <- fields_loop empty_summary fields ;;
  g <- py_get doc (u "LineItemGroups") (PList []) ;;
  groups <- py_iter g ;;
  groups_loop out groups.

(** Lines 16-45: [docs = response.get("ExpenseDocuments", [])], then
    [doc = docs[0]] when there are documents. *)
Definition primary_path (response : pyval) : result summary :=
  docs <- py_get response (u "ExpenseDocuments") (PList []) ;;
  if truthy docs then
    doc <- py_first docs ;;
    document_summary doc
  else Ok empty_summary.

Definition is_currency_symbol (c : N) : bool :=
  ((c =? 8377) || (c =? 36) || (c =? 8364))%N.

(** The class [[,\d{3}]]: a comma, a digit, a brace or a 3. *)
Definition group_class (c : N) : bool :=
  ((c =? 44) || Re.is_digit c || (c =? 123) || (c =? 51) || (c =? 125))%N.

(** The class [[\/\-\s]] *)
Definition date_sep (c : N) : bool :=
  ((c =? 47) || (c =? 45))%N || isspace c.

(** The pattern of line 50, its parts set apart by blanks:
    [( [₹$€] \s? \d{1,3} (?: [,\d{3}]* ) (?: \.\d{2} )? )] *)
Definition TOTAL_RE : Re.regex :=
  Re.Seq (Re.Cls is_currency_symbol)
    (Re.Seq (Re.opt (Re.Cls isspace))
       (Re.Seq (Re.Rep Re.digit 1 (Some 3))
          (Re.Seq (Re.star (Re.Cls group_class))
             (Re.opt (Re.Seq (Re.chr 46) (Re.Rep Re.digit 2 (Some 2))))))).

(** [r'(\b\d{1,2}[\/\-\s]\d{1,2}[\/\-\s]\d{2,4}\b)'] *)
Definition DATE_RE : Re.regex :=
  Re.Seq Re.WordB
    (Re.Seq (Re.Rep Re.digit 1 (Some 2))
       (Re.Seq (Re.Cls date_sep)
          (Re.Seq (Re.Rep Re.digit 1 (Some 2))
             (Re.Seq (Re.Cls date_sep)
                (Re.Seq (Re.Rep Re.digit 2 (Some 4)) Re.WordB))))).

(** Lines 47-56: the scans of the serialised response. *)
Definition fallback (txt : pystr) (out : summary) : summary :=
  let out :=
    if negb (truthy (Total out)) then
      match Re.search TOTAL_RE txt with
      | Some m => set_total out m
      | None => out
      end
    else out in
  if negb (truthy (Date out)) then
    match Re.search DATE_RE txt with
    | Some m => set_date out m
    | None => out
    end
  else out.

(** [parse_textract_expense(response)] *)
Definition parse_textract_expense `{Runtime} (response : pyval)
  : result summary :=
  out <- primary_path response ;;
  Ok (fallback (Json.dumps response) out).

(** ** The handler of the OCR stage *)

Notation "x <~ c ;; k" := (Bedrock.bindM c (fun x => k))
  (at level 61, c at next level, right associativity).
Notation "c ;;; k" := (Bedrock.bindM c (fun _ => k))
  (at level 61, right associativity).

Definition OUTPUT_PREFIX : pystr := u "textract-output/".

(** [os.path.join(a, b)] on POSIX. *)
Definition path_join (a b : pystr) : pystr :=
  if startswith [47%N] b then b
  else
    match a with
    | [] => b
    | _ :: _ => if endswith [47%N] a then a ++ b else a ++ 47%N :: b
    end.

(** Line 79: the suffixes of a receipt file, tested on the lower-cased
    key. *)
Definition is_receipt_file (lower_key : pystr) : bool :=
  endswith (u ".jpg") lower_key || endswith (u ".jpeg") lower_key
  || endswith (u ".png") lower_key || endswith (u ".pdf") lower_key.

Definition textract_key (name : pystr) : pystr :=
  path_join OUTPUT_PREFIX (name ++ u ".textract.json").
Definition summary_key (name : pystr) : pystr :=
  path_join OUTPUT_PREFIX (name ++ u ".summary.json").

(** The dictionary [summary] after [summary["Source"] = key], and the one
    the [except] clause of line 111 puts in its place. *)
Definition summary_dict (out : summary) (source : pystr) : pyval :=
  PDict [(u "Vendor", Vendor out); (u "Total", Total out);
         (u "Date", Date out); (u "Items", PList (map PStr (Items out)));
         (u "Source", PStr source)].

Definition failed_summary (source : pystr) : pyval :=
  PDict [(u "Source", PStr source); (u "Vendor", PNone); (u "Total", PNone);
         (u "Date", PNone); (u "Items", PList [])].

(** What the invocation cannot decide: the bytes of the object that is
    downloaded, the answer of the expense analysis to these bytes, and which
    of the successive [put_object] calls fail. *)
Record env : Type := {
  download_file : pyval -> pystr -> result Bedrock.bytes;
  analyze_expense : Bedrock.bytes -> result pyval;
  put_fault : nat -> option exn
}.

Definition put_object (E : env) (bucket : pyval) (key : pystr)
  (body : Bedrock.bytes) : Bedrock.M unit :=
  fun st =>
    match put_fault E (Bedrock.put_calls st) with
    | Some e => (Raise e, Bedrock.add_call st)
    | None => (Ok tt, Bedrock.add_object bucket key body st)
    end.

Section Handler.
Context `{Runtime}.
Variable E : env.

Definition skipped (message : string) : pyval :=
  PDict [(u "statusCode", PInt 200);
         (u "body",
          PStr (Json.dumps (PDict [(u "message", PStr (u message))])))].

(** Lines 105-111: the parse, with the all-empty summary in its place when
    it raises. *)
Definition summarise (response : pyval) (name : pystr) : Bedrock.M pyval :=
  Bedrock.tryM
    (Bedrock.lift (out <- parse_textract_expense response ;;
                   Ok (summary_dict out name)))
    (fun _ =>
       Bedrock.logger (u "Parsing Textract response failed") ;;;
       Bedrock.ret (failed_summary name)).

(** What follows the two guards, for an accepted key. *)
Definition process (bucket : pyval) (key : pystr) : Bedrock.M pyval :=
  data <~
    Bedrock.tryM (Bedrock.lift (download_file E bucket key))
      (fun e => Bedrock.logger (u "Failed to download file from S3") ;;;
                Bedrock.raise e) ;;
  response <~
    Bedrock.tryM (Bedrock.lift (analyze_expense E data))
      (fun e => Bedrock.logger (u "Textract call failed") ;;;
                Bedrock.raise e) ;;
  let name := basename key in
  body <~ Bedrock.lift (Bedrock.encode_utf8 (Json.dumps response)) ;;
  put_object E bucket (textract_key name) body ;;;
  summary <~ summarise response name ;;
  body <~ Bedrock.lift (Bedrock.encode_utf8 (Json.dumps_indent 2 summary)) ;;
  put_object E bucket (summary_key name) body ;;;
  Bedrock.logger (u "✅ Saved outputs in s3://%s/%s*") ;;;
  Bedrock.ret (PDict [(u "statusCode", PInt 200);
                      (u "body", PStr (Json.dumps summary))]).

(** [lambda_handler(event, context)] *)
Definition lambda_handler (event : pyval) : Bedrock.M pyval :=
  Bedrock.logger (u "Received event: %s") ;;;
  target <~
    Bedrock.tryM (Bedrock.lift (Bedrock.event_target event))
      (fun e => Bedrock.logger (u "Invalid event structure") ;;;
                Bedrock.raise e) ;;
  let '(bucket, key) := target in
  Bedrock.logger (u "Processing S3 object: %s/%s") ;;;
  a <~ Bedrock.lift (Bedrock.py_startswith key OUTPUT_PREFIX) ;;
  if a then
    Bedrock.logger (u "Skipping object in output prefix: %s") ;;;
    Bedrock.ret (skipped "skipped - output file")
  else
    match key with
    | PStr k =>
        if negb (is_receipt_file (lower k)) then
          Bedrock.logger (u "Skipping non-image/pdf file: %s") ;;;
          Bedrock.ret (skipped "skipped - not an image/pdf")
        else process bucket k
    | _ => Bedrock.raise AttributeError
    end.

End Handler.

End Textract.

(* ================================================================== *)
(** * The contracts of the specification, in its own words *)
(* ================================================================== *)

Module Spec.

(** A double quote, and a text between double quotes (for JSON texts). *)
Definition dq : pystr := [34%N].
Definition q (s : string) : pystr := dq ++ u s ++ dq.

(** An optional string as the Python value that carries it. *)
Definition opt_str (o : option pystr) : pyval :=
  match o with
  | None => PNone
  | Some s => PStr s
  end.

(** Dropping every occurrence of a code point. *)
Definition without (c : N) (s : pystr) : pystr :=
  filter (fun x => negb (x =? c)%N) s.

(** AmountParser, step 2: comma separators and the three symbols go. *)
Definition cleaned (s : pystr) : pystr :=
  without 8364 (without 36 (without 8377 (strip (without 44 s)))).

(** AmountParser, step 3: the first run of digits with an optional
    decimal point and fractional digits, as (integer digits, fractional
    digits). *)
Fixpoint first_numeral (s : pystr) : option (pystr * pystr) :=
  match s with
  | [] => None
  | c :: s' =>
      if Re.is_digit c then
        let '(ip, r) := span Re.is_digit s in
        match Json.frac_part r with
        | (Some fd, _) => Some (ip, fd)
        | (None, _) => Some (ip, [])
        end
      else first_numeral s'
  end.

(** The text of a numeral. *)
Definition numeral_text (n : pystr * pystr) : pystr :=
  match snd n with
  | [] => fst n
  | fd => fst n ++ 46%N :: fd
  end.

(** The float a numeral denotes. *)
Definition numeral_value (n : pystr * pystr) : float :=
  float_of_decimal false (Json.digits_value (fst n ++ snd n))
    (- Z.of_nat (List.length (snd n))).

(** AmountParser. *)
Definition amount_of (o : option pystr) : pyval :=
  match o with
  | None => PNone
  | Some s =>
      match first_numeral (cleaned s) with
      | Some n => PFloat (numeral_value n)
      | None => PNone
      end
  end.

(** CurrencyDetector. *)
Definition currency_code (o : option pystr) : pystr :=
  match o with
  | None => []
  | Some s =>
      if contains (u "₹") s || contains (u "INR") s || contains (u "Rs") s
      then u "INR"
      else if contains (u "$") s then u "USD"
      else if contains (u "€") s then u "EUR"
      else []
  end.

(** The code point before the position reached after reading [ds]. *)
Fixpoint last_prev (prev : option N) (ds : pystr) : option N :=
  match ds with
  | [] => prev
  | c :: ds' => last_prev (Some c) ds'
  end.

(** What is left after a numeral read at the head of [s]. *)
Definition numeral_rest (s : pystr) : option pystr :=
  match span Re.is_digit s with
  | ([], _) => None
  | (_ :: _, r) => Some (snd (Json.frac_part r))
  end.

(** [d.get(k)] *)
Definition dict_get (d : list (pystr * pyval)) (k : pystr) : pyval :=
  match lookup d k with
  | Some x => x
  | None => PNone
  end.

(** The raw total of an ExpenseSummary: absent, or a string. *)
Definition optional_string (v : pyval) : bool :=
  match v with
  | PNone | PStr _ => true
  | _ => false
  end.

Definition as_opt_str (v : pyval) : option pystr :=
  match v with
  | PStr s => Some s
  | _ => None
  end.

(** A runtime for the worked examples, none of which depends on how a
    float or a container is printed. *)
Definition sample_runtime : Runtime := {| py_repr := fun _ => u "0.2" |}.

(** What follows the last closing brace of a text, and the text up to
    and with that brace. *)
Fixpoint after_last_closing (s : pystr) : option pystr :=
  match s with
  | [] => None
  | c :: s' =>
      match after_last_closing s' with
      | Some r => Some r
      | None => if (c =? 125)%N then Some s' else None
      end
  end.

Fixpoint upto_last_closing (s : pystr) : option pystr :=
  match s with
  | [] => None
  | c :: s' =>
      match upto_last_closing s' with
      | Some t => Some (c :: t)
      | None => if (c =? 125)%N then Some [c] else None
      end
  end.

(** The first brace-delimited stretch of a text: from its first opening
    brace to the last closing brace after it. *)
Fixpoint outer_braces (s : pystr) : option pystr :=
  match s with
  | [] => None
  | c :: s' =>
      if (c =? 123)%N then
        match upto_last_closing s' with
        | Some t => Some (c :: t)
        | None => None
        end
      else outer_braces s'
  end.

(** ModelOutputParser, the recovery of the fields: the strict parse of
    the candidate; when it fails, the strict parse of the first
    brace-delimited stretch of the whole text (from the first opening brace
    to the last closing one); when there is none or it fails too, the empty
    mapping. *)
Definition fields_of (candidate raw : pystr) : pyval :=
  match Json.loads candidate with
  | Ok v => v
  | Raise _ =>
      match outer_braces raw with
      | Some m =>
          match Json.loads m with
          | Ok v => v
          | Raise _ => PDict []
          end
      | None => PDict []
      end
  end.

(** ModelOutputParser as the specification states it: the text before
    the first separator, trimmed, is the summary line; everything after
    it, trimmed, is the JSON candidate; without a separator the whole text
    is the summary line and the fields are empty. *)
Definition parse_output_spec (text : pystr) : pystr * pyval :=
  match partition Bedrock.SEPARATOR text with
  | (_, None) => (strip text, PDict [])
  | (before, Some after) => (strip before, fields_of (strip after) text)
  end.

(** ModelOutputParser as the code has it: the candidate is what lies
    between the first separator and the next one (or the end), trimmed, and
    an empty candidate gives empty fields without any parse or scan. *)
Definition parse_output_amended (text : pystr) : pystr * pyval :=
  match partition Bedrock.SEPARATOR text with
  | (_, None) => (strip text, PDict [])
  | (before, Some after) =>
      (strip before,
       match strip (fst (partition Bedrock.SEPARATOR after)) with
       | [] => PDict []
       | candidate => fields_of candidate text
       end)
  end.

(** ** Text extraction from the provider envelope *)

(** An item of type "text" with a non-empty text, and its text. *)
Definition text_item (c : pyval) : bool :=
  match c with
  | PDict d => eq_str (dict_get d (u "type")) (u "text")
               && truthy (dict_get d (u "text"))
  | _ => false
  end.

Definition item_text (c : pyval) : pyval :=
  match c with
  | PDict d => dict_get d (u "text")
  | _ => PNone
  end.

(** The text of the first such item of a list, [None] without one. *)
Definition first_text (items : list pyval) : pyval :=
  match find text_item items with
  | Some c => item_text c
  | None => PNone
  end.

Definition is_message (out : pyval) : bool :=
  match out with
  | PDict d => eq_str (dict_get d (u "type")) (u "message")
  | _ => false
  end.

Definition content_of (out : pyval) : list pyval :=
  match out with
  | PDict d =>
      match lookup d (u "content") with
      | Some (PList l) => l
      | _ => []
      end
  | _ => []
  end.

(** (a) envelope, output, content list, first text item. *)
Definition newer_text (parsed : pyval) : pyval :=
  match parsed with
  | PDict d =>
      match lookup d (u "output") with
      | Some (PDict o) =>
          match lookup o (u "content") with
          | Some (PList l) => first_text l
          | _ => PNone
          end
      | _ => PNone
      end
  | _ => PNone
  end.

(** (b) as the specification states it: the first item of type "message",
    and in its content list the first item of type "text". *)
Definition is_type_text (c : pyval) : bool :=
  match c with
  | PDict d => eq_str (dict_get d (u "type")) (u "text")
  | _ => false
  end.

Definition older_text_spec (parsed : pyval) : pyval :=
  match parsed with
  | PDict d =>
      match lookup d (u "outputs") with
      | Some (PList l) =>
          match find is_message l with
          | Some m =>
              match find is_type_text (content_of m) with
              | Some c => item_text c
              | None => PNone
              end
          | None => PNone
          end
      | _ => PNone
      end
  | _ => PNone
  end.

(** (c) as the specification states it: depth first, the first key named
    "text" whose value is a string. *)
Fixpoint deep_text (obj : pyval) : option pystr :=
  match obj with
  | PDict d =>
      (fix items (d : list (pystr * pyval)) : option pystr :=
         match d with
         | [] => None
         | (k, v) :: d' =>
             match (if PyStr.eqb k (u "text") then as_opt_str v else None) with
             | Some t => Some t
             | None =>
                 match deep_text v with
                 | Some t => Some t
                 | None => items d'
                 end
             end
         end) d
  | PList l =>
      (fix elems (l : list pyval) : option pystr :=
         match l with
         | [] => None
         | x :: l' =>
             match deep_text x with
             | Some t => Some t
             | None => elems l'
             end
         end) l
  | _ => None
  end.

(** The first of the candidates that holds something, [default] when
    none does. *)
Definition first_truthy (l : list pyval) (default : pyval) : pyval :=
  match find truthy l with
  | Some v => v
  | None => default
  end.

(** Text extraction as the specification states it: (a), then (b), then
    (c), the first success wins; the raw string when the envelope does not
    decode (and, the statement being silent there, when nothing is found). *)
Definition extract_text_spec (raw : pystr) : pyval :=
  match Json.loads raw with
  | Raise _ => PStr raw
  | Ok parsed =>
      first_truthy
        [newer_text parsed; older_text_spec parsed;
         match deep_text parsed with Some t => PStr t | None => PNone end]
        (PStr raw)
  end.

(** (b) as the code has it, with what it meets on its way.  The items of
    [outputs] are visited in order, and in an item of type "message" the
    items of its content in order.  What is met decides: a text item gives
    its text, a part of another shape makes the walk fail (an item that is
    not an object has no [get], a content that is not iterable cannot be
    walked), everything else is passed over. *)
Definition item_events (c : pyval) : list (result pyval) :=
  match c with
  | PDict _ => if text_item c then [Ok (item_text c)] else []
  | _ => [Raise AttributeError]
  end.

Definition message_events (out : pyval) : list (result pyval) :=
  match out with
  | PDict d =>
      if is_message out then
        match py_iter (match lookup d (u "content") with
                       | Some c => c
                       | None => PList []
                       end) with
        | Ok items => flat_map item_events items
        | Raise e => [Raise e]
        end
      else []
  | _ => [Raise AttributeError]
  end.

Definition first_event (events : list (result pyval)) : result pyval :=
  match events with
  | [] => Ok PNone
  | ev :: _ => ev
  end.

Definition older_walk (parsed : pyval) : result pyval :=
  match parsed with
  | PDict d =>
      match lookup d (u "outputs") with
      | Some (PList l) => first_event (flat_map message_events l)
      | _ => Ok PNone
      end
  | _ => Ok PNone
  end.

(** (c) as the code has it.  In a mapping the entries are taken in order:
    an entry named "text" whose value is a string ends the search of the
    mapping with that string, empty or not; any other entry is searched in
    turn and ends it when it yields a text that is not empty.  In a list
    the items are searched in turn until one yields a text that is not
    empty.  Other values yield nothing. *)
Definition first_some {A : Type} (l : list (option A)) : option A :=
  fold_right (fun o later => match o with Some x => Some x | None => later end)
    None l.

Definition non_empty (o : option pystr) : option pystr :=
  match o with
  | Some (c :: s) => Some (c :: s)
  | _ => None
  end.

Fixpoint found_text (obj : pyval) : option pystr :=
  match obj with
  | PDict d =>
      first_some
        (map (fun kv : pystr * pyval =>
                let '(k, v) := kv in
                match v with
                | PStr s => if PyStr.eqb k (u "text") then Some s else None
                | _ => non_empty (found_text v)
                end) d)
  | PList l => first_some (map (fun x => non_empty (found_text x)) l)
  | _ => None
  end.

(** Text extraction, amended: the raw string when the body does not
    decode; a failure when the decoded value or its [output] entry is not
    an object, or when the walk (b) fails; otherwise the first of (a), (b)
    and (c) that holds something, the raw string when none does. *)
Definition extract_text_amended (raw : pystr) : result pyval :=
  match Json.loads raw with
  | Raise _ => Ok (PStr raw)
  | Ok (PDict d) =>
      match lookup d (u "output") with
      | None | Some (PDict _) =>
          if truthy (newer_text (PDict d)) then Ok (newer_text (PDict d))
          else
            match older_walk (PDict d) with
            | Ok older =>
                Ok (first_truthy [older; opt_str (found_text (PDict d))]
                      (PStr raw))
            | Raise e => Raise e
            end
      | Some _ => Raise AttributeError
      end
  | Ok _ => Raise AttributeError
  end.

(** Envelopes at the edges of the search (c) and of the walk (b): an
    empty text in a nested mapping, an empty text at the top, an answer in
    the newer schema next to an ill-shaped [outputs], and that [outputs]
    alone. *)
Definition empty_text_inside : pyval :=
  PDict [(u "a", PDict [(u "text", PStr [])]);
         (u "b", PDict [(u "text", PStr (u "hello"))])].

Definition empty_text_on_top : pyval :=
  PDict [(u "text", PStr []);
         (u "b", PDict [(u "text", PStr (u "hello"))])].

Definition newer_with_stray_outputs : pyval :=
  PDict [(u "output",
          PDict [(u "content",
                  PList [PDict [(u "type", PStr (u "text"));
                                (u "text", PStr (u "hi"))]])]);
         (u "outputs", PList [PInt 5])].

Definition stray_outputs : pyval := PDict [(u "outputs", PList [PInt 5])].

(** An answer in the older schema whose first message holds no text item
    but an image item that carries a "text" key. *)
Definition two_messages : pyval :=
  PDict
    [(u "outputs",
      PList
        [PDict [(u "type", PStr (u "message"));
                (u "content",
                 PList [PDict [(u "type", PStr (u "image"));
                               (u "text", PStr (u "no"))]])];
         PDict [(u "type", PStr (u "message"));
                (u "content",
                 PList [PDict [(u "type", PStr (u "text"));
                               (u "text", PStr (u "yes"))]])]])].

(** An answer of the Messages API. *)
Definition messages_answer : pyval :=
  PDict
    [(u "id", PStr (u "msg_01"));
     (u "type", PStr (u "message"));
     (u "role", PStr (u "assistant"));
     (u "content",
      PList [PDict [(u "type", PStr (u "text"));
                    (u "text", PStr (u "Coffee purchase"))]])].

(** ** ExpenseFieldExtractor *)

(** The trimmed text a field keeps under [name], empty when there is
    none. *)
Definition text_of (field : pyval) (name : pystr) : pystr :=
  match field with
  | PDict d =>
      match lookup d name with
      | Some (PDict e) =>
          match lookup e (u "Text") with
          | Some (PStr s) => strip s
          | _ => []
          end
      | _ => []
      end
  | _ => []
  end.

(** The lower-cased type text of a summary field. *)
Definition type_of (field : pyval) : pystr :=
  lower (text_of field (u "Type")).

(** The detected value text, the label text when the value is empty. *)
Definition value_of (field : pyval) : pystr :=
  match text_of field (u "ValueDetection") with
  | [] => text_of field (u "LabelDetection")
  | v => v
  end.

(** The shape of a summary field of the OCR service: an object whose
    [Type], [ValueDetection] and [LabelDetection], when present, are
    objects with a [Text] that is a string (or nothing). *)
Definition detection_ok (field : list (pystr * pyval)) (name : pystr) : bool :=
  match lookup field name with
  | None => true
  | Some (PDict e) =>
      match lookup e (u "Text") with
      | None => true
      | Some v => is_str v || negb (truthy v)
      end
  | Some _ => false
  end.

Definition field_ok (field : pyval) : bool :=
  match field with
  | PDict d =>
      detection_ok d (u "Type") && detection_ok d (u "ValueDetection")
      && detection_ok d (u "LabelDetection")
  | _ => false
  end.

Inductive category : Type := CVendor | CTotal | CDate | COther.

Definition category_eqb (a b : category) : bool :=
  match a, b with
  | CVendor, CVendor | CTotal, CTotal | CDate, CDate | COther, COther => true
  | _, _ => false
  end.

(** The category of a lower-cased type text; the first rule that applies
    decides. *)
Definition classify (t : pystr) : category :=
  if contains (u "vendor") t || contains (u "merchant") t
     || contains (u "merchant_name") t then CVendor
  else if contains (u "total") t || PyStr.eqb t (u "amount") then CTotal
  else if contains (u "date") t then CDate
  else COther.

(** The value of the last field of a category, in source order; [None]
    when the category has no field. *)
Definition last_value (c : category) (fields : list pyval) : pyval :=
  match find (fun f => category_eqb (classify (type_of f)) c) (rev fields) with
  | Some f => PStr (value_of f)
  | None => PNone
  end.

(** A summary field and a response of the OCR service. *)
Definition summary_field (type value : string) : pyval :=
  PDict [(u "Type", PDict [(u "Text", PStr (u type));
                           (u "Confidence", PInt 99)]);
         (u "ValueDetection", PDict [(u "Text", PStr (u value))])].

Definition expense_response (fields : list pyval) : pyval :=
  PDict [(u "ExpenseDocuments",
          PList [PDict [(u "ExpenseIndex", PInt 1);
                        (u "SummaryFields", PList fields)]])].

(** The continuation that accepts and returns what is left. *)
Definition accept : @Re.cont pystr := fun _ rest => Some rest.

(** What the loop leaves in an entry: the value of the last field of its
    category, what was there before when the category has no field. *)
Definition last_or (c : category) (fields : list pyval) (before : pyval)
  : pyval :=
  match last_value c fields with
  | PNone => before
  | v => v
  end.

(** The fallback as the specification states it: a scan fills an entry
    only when the primary path left it unset. *)
Definition fallback_spec (txt : pystr) (out : Textract.summary)
  : Textract.summary :=
  let out :=
    match Textract.Total out with
    | PNone =>
        match Re.search Textract.TOTAL_RE txt with
        | Some m => Textract.set_total out m
        | None => out
        end
    | _ => out
    end in
  match Textract.Date out with
  | PNone =>
      match Re.search Textract.DATE_RE txt with
      | Some m => Textract.set_date out m
      | None => out
      end
  | _ => out
  end.

(** A receipt whose total field was detected with an empty text, and one
    whose total was read. *)
Definition empty_total_response : pyval :=
  expense_response
    [summary_field "TOTAL" ""; summary_field "OTHER" "paid $12.50 cash"].

Definition read_total_response : pyval :=
  expense_response
    [summary_field "TOTAL" "$10.00";
     summary_field "OTHER" "paid $12.50 on 1/2/2024"].

(** ** The model stage *)

(** The state in which the handler enters its first guarded span: three
    messages were logged since the start. *)
Definition at_call (st : Bedrock.state) : Bedrock.state :=
  Bedrock.add_log (u "Calling Bedrock model %s for key %s")
    (Bedrock.add_log (u "Triggered for S3 object: %s/%s")
       (Bedrock.add_log (u "Received event: %s") st)).

(** An object was written under [key]. *)
Definition wrote (key : pystr) (st : Bedrock.state) : bool :=
  existsb (fun o => PyStr.eqb (Bedrock.obj_key o) key) (Bedrock.written st).

(** The statement of the specification about a failing run: the marker
    stands in place of the two artifacts of a successful run. *)
Definition marker_instead_of_outputs `{Runtime} (E : Bedrock.env)
  (event : pyval) (key : pystr) (st : Bedrock.state) : Prop :=
  forall (e : exn) (st2 : Bedrock.state),
    Bedrock.lambda_handler E event st = (Raise e, st2) ->
    wrote (Bedrock.error_key key) st2 = true ->
    wrote (Bedrock.summary_txt_key key) st2 = false
    /\ wrote (Bedrock.bedrock_json_key key) st2 = false.

(** The event, the stored summary and the model answer of the end-to-end
    scenario. *)
Definition sample_key : pystr := u "textract-output/foo.jpg.summary.json".

Definition sample_event : pyval :=
  PDict
    [(u "Records",
      PList
        [PDict
           [(u "s3",
             PDict [(u "bucket", PDict [(u "name", PStr (u "receipts"))]);
                    (u "object", PDict [(u "key", PStr sample_key)])])]])].

Definition sample_summary : pyval :=
  PDict [(u "Vendor", PStr (u "Acme")); (u "Total", PStr (u "$10.00"));
         (u "Date", PStr (u "2024-01-01"));
         (u "Items", PList [PStr (u "Coffee")])].

Definition sample_answer : pystr :=
  u "Coffee purchase
===JSON===
{" ++ q "vendor" ++ u ":" ++ q "Acme" ++ u "," ++ q "amount" ++ u ":null,"
    ++ q "currency" ++ u ":" ++ q "" ++ u "}".

Definition initial_state : Bedrock.state :=
  {| Bedrock.written := []; Bedrock.put_calls := 0; Bedrock.log := [] |}.

(** A world where the model endpoint is throttled, and one where the
    second write to the store fails. *)
Definition throttled_world : Bedrock.env :=
  {| Bedrock.invoke_model := fun _ => Raise (ServiceError (u "ThrottlingException"));
     Bedrock.get_object :=
       fun _ _ => Ok (@Json.dumps sample_runtime sample_summary);
     Bedrock.put_fault := fun _ => None |}.

Definition second_put_fails : Bedrock.env :=
  {| Bedrock.invoke_model := fun _ => Ok sample_answer;
     Bedrock.get_object :=
       fun _ _ => Ok (@Json.dumps sample_runtime sample_summary);
     Bedrock.put_fault :=
       fun n => match n with
                | 1 => Some (ServiceError (u "SlowDown"))
                | _ => None
                end |}.

(** The first clause of the specification about the extractor, taken for
    the extractor as a whole: what follows the first document has no part
    in the result. *)
Definition first_document_only `{Runtime} : Prop :=
  forall (doc : pyval) (rest rest' : list pyval),
    Textract.parse_textract_expense
      (PDict [(u "ExpenseDocuments", PList (doc :: rest))])
    = Textract.parse_textract_expense
        (PDict [(u "ExpenseDocuments", PList (doc :: rest'))]).

(** Two documents: the first names the vendor, the second holds a total. *)
Definition vendor_document : pyval :=
  PDict [(u "SummaryFields", PList [summary_field "VENDOR_NAME" "Acme"])].

Definition total_document : pyval :=
  PDict [(u "SummaryFields", PList [summary_field "TOTAL" "$5.00"])].

(** The event of an object created in a bucket, as the handlers read it. *)
Definition s3_event (bucket key : pyval) : pyval :=
  PDict
    [(u "Records",
      PList
        [PDict
           [(u "s3",
             PDict [(u "bucket", PDict [(u "name", bucket)]);
                    (u "object", PDict [(u "key", key)])])]])].

(** The objects the model stage writes for a summary key, and the ones the
    OCR stage writes for a file name. *)
Definition model_stage_keys (key : pystr) : list pystr :=
  [Bedrock.error_key key; Bedrock.summary_txt_key key;
   Bedrock.bedrock_json_key key].

Definition ocr_stage_keys (name : pystr) : list pystr :=
  [Textract.textract_key name; Textract.summary_key name].

(** A run that left the store as it was. *)
Definition same_store (st st' : Bedrock.state) : Prop :=
  Bedrock.written st' = Bedrock.written st
  /\ Bedrock.put_calls st' = Bedrock.put_calls st.

(** A receipt of one vendor field, and a world of the OCR stage that
    answers with it. *)
Definition sample_receipt : pyval :=
  PDict
    [(u "ExpenseDocuments",
      PList
        [PDict
           [(u "SummaryFields",
             PList
               [PDict [(u "Type", PDict [(u "Text", PStr (u "VENDOR_NAME"))]);
                       (u "ValueDetection",
                        PDict [(u "Text", PStr (u "Acme"))])]])]])].

Definition ocr_world (answer : pyval) : Textract.env :=
  {| Textract.download_file := fun _ _ => Ok (u "bytes");
     Textract.analyze_expense := fun _ => Ok answer;
     Textract.put_fault := fun _ => None |}.

(** The summary the OCR stage saves for an answer of the expense analysis:
    the parsed one with its source, or the all-empty one when the parse
    raises. *)
Definition summary_of `{Runtime} (answer : pyval) (name : pystr) : pyval :=
  match Textract.parse_textract_expense answer with
  | Ok out => Textract.summary_dict out name
  | Raise _ => Textract.failed_summary name
  end.

Definition stored (bucket : pyval) (key : pystr) (body : Bedrock.bytes)
  : Bedrock.object :=
  {| Bedrock.obj_bucket := bucket; Bedrock.obj_key := key;
     Bedrock.obj_body := body |}.

(** A world of the OCR stage whose download fails. *)
Definition no_such_file : Textract.env :=
  {| Textract.download_file := fun _ _ => Raise (ServiceError (u "404"));
     Textract.analyze_expense := fun _ => Ok (PDict []);
     Textract.put_fault := fun _ => None |}.

(** The bytes of a text that can be encoded. *)
Definition encoded (s : pystr) : Bedrock.bytes :=
  match Bedrock.encode_utf8 s with
  | Ok b => b
  | Raise _ => []
  end.

Definition receipt_event : pyval :=
  s3_event (PStr (u "receipts")) (PStr (u "inbox/foo.jpg")).

(** A world of the model stage in which the model answers with a summary
    line and a JSON object, one in which it answers with a JSON array after
    the separator, and one in which the summary object is missing. *)
Definition answering_world (answer : pystr) : Bedrock.env :=
  {| Bedrock.invoke_model := fun _ => Ok answer;
     Bedrock.get_object :=
       fun _ _ => Ok (@Json.dumps sample_runtime sample_summary);
     Bedrock.put_fault := fun _ => None |}.

Definition array_answer : pystr := u "Coffee purchase
===JSON===
[]".

Definition no_such_summary : Bedrock.env :=
  {| Bedrock.invoke_model := fun _ => Ok sample_answer;
     Bedrock.get_object := fun _ _ => Raise (ServiceError (u "NoSuchKey"));
     Bedrock.put_fault := fun _ => None |}.

(** A value a [for] loop can walk through, or a falsy one. *)
Definition falsy_or_iterable (v : pyval) : bool :=
  negb (truthy v) || is_str v || is_list v || is_dict v.

(** The strings found under a key named text, in the order in which a
    depth-first walk meets them; a string value of such a key is not
    walked into. *)
Fixpoint text_values (obj : pyval) : list pystr :=
  match obj with
  | PDict d =>
      (fix items (d : list (pystr * pyval)) : list pystr :=
         match d with
         | [] => []
         | (k, v) :: d' =>
             (if PyStr.eqb k (u "text") && is_str v
              then match v with PStr s => [s] | _ => [] end
              else text_values v) ++ items d'
         end) d
  | PList l =>
      (fix elems (l : list pyval) : list pystr :=
         match l with
         | [] => []
         | item :: l' => text_values item ++ elems l'
         end) l
  | _ => []
  end.

Definition first_or_none (l : list pystr) : pyval :=
  match l with
  | [] => PNone
  | s :: _ => PStr s
  end.

(** An envelope of none of the two schemas, with its text two levels
    down. *)
Definition nested_envelope : pyval :=
  PDict [(u "id", PStr (u "msg_1"));
         (u "completion",
          PList [PDict [(u "kind", PStr (u "note"))];
                 PDict [(u "text", PStr (u "Lunch at Acme"))];
                 PDict [(u "text", PStr (u "ignored"))]])].

(** The sign bit of a float. *)
Definition sign_bit (f : float) : bool :=
  match f with
  | S754_zero s | S754_infinity s | S754_finite s _ _ => s
  | S754_nan => false
  end.

(** A truthy value that is neither a text nor a container: a number that
    is not zero, or True. *)
Definition truthy_scalar (v : pyval) : bool :=
  truthy v && negb (is_str v || is_list v || is_dict v).

(** ** Line items *)

(** The list under a key of an object of the OCR service: empty when the
    key is absent. *)
Definition list_entry (d : list (pystr * pyval)) (k : pystr)
  : option (list pyval) :=
  match lookup d k with
  | None => Some []
  | Some (PList l) => Some l
  | Some _ => None
  end.

Definition list_of (v : pyval) (k : pystr) : list pyval :=
  match v with
  | PDict d => match list_entry d k with Some l => l | None => [] end
  | _ => []
  end.

(** The shape of the line items: groups, lines and expense fields are
    objects, and what stands under LineItems and LineItemExpenseFields is a
    list. *)
Definition expense_field_ok (kv : pyval) : bool :=
  match kv with
  | PDict d => detection_ok d (u "Type") && detection_ok d (u "ValueDetection")
  | _ => false
  end.

Definition line_ok (line : pyval) : bool :=
  match line with
  | PDict d =>
      match list_entry d (u "LineItemExpenseFields") with
      | Some kvs => forallb expense_field_ok kvs
      | None => false
      end
  | _ => false
  end.

Definition group_ok (grp : pyval) : bool :=
  match grp with
  | PDict d =>
      match list_entry d (u "LineItems") with
      | Some lines => forallb line_ok lines
      | None => false
      end
  | _ => false
  end.

(** The part an expense field gives to its line: [name: value], the value
    alone when the name is empty, nothing when the value is empty. *)
Definition item_part (kv : pyval) : list pystr :=
  let name := text_of kv (u "Type") in
  let val := text_of kv (u "ValueDetection") in
  match val with
  | [] => []
  | _ :: _ =>
      match name with
      | [] => [val]
      | _ :: _ => [name ++ u ": " ++ val]
      end
  end.

(** The text of a line: its parts joined by a bar, no text for a line
    without parts. *)
Definition item_line (line : pyval) : list pystr :=
  match flat_map item_part (list_of line (u "LineItemExpenseFields")) with
  | [] => []
  | parts => [join (u " | ") parts]
  end.

Definition item_lines (groups : list pyval) : list pystr :=
  flat_map (fun grp => flat_map item_line (list_of grp (u "LineItems")))
    groups.

Definition expense_field (type value : string) : pyval :=
  PDict [(u "Type", PDict [(u "Text", PStr (u type))]);
         (u "ValueDetection", PDict [(u "Text", PStr (u value))])].

(** A receipt with two lines, the second one without a name for its
    price. *)
Definition two_line_receipt : pyval :=
  PDict
    [(u "ExpenseDocuments",
      PList
        [PDict
           [(u "LineItemGroups",
             PList
               [PDict
                  [(u "LineItems",
                    PList
                      [PDict
                         [(u "LineItemExpenseFields",
                           PList [expense_field "ITEM" "Coffee";
                                  expense_field "PRICE" "3.50"])];
                       PDict
                         [(u "LineItemExpenseFields",
                           PList [expense_field "ITEM" " ";
                                  expense_field " " "1.00"])]])]])]])].

(** ** The serialised response *)

Definition is_ascii (c : N) : bool := (c <? 128)%N.

(** What [repr] prints for a float is made of ASCII characters. *)
Definition ascii_repr `{Runtime} : Prop :=
  forall f : float, forallb is_ascii (py_repr (PFloat f)) = true.

(** A receipt whose only amount is written with the rupee sign. *)
Definition rupee_response : pyval :=
  expense_response [summary_field "OTHER" "paid ₹500 cash"].

(** A file name: a text without a slash. *)
Definition no_slash (name : pystr) : bool :=
  forallb (fun c => negb (c =? 47)%N) name.

(** A world of the model stage whose model answers in plain words. *)
Definition plain_answer : pystr := u " Coffee at Acme, 10 dollars.
".

(** A world of the OCR stage whose second write fails. *)
Definition summary_put_fails : Textract.env :=
  {| Textract.download_file := fun _ _ => Ok (u "bytes");
     Textract.analyze_expense := fun _ => Ok sample_receipt;
     Textract.put_fault :=
       fun n => match n with
                | 1 => Some (ServiceError (u "SlowDown"))
                | _ => None
                end |}.

End Spec.

(* ================================================================== *)
(** * Facts about strings *)
(* ================================================================== *)

Lemma eqb_eq (a b : pystr) : PyStr.eqb a b = true <-> a = b.
Proof.
  revert b; induction a as [|x a IH]; intros [|y b]; simpl;
    try (split; congruence).
  rewrite andb_true_iff, N.eqb_eq, IH. split.
  - intros [-> ->]; reflexivity.
  - intros E; inversion E; auto.
Qed.

Lemma eqb_refl (a : pystr) : PyStr.eqb a a = true.
Proof. apply eqb_eq; reflexivity. Qed.

Lemma eqb_neq (a b : pystr) : PyStr.eqb a b = false <-> a <> b.
Proof.
  rewrite <- eqb_eq. destruct (PyStr.eqb a b); split; congruence.
Qed.

Lemma startswith_length (p s : pystr) :
  startswith p s = true -> List.length p <= List.length s.
Proof.
  revert s; induction p as [|x p IH]; intros [|y s]; simpl; try lia;
    try discriminate.
  intros E. apply andb_true_iff in E as [_ E]. apply IH in E. lia.
Qed.

Lemma join_nil_cons (p : pystr) (l : list pystr) :
  join [] (p :: l) = p ++ join [] l.
Proof. destruct l; simpl; [rewrite app_nil_r|]; reflexivity. Qed.

(** Splitting at a one-point separator and gluing the pieces back drops
    the separator. *)
Lemma split_aux_single (c : N) (s cur : pystr) :
  join [] (split_aux [c] 0 cur s) = rev cur ++ Spec.without c s.
Proof.
  revert cur; induction s as [|x s IH]; intros cur.
  - simpl. rewrite app_nil_r. reflexivity.
  - cbn [split_aux startswith List.length Nat.sub Spec.without filter].
    rewrite N.eqb_sym.
    destruct (x =? c)%N eqn:E; cbn [andb negb].
    + rewrite join_nil_cons, IH. reflexivity.
    + fold (Spec.without c s). rewrite IH. simpl.
      rewrite <- app_assoc. reflexivity.
Qed.

Lemma replace_single (c : N) (s : pystr) :
  replace [c] [] s = Spec.without c s.
Proof. unfold replace, split. rewrite split_aux_single. reflexivity. Qed.

Lemma span_app (p : N -> bool) (s : pystr) :
  fst (span p s) ++ snd (span p s) = s.
Proof.
  induction s as [|c s IH]; simpl; auto.
  destruct (p c); simpl; auto.
  destruct (span p s); simpl in *. congruence.
Qed.

Lemma span_all (p : N -> bool) (s : pystr) :
  forallb p (fst (span p s)) = true.
Proof.
  induction s as [|c s IH]; simpl; auto.
  destruct (p c) eqn:E; simpl; auto.
  destruct (span p s); simpl in *. rewrite E; auto.
Qed.

Lemma span_rest (p : N -> bool) (s : pystr) :
  match snd (span p s) with
  | c :: _ => p c = false
  | [] => True
  end.
Proof.
  induction s as [|c s IH]; simpl; auto.
  destruct (p c) eqn:E; simpl; auto.
  destruct (span p s); simpl in *. auto.
Qed.

Lemma span_unique (p : N -> bool) (ds r : pystr) :
  forallb p ds = true ->
  match r with c :: _ => p c = false | [] => True end ->
  span p (ds ++ r) = (ds, r).
Proof.
  intros Hds Hr. induction ds as [|d ds IH]; simpl in *.
  - destruct r as [|c r]; simpl; auto. rewrite Hr; auto.
  - apply andb_true_iff in Hds as [Hd Hds]. rewrite Hd, IH; auto.
Qed.

Lemma span_length (p : N -> bool) (s : pystr) :
  List.length (fst (span p s)) + List.length (snd (span p s)) = List.length s.
Proof.
  rewrite <- (span_app p s) at 3. rewrite length_app. reflexivity.
Qed.

(* ================================================================== *)
(** * Facts about the matcher *)
(* ================================================================== *)

Section RepeatClass.
Context {A : Type}.
Variable p : N -> bool.
Variable k : @Re.cont A.

(** A greedy run over a class goes to the end of the run when what
    follows accepts there. *)
Lemma rep_cls_greedy (fuel : nat) :
  forall (s : pystr) (lo : nat) (prev : option N) (x : A),
    List.length s <= fuel ->
    lo <= List.length (fst (span p s)) ->
    k (Spec.last_prev prev (fst (span p s))) (snd (span p s)) = Some x ->
    Re.rep_loop (Re.cls_step p) k fuel lo None prev s = Some x.
Proof.
  induction fuel as [|f IH]; intros s lo prev x Hlen Hlo Hk.
  - destruct s; [|simpl in Hlen; lia]. simpl in *.
    destruct lo; [assumption | lia].
  - cbn [Re.rep_loop]. destruct s as [|c s'].
    + simpl in *. destruct lo; [assumption | lia].
    + cbn [Re.cls_step]. cbn [span] in Hlo, Hk.
      destruct (p c) eqn:Hc.
      * destruct (span p s') as [ds r] eqn:Hsp. cbn [fst snd] in *.
        assert (Hlt : (List.length s' <? List.length (c :: s'))%nat = true)
          by (apply Nat.ltb_lt; simpl; lia).
        rewrite Hlt. cbn [option_map].
        rewrite (IH s' (pred lo) (Some c) x).
        -- reflexivity.
        -- simpl in Hlen; lia.
        -- rewrite Hsp. simpl in *. lia.
        -- rewrite Hsp. exact Hk.
      * simpl in *. destruct lo; [assumption | lia].
Qed.

(** A run that needs a round and cannot start fails. *)
Lemma rep_cls_none (fuel lo : nat) (hi : option nat) (prev : option N)
  (s : pystr) :
  fst (span p s) = [] ->
  Re.rep_loop (Re.cls_step p) k fuel (S lo) hi prev s = None.
Proof.
  intros Hsp. destruct fuel as [|f]; cbn [Re.rep_loop]; auto.
  destruct hi as [[|h]|]; auto.
  - destruct s as [|c s']; cbn [Re.cls_step]; auto.
    simpl in Hsp. destruct (p c); auto.
    destruct (span p s'); discriminate.
  - destruct s as [|c s']; cbn [Re.cls_step]; auto.
    simpl in Hsp. destruct (p c); auto.
    destruct (span p s'); discriminate.
Qed.

End RepeatClass.

Lemma rep_loop_done {A : Type} body (k : @Re.cont A) (fuel : nat)
  (prev : option N) (s : pystr) :
  Re.rep_loop body k fuel 0 (Some 0) prev s = k prev s.
Proof. destruct fuel; reflexivity. Qed.

Lemma frac_part_length (r : pystr) :
  List.length (snd (Json.frac_part r)) <= List.length r.
Proof.
  destruct r as [|c r]; simpl; auto.
  destruct (c =? 46)%N; simpl; auto.
  unfold Json.span_digits.
  pose proof (span_length Re.is_digit r) as L.
  destruct (span Re.is_digit r) as [[|d ds] r2]; simpl in *; lia.
Qed.

(** The optional fraction of [NUMBER_RE] reads what [frac_part] reads. *)
Lemma run_opt_fraction (prev : option N) (r : pystr) :
  Re.run (Re.opt (Re.Seq (Re.chr 46) (Re.plus Re.digit))) prev r Spec.accept
  = Some (snd (Json.frac_part r)).
Proof.
  unfold Re.opt, Re.plus, Re.chr, Re.digit. cbn [Re.run].
  destruct r as [|c r1]; [reflexivity|].
  cbn [List.length Re.rep_loop Re.cls_step Json.frac_part].
  rewrite N.eqb_sym.
  destruct (c =? 46)%N eqn:Hc; [|reflexivity].
  change (fun (prev' : option N) (s' : pystr) (k' : Re.cont) =>
            Re.cls_step Re.is_digit prev' s' k')
    with (@Re.cls_step pystr Re.is_digit).
  unfold Json.span_digits.
  pose proof (span_length Re.is_digit r1) as L.
  destruct (span Re.is_digit r1) as [[|d ds] r2] eqn:Hsp.
  - rewrite rep_cls_none; [reflexivity | rewrite Hsp; reflexivity].
  - erewrite rep_cls_greedy; [reflexivity | lia | rewrite Hsp; simpl; lia |].
    rewrite Hsp. cbn [fst snd] in *.
    assert (Hlt : (List.length r2 <? S (List.length r1))%nat = true)
      by (apply Nat.ltb_lt; simpl in *; lia).
    rewrite Hlt. cbn [pred option_map]. rewrite rep_loop_done. reflexivity.
Qed.

(** [NUMBER_RE] anchored at a position. *)
Lemma run_number (prev : option N) (s : pystr) :
  Re.run Bedrock.NUMBER_RE prev s Spec.accept = Spec.numeral_rest s.
Proof.
  unfold Bedrock.NUMBER_RE, Spec.numeral_rest.
  cbn [Re.run Re.plus Re.digit].
  change (fun (prev' : option N) (s' : pystr) (k' : Re.cont) =>
            Re.cls_step Re.is_digit prev' s' k')
    with (@Re.cls_step pystr Re.is_digit).
  destruct (span Re.is_digit s) as [[|d ds] r] eqn:Hsp.
  - apply rep_cls_none. rewrite Hsp; reflexivity.
  - erewrite rep_cls_greedy; [reflexivity | lia | rewrite Hsp; simpl; lia |].
    rewrite Hsp. cbn [fst snd]. apply run_opt_fraction.
Qed.

Lemma frac_part_some (r fd r2 : pystr) :
  Json.frac_part r = (Some fd, r2) ->
  r = 46%N :: fd ++ r2 /\ fd <> [] /\ forallb Re.is_digit fd = true /\
  match r2 with c :: _ => Re.is_digit c = false | [] => True end.
Proof.
  destruct r as [|c r1]; simpl; [discriminate|].
  destruct (c =? 46)%N eqn:Hc; [|discriminate].
  apply N.eqb_eq in Hc. subst c. unfold Json.span_digits.
  pose proof (span_app Re.is_digit r1) as Happ.
  pose proof (span_all Re.is_digit r1) as Hall.
  pose proof (span_rest Re.is_digit r1) as Hrest.
  destruct (span Re.is_digit r1) as [[|d ds] r'] eqn:Hsp; [discriminate|].
  intros E; inversion E; subst. cbn [fst snd] in *.
  repeat split; try congruence; auto.
Qed.

Lemma frac_part_none (r r' : pystr) :
  Json.frac_part r = (None, r') -> r' = r.
Proof.
  destruct r as [|c r1]; simpl; [congruence|].
  destruct (c =? 46)%N; [|congruence]. unfold Json.span_digits.
  destruct (span Re.is_digit r1) as [[|d ds] r2]; congruence.
Qed.

Lemma firstn_prefix (a b : pystr) :
  firstn (List.length (a ++ b) - List.length b) (a ++ b) = a.
Proof.
  rewrite length_app.
  replace (List.length a + List.length b - List.length b)
    with (List.length a + 0) by lia.
  rewrite firstn_app_2. simpl. apply app_nil_r.
Qed.

(** [re.search(NUMBER_RE, s)] finds the first numeral of [s]. *)
Lemma search_number_from (s : pystr) :
  forall prev, Re.search_from Bedrock.NUMBER_RE prev s
               = option_map Spec.numeral_text (Spec.first_numeral s).
Proof.
  induction s as [|c s IH]; intros prev.
  - reflexivity.
  - cbn [Re.search_from Spec.first_numeral]. unfold Re.match_here.
    fold Spec.accept. rewrite run_number. unfold Spec.numeral_rest.
    pose proof (span_app Re.is_digit (c :: s)) as Happ.
    cbn [span] in *. destruct (Re.is_digit c) eqn:Hc.
    + destruct (span Re.is_digit s) as [ds r] eqn:Hsp. cbn [fst snd] in *.
      destruct (Json.frac_part r) as [[fd|] r2] eqn:Hf; cbn [snd option_map].
      * apply frac_part_some in Hf as (Hr & Hne & _ & _).
        f_equal. unfold Spec.numeral_text. cbn [fst snd].
        destruct fd as [|d fd]; [congruence|].
        rewrite <- Happ at 1 2. rewrite Hr.
        change (46%N :: (d :: fd) ++ r2) with ((46%N :: d :: fd) ++ r2).
        rewrite app_assoc. apply firstn_prefix.
      * apply frac_part_none in Hf. subst r2. f_equal.
        unfold Spec.numeral_text. cbn [fst snd].
        rewrite <- Happ at 1 2. apply firstn_prefix.
    + apply IH.
Qed.

Lemma search_number (s : pystr) :
  Re.search Bedrock.NUMBER_RE s
  = option_map Spec.numeral_text (Spec.first_numeral s).
Proof. apply search_number_from. Qed.

(** What a numeral found by [first_numeral] is made of. *)
Lemma first_numeral_shape (s ip fd : pystr) :
  Spec.first_numeral s = Some (ip, fd) ->
  ip <> [] /\ forallb Re.is_digit ip = true /\ forallb Re.is_digit fd = true.
Proof.
  induction s as [|c s IH]; [discriminate|].
  cbn [Spec.first_numeral].
  pose proof (span_all Re.is_digit (c :: s)) as Hall.
  cbn [span] in *. destruct (Re.is_digit c) eqn:Hc; [|exact IH].
  destruct (span Re.is_digit s) as [ds r] eqn:Hsp. cbn [fst] in Hall.
  destruct (Json.frac_part r) as [[fd'|] r2] eqn:Hf; intros E; inversion E; subst.
  - apply frac_part_some in Hf as (_ & _ & Hfd & _).
    repeat split; auto; congruence.
  - repeat split; auto; congruence.
Qed.

(** [float()] reads the text of a numeral as the value it denotes. *)
Lemma py_float_numeral (ip fd : pystr) :
  ip <> [] -> forallb Re.is_digit ip = true -> forallb Re.is_digit fd = true ->
  Bedrock.py_float (Spec.numeral_text (ip, fd)) = Ok (Spec.numeral_value (ip, fd)).
Proof.
  intros Hne Hip Hfd. unfold Bedrock.py_float, Spec.numeral_text,
    Spec.numeral_value, Json.span_digits. cbn [fst snd].
  destruct fd as [|d fd].
  - rewrite <- (app_nil_r ip) at 1. rewrite span_unique by auto.
    destruct ip; [congruence|]. rewrite app_nil_r. reflexivity.
  - rewrite span_unique; auto.
    destruct ip as [|i ip]; [congruence|].
    rewrite N.eqb_refl.
    rewrite <- (app_nil_r (d :: fd)) at 1. rewrite span_unique by auto.
    reflexivity.
Qed.

(* ================================================================== *)
(** * AmountParser and CurrencyDetector *)
(* ================================================================== *)

(** C5. AmountParser: an absent input gives no value; otherwise the commas
    and the rupee, dollar and euro signs are dropped, the first run of
    digits with an optional decimal point and fractional digits is taken,
    and its float value is returned; no run, no value.  In particular
    "₹1,234.50" gives 1234.5 (the binary64 number 5429388417957888 * 2^-42),
    [None] and "garbage" give no value. *)
Theorem parse_amount_contract `{Runtime} :
  (forall o : option pystr,
      Bedrock.parse_amount (Spec.opt_str o) = Spec.amount_of o)
  /\ Bedrock.parse_amount (PStr (u "₹1,234.50"))
     = PFloat (float_of_decimal false 123450 (-2))
  /\ float_of_decimal false 123450 (-2)
     = S754_finite false 5429388417957888 (-42)
  /\ Bedrock.parse_amount PNone = PNone
  /\ Bedrock.parse_amount (PStr (u "garbage")) = PNone.
Proof.
  split; [|repeat split; vm_compute; reflexivity].
  intros [s|]; [|reflexivity]. cbn [Spec.opt_str].
  destruct s as [|c s]; [reflexivity|].
  unfold Bedrock.parse_amount, Spec.amount_of, Spec.cleaned.
  cbn [truthy negb py_str].
  change (u ",") with [44%N]. change Bedrock.RUPEE with [8377%N].
  change Bedrock.DOLLAR with [36%N]. change Bedrock.EURO with [8364%N].
  rewrite !replace_single, search_number.
  destruct (Spec.first_numeral _) as [[ip fd]|] eqn:E; cbn [option_map].
  - apply first_numeral_shape in E as (Hne & Hip & Hfd).
    rewrite py_float_numeral by assumption. reflexivity.
  - reflexivity.
Qed.

(** C10. Every falsy input gives no value ([None], the empty string and
    the number 0 among them, so an amount of 0 cannot be told from an
    absent one), and a truthy input goes through [str()] before the
    parse: the number 5 gives 5.0 (5629499534213120 * 2^-50). *)
Theorem parse_amount_falsy_and_coercion `{Runtime} :
  (forall v : pyval,
      Bedrock.parse_amount v
      = if truthy v then Bedrock.parse_amount (PStr (py_str v)) else PNone)
  /\ Bedrock.parse_amount PNone = PNone
  /\ Bedrock.parse_amount (PStr []) = PNone
  /\ Bedrock.parse_amount (PInt 0) = PNone
  /\ Bedrock.parse_amount (PInt 0) = Bedrock.parse_amount PNone
  /\ Bedrock.parse_amount (PInt 5)
     = PFloat (S754_finite false 5629499534213120 (-50)).
Proof.
  split; [|repeat split; vm_compute; reflexivity].
  intros v. unfold Bedrock.parse_amount at 1.
  destruct (truthy v) eqn:T; cbn [negb]; [|reflexivity].
  unfold Bedrock.parse_amount. cbn [py_str].
  destruct (py_str v) as [|c s] eqn:E; [|reflexivity].
  cbn [truthy negb]. vm_compute. reflexivity.
Qed.

Lemma extract_currency_opt (o : option pystr) :
  Bedrock.extract_currency (Spec.opt_str o) = Ok (Spec.currency_code o).
Proof.
  revert o.
  intros [s|]; [|reflexivity].
  destruct s as [|c s]; [reflexivity|].
  remember (c :: s) as t eqn:Et.
  unfold Bedrock.extract_currency, Spec.currency_code, Spec.opt_str.
  replace (truthy (PStr t)) with true by (subst t; reflexivity).
  cbn [negb py_in bind].
  change Bedrock.RUPEE with (u "₹"). change Bedrock.DOLLAR with (u "$").
  change Bedrock.EURO with (u "€").
  destruct (contains (u "₹") t); cbn [bind orb]; [reflexivity|].
  destruct (contains (u "INR") t); cbn [bind orb]; [reflexivity|].
  destruct (contains (u "Rs") t); cbn [bind orb]; [reflexivity|].
  destruct (contains (u "$") t); cbn [bind orb]; [reflexivity|].
  destruct (contains (u "€") t); reflexivity.
Qed.

(** C6. CurrencyDetector: a rupee sign, "INR" or "Rs" gives "INR"; else a
    dollar sign gives "USD"; else a euro sign gives "EUR"; else the empty
    string, which is also what an absent or empty input gives; a string
    with both a rupee marker and a dollar sign gives "INR". *)
Theorem extract_currency_priority :
  (forall o : option pystr,
      Bedrock.extract_currency (Spec.opt_str o) = Ok (Spec.currency_code o))
  /\ Bedrock.extract_currency (PStr (u "Rs 500")) = Ok (u "INR")
  /\ Bedrock.extract_currency (PStr (u "$20")) = Ok (u "USD")
  /\ Bedrock.extract_currency (PStr (u "5 €")) = Ok (u "EUR")
  /\ Bedrock.extract_currency (PStr []) = Ok []
  /\ Bedrock.extract_currency PNone = Ok []
  /\ Bedrock.extract_currency (PStr (u "$5 or ₹400")) = Ok (u "INR").
Proof.
  split; [apply extract_currency_opt | repeat split; vm_compute; reflexivity].
Qed.

(* ================================================================== *)
(** * Facts about the JSON scanner *)
(* ================================================================== *)

Lemma skip_ws_length (s : pystr) :
  List.length (Json.skip_ws s) <= List.length s.
Proof.
  induction s as [|c s IH]; simpl; auto.
  destruct (Json.is_ws c); simpl; lia.
Qed.

Lemma string_body_length (s : pystr) :
  forall (skip : nat) (acc t r : pystr),
    Json.string_body skip acc s = Some (t, r) ->
    List.length r < List.length s.
Proof.
  induction s as [|c s IH]; intros skip acc t r; cbn [Json.string_body].
  - discriminate.
  - destruct skip as [|n].
    + destruct (c =? 34)%N.
      { intros E; inversion E; subst; simpl; lia. }
      destruct (c =? 92)%N.
      { destruct s as [|e s2]; [discriminate|].
        destruct (e =? 117)%N.
        - destruct s2 as [|a [|b [|h [|d s3]]]]; try discriminate.
          destruct (Json.hex4 a b h d) as [cp|]; [|discriminate].
          destruct (if Json.is_high_surrogate cp then Json.low_escape s3
                    else None);
            intros E; apply IH in E; simpl in *; lia.
        - destruct (Json.simple_escape e); [|discriminate].
          intros E; apply IH in E; simpl in *; lia. }
      destruct (c <? 32)%N; [discriminate|].
      intros E; apply IH in E; simpl in *; lia.
    + intros E; apply IH in E; simpl in *; lia.
Qed.

Lemma strip_prefix_length (p s r : pystr) :
  p <> [] -> Json.strip_prefix p s = Some r ->
  List.length r < List.length s.
Proof.
  intros Hp. unfold Json.strip_prefix.
  destruct (startswith p s) eqn:E; [|discriminate].
  intros R; inversion R; subst. apply startswith_length in E.
  rewrite length_skipn. destruct p; [congruence|]. simpl in *. lia.
Qed.

Lemma literal_length (s r : pystr) (v : pyval) :
  Json.literal s = Some (v, r) -> List.length r < List.length s.
Proof.
  unfold Json.literal.
  repeat match goal with
         | |- context [Json.strip_prefix ?p s] =>
             let E := fresh "E" in
             destruct (Json.strip_prefix p s) eqn:E;
             [intros R; inversion R; subst;
              apply strip_prefix_length in E; [exact E | discriminate]|]
         end.
  discriminate.
Qed.

Lemma exp_part_length (s : pystr) :
  List.length (snd (Json.exp_part s)) <= List.length s.
Proof.
  destruct s as [|c s]; simpl; auto.
  destruct ((c =? 101) || (c =? 69))%N; simpl; auto.
  destruct s as [|x t]; [simpl; lia|].
  destruct (x =? 45)%N; [|destruct (x =? 43)%N]; unfold Json.span_digits;
    match goal with
    | |- context [span Re.is_digit ?l] =>
        pose proof (span_length Re.is_digit l);
        destruct (span Re.is_digit l) as [[|d ds] r]
    end; simpl in *; lia.
Qed.

Lemma int_part_length (s ip r : pystr) :
  Json.int_part s = Some (ip, r) -> List.length r < List.length s.
Proof.
  destruct s as [|c s]; simpl; [discriminate|].
  destruct (c =? 48)%N; [intros E; inversion E; subst; simpl; lia|].
  destruct (Re.is_digit c) eqn:D; [|discriminate].
  unfold Json.span_digits. cbn [span]. rewrite D.
  pose proof (span_length Re.is_digit s) as L.
  destruct (span Re.is_digit s) as [ds r']. intros E; inversion E; subst.
  simpl in *. lia.
Qed.

Lemma number_length (s r : pystr) (v : pyval) :
  Json.number s = Some (v, r) -> List.length r < List.length s.
Proof.
  unfold Json.number.
  assert (H : forall s0 : pystr,
             List.length s0 <= List.length s ->
             forall ip r0 : pystr,
               Json.int_part s0 = Some (ip, r0) ->
               List.length (snd (Json.exp_part (snd (Json.frac_part r0))))
               < List.length s).
  { intros s0 Hs0 ip r0 Ei. apply int_part_length in Ei.
    pose proof (frac_part_length r0).
    pose proof (exp_part_length (snd (Json.frac_part r0))). lia. }
  destruct s as [|x t]; [discriminate|].
  destruct (x =? 45)%N;
    match goal with
    | |- context [Json.int_part ?s0] =>
        pose proof (H s0) as H0;
        destruct (Json.int_part s0) as [[ip r0]|]; [|discriminate];
        specialize (H0 ltac:(simpl; lia) ip r0 eq_refl)
    end;
    destruct (Json.frac_part r0) as [fp r1]; cbn [snd] in H0;
    destruct (Json.exp_part r1) as [ep r2]; cbn [snd] in H0;
    destruct fp, ep; intros E; inversion E; subst; exact H0.
Qed.

(** The fuel [loads] gives to the scanner is never used up, and every
    value read consumes input. *)
Lemma scanner_fuel (f : nat) :
  (forall s : pystr,
      2 * List.length s < f ->
      Json.value f s <> Json.NoFuel
      /\ forall v r, Json.value f s = Json.Parsed v r ->
                     List.length r < List.length s)
  /\ (forall (s : pystr) (acc : list pyval),
         2 * List.length s + 1 < f ->
         Json.elements f s acc <> Json.NoFuel
         /\ forall v r, Json.elements f s acc = Json.Parsed v r ->
                        List.length r < List.length s)
  /\ (forall (s : pystr) (acc : list (pystr * pyval)),
         2 * List.length s + 1 < f ->
         Json.members f s acc <> Json.NoFuel
         /\ forall v r, Json.members f s acc = Json.Parsed v r ->
                        List.length r < List.length s).
Proof.
  induction f as [|f (IHv & IHe & IHm)].
  - repeat split; intros; lia.
  - split; [|split].
    + intros s Hs. cbn [Json.value].
      destruct s as [|c s']; [split; [|intros]; discriminate|].
      cbn [List.length] in Hs.
      destruct (c =? 34)%N.
      { destruct (Json.string_body 0 [] s') as [[str r]|] eqn:Eb;
          (split; [discriminate|]); intros v r0 E; inversion E; subst.
        apply string_body_length in Eb. simpl; lia. }
      pose proof (skip_ws_length s') as Lw.
      destruct (c =? 123)%N.
      { destruct (Json.skip_ws s') as [|x r];
          [split; [|intros]; discriminate|].
        destruct (x =? 125)%N.
        - split; [discriminate|]. intros v r0 E; inversion E; subst.
          simpl in *; lia.
        - destruct (IHm (x :: r) []) as [Hn Hl]; [simpl in *; lia|].
          split; [exact Hn|]. intros v r0 E. apply Hl in E. simpl in *; lia. }
      destruct (c =? 91)%N.
      { destruct (Json.skip_ws s') as [|x r];
          [split; [|intros]; discriminate|].
        destruct (x =? 93)%N.
        - split; [discriminate|]. intros v r0 E; inversion E; subst.
          simpl in *; lia.
        - destruct (IHe (x :: r) []) as [Hn Hl]; [simpl in *; lia|].
          split; [exact Hn|]. intros v r0 E. apply Hl in E. simpl in *; lia. }
      destruct (Json.literal (c :: s')) as [[v0 r0]|] eqn:El.
      { split; [discriminate|]. intros v r E; inversion E; subst.
        apply literal_length in El. exact El. }
      destruct (Json.number (c :: s')) as [[v0 r0]|] eqn:En;
        (split; [discriminate|]); intros v r E; inversion E; subst.
      apply number_length in En. exact En.
    + intros s acc Hs. cbn [Json.elements].
      destruct (IHv s) as [Hn Hl]; [lia|].
      destruct (Json.value f s) as [v r| |] eqn:Ev;
        [|split; [|intros]; discriminate|congruence].
      specialize (Hl v r eq_refl).
      pose proof (skip_ws_length r) as Lw.
      destruct (Json.skip_ws r) as [|x r1];
        [split; [|intros]; discriminate|].
      destruct (x =? 44)%N.
      { pose proof (skip_ws_length r1) as Lw1.
        destruct (IHe (Json.skip_ws r1) (v :: acc)) as [Hn' Hl'];
          [simpl in *; lia|].
        split; [exact Hn'|]. intros v' r' E. apply Hl' in E.
        simpl in *; lia. }
      destruct (x =? 93)%N; (split; [discriminate|]);
        intros v' r' E; inversion E; subst. simpl in *; lia.
    + intros s acc Hs. cbn [Json.members].
      destruct s as [|x s1]; [split; [|intros]; discriminate|].
      destruct (negb (x =? 34)%N); [split; [|intros]; discriminate|].
      destruct (Json.string_body 0 [] s1) as [[k r]|] eqn:Eb;
        [|split; [|intros]; discriminate].
      apply string_body_length in Eb.
      pose proof (skip_ws_length r) as Lw.
      destruct (Json.skip_ws r) as [|y r1];
        [split; [|intros]; discriminate|].
      destruct (negb (y =? 58)%N); [split; [|intros]; discriminate|].
      pose proof (skip_ws_length r1) as Lw1.
      destruct (IHv (Json.skip_ws r1)) as [Hn Hl]; [simpl in *; lia|].
      destruct (Json.value f (Json.skip_ws r1)) as [v r2| |] eqn:Ev;
        [|split; [|intros]; discriminate|congruence].
      specialize (Hl v r2 eq_refl).
      pose proof (skip_ws_length r2) as Lw2.
      destruct (Json.skip_ws r2) as [|z r3];
        [split; [|intros]; discriminate|].
      destruct (z =? 44)%N.
      { pose proof (skip_ws_length r3) as Lw3.
        destruct (IHm (Json.skip_ws r3) (dict_set acc k v)) as [Hn' Hl'];
          [simpl in *; lia|].
        split; [exact Hn'|]. intros v' r' E. apply Hl' in E.
        simpl in *; lia. }
      destruct (z =? 125)%N; (split; [discriminate|]);
        intros v' r' E; inversion E; subst. simpl in *; lia.
Qed.

(** [loads] answers with a value or with a syntax error of the text. *)
Lemma loads_fuel (s : pystr) :
  Json.value (2 * List.length (Json.skip_ws s) + 2) (Json.skip_ws s)
  <> Json.NoFuel.
Proof. apply scanner_fuel. lia. Qed.

(* ================================================================== *)
(** * NormalizationStage *)
(* ================================================================== *)

Lemma lookup_dict_set_same (d : list (pystr * pyval)) (k : pystr) (v : pyval) :
  lookup (dict_set d k v) k = Some v.
Proof.
  induction d as [|[k' v'] d IH]; simpl.
  - rewrite eqb_refl. reflexivity.
  - destruct (PyStr.eqb k' k) eqn:E; simpl; rewrite E; auto.
Qed.

Lemma lookup_dict_set_other (d : list (pystr * pyval)) (k k' : pystr)
  (v : pyval) :
  k' <> k -> lookup (dict_set d k v) k' = lookup d k'.
Proof.
  intros Hne. induction d as [|[k0 v0] d IH]; simpl.
  - destruct (PyStr.eqb k k') eqn:E; auto.
    apply eqb_eq in E. congruence.
  - destruct (PyStr.eqb k0 k) eqn:E; simpl.
    + apply eqb_eq in E. subst k0.
      destruct (PyStr.eqb k k') eqn:E'; auto.
      apply eqb_eq in E'. congruence.
    + rewrite IH. reflexivity.
Qed.

Lemma py_get_dict (d : list (pystr * pyval)) (k : pystr) :
  py_get (PDict d) k PNone = Ok (Spec.dict_get d k).
Proof. reflexivity. Qed.

(** C2. Normalisation of the model's fields against a summary whose raw
    total is absent or a string: [amount] becomes AmountParser of
    [fields.amount] when that is present and truthy, of the raw total
    otherwise; [currency] stays [fields.currency] when that is present and
    truthy and becomes CurrencyDetector of the raw total otherwise; an
    explicit null amount falls back to the raw total; the other fields are
    kept. *)
Theorem normalize_precedence `{Runtime} (fields sd : list (pystr * pyval)) :
  Spec.optional_string (Spec.dict_get sd (u "Total")) = true ->
  exists out : list (pystr * pyval),
    Bedrock.normalize (PDict fields) (PDict sd) = Ok (PDict out)
    /\ lookup out (u "amount")
       = Some (Bedrock.parse_amount
                 (if truthy (Spec.dict_get fields (u "amount"))
                  then Spec.dict_get fields (u "amount")
                  else Spec.dict_get sd (u "Total")))
    /\ lookup out (u "currency")
       = Some (if truthy (Spec.dict_get fields (u "currency"))
               then Spec.dict_get fields (u "currency")
               else PStr (Spec.currency_code
                            (Spec.as_opt_str (Spec.dict_get sd (u "Total")))))
    /\ (lookup fields (u "amount") = Some PNone ->
        lookup out (u "amount")
        = Some (Bedrock.parse_amount (Spec.dict_get sd (u "Total"))))
    /\ (forall k : pystr, k <> u "amount" -> k <> u "currency" ->
        lookup out k = lookup fields k).
Proof.
  intros Htotal.
  set (amount := Spec.dict_get fields (u "amount")).
  set (total := Spec.dict_get sd (u "Total")) in *.
  set (x := if truthy amount then amount else total).
  set (d1 := dict_set fields (u "amount") (Bedrock.parse_amount x)).
  set (currency := Spec.dict_get fields (u "currency")).
  set (cur := if truthy currency then currency
              else PStr (Spec.currency_code (Spec.as_opt_str total))).
  assert (Hc : Spec.dict_get d1 (u "currency") = currency).
  { unfold Spec.dict_get, d1. rewrite lookup_dict_set_other; [reflexivity|].
    intros E; vm_compute in E; discriminate. }
  assert (Hcur : (if truthy currency then Ok currency
                  else bind (py_get (PDict sd) (u "Total") (PStr []))
                         (fun t => bind (Bedrock.extract_currency t)
                                     (fun s => Ok (PStr s))))
                 = Ok cur).
  { unfold cur. destruct (truthy currency); [reflexivity|].
    unfold total, Spec.dict_get in *. cbn [py_get bind].
    destruct (lookup sd (u "Total")) as [[| | | |s| |]|];
      try discriminate Htotal; try reflexivity.
    change (PStr s) with (Spec.opt_str (Some s)) at 1.
    rewrite extract_currency_opt. reflexivity. }
  exists (dict_set d1 (u "currency") cur).
  split; [|split; [|split; [|split]]].
  - unfold Bedrock.normalize. rewrite py_get_dict. cbn [bind].
    fold amount.
    replace (if truthy amount then Ok amount
             else py_get (PDict sd) (u "Total") PNone) with (Ok x)
      by (unfold x; rewrite py_get_dict; destruct (truthy amount); reflexivity).
    cbn [bind py_setitem]. fold d1. rewrite py_get_dict. cbn [bind].
    rewrite Hc, Hcur. reflexivity.
  - rewrite lookup_dict_set_other by (intros E; vm_compute in E; discriminate).
    unfold d1. apply lookup_dict_set_same.
  - apply lookup_dict_set_same.
  - intros Hnull.
    rewrite lookup_dict_set_other by (intros E; vm_compute in E; discriminate).
    unfold d1. rewrite lookup_dict_set_same. unfold x, amount, Spec.dict_get.
    rewrite Hnull. reflexivity.
  - intros k Ha Hcu. unfold d1. rewrite !lookup_dict_set_other by assumption.
    reflexivity.
Qed.

(** The two worked cases of the specification: no amount from the model
    and a total of "$42.00" give 42.0 and "USD"; a null amount and an empty
    currency with a total of "$10.00" give 10.0 and "USD". *)
Lemma normalize_precedence_witness :
  Spec.optional_string
    (Spec.dict_get [(u "Total", PStr (u "$42.00"))] (u "Total")) = true
  /\ (exists out : list (pystr * pyval),
         @Bedrock.normalize Spec.sample_runtime (PDict [])
           (PDict [(u "Total", PStr (u "$42.00"))]) = Ok (PDict out)
         /\ lookup out (u "amount")
            = Some (PFloat (S754_finite false 5910974510923776 (-47)))
         /\ lookup out (u "currency") = Some (PStr (u "USD")))
  /\ (exists out : list (pystr * pyval),
         @Bedrock.normalize Spec.sample_runtime
           (PDict [(u "vendor", PStr (u "Acme")); (u "amount", PNone);
                   (u "currency", PStr [])])
           (PDict [(u "Vendor", PStr (u "Acme"));
                   (u "Total", PStr (u "$10.00"))]) = Ok (PDict out)
         /\ lookup out (u "amount")
            = Some (PFloat (S754_finite false 5629499534213120 (-49)))
         /\ lookup out (u "currency") = Some (PStr (u "USD"))).
Proof.
  split; [reflexivity|]. split.
  - destruct (@normalize_precedence Spec.sample_runtime []
                [(u "Total", PStr (u "$42.00"))] eq_refl)
      as (out & Hn & Ha & Hc & _).
    exists out. repeat split; assumption.
  - destruct (@normalize_precedence Spec.sample_runtime
                [(u "vendor", PStr (u "Acme")); (u "amount", PNone);
                 (u "currency", PStr [])]
                [(u "Vendor", PStr (u "Acme")); (u "Total", PStr (u "$10.00"))]
                eq_refl)
      as (out & Hn & Ha & Hc & _).
    exists out. repeat split; assumption.
Defined.

(* ================================================================== *)
(** * ModelOutputParser: the summary/JSON split *)
(* ================================================================== *)


Lemma split_aux_skip (sep : pystr) (s : pystr) :
  forall (k : nat) (cur : pystr),
    k <= List.length s ->
    split_aux sep k cur s = split_aux sep 0 cur (skipn k s).
Proof.
  induction s as [|c s IH]; intros [|k] cur Hk; simpl in *; try reflexivity;
    try lia.
  apply IH. lia.
Qed.

Lemma partition_none (sep s b : pystr) :
  partition sep s = (b, None) -> b = s.
Proof.
  revert b; induction s as [|c s IH]; intros b; simpl.
  - destruct (startswith sep []); congruence.
  - destruct (startswith sep (c :: s)); [discriminate|].
    destruct (partition sep s) as [b' [a|]]; [discriminate|].
    intros E; inversion E; subst. f_equal. apply IH. reflexivity.
Qed.

(** [split] cuts at the first separator and goes on with what follows. *)
Lemma split_aux_partition (sep : pystr) (s : pystr) :
  sep <> [] ->
  forall cur : pystr,
    split_aux sep 0 cur s
    = match partition sep s with
      | (b, None) => [rev cur ++ b]
      | (b, Some a) => (rev cur ++ b) :: split_aux sep 0 [] a
      end.
Proof.
  intros Hsep. induction s as [|c s IH]; intros cur.
  - destruct sep as [|x sep]; [congruence|]. simpl.
    rewrite app_nil_r. reflexivity.
  - cbn [split_aux partition].
    destruct (startswith sep (c :: s)) eqn:E.
    + rewrite app_nil_r. f_equal.
      apply startswith_length in E.
      destruct sep as [|x sep]; [congruence|]. simpl in *.
      rewrite Nat.sub_0_r. apply split_aux_skip. lia.
    + rewrite IH. destruct (partition sep s) as [b [a|]]; simpl;
        rewrite <- app_assoc; reflexivity.
Qed.

Lemma split_partition (sep s : pystr) :
  sep <> [] ->
  split sep s
  = match partition sep s with
    | (b, None) => [b]
    | (b, Some a) => b :: split sep a
    end.
Proof.
  intros Hsep. unfold split. rewrite split_aux_partition by assumption.
  destruct (partition sep s) as [b [a|]]; reflexivity.
Qed.

Lemma split_head (sep s : pystr) :
  sep <> [] ->
  exists rest : list pystr, split sep s = fst (partition sep s) :: rest.
Proof.
  intros Hsep. rewrite split_partition by assumption.
  destruct (partition sep s) as [b [a|]]; eexists; reflexivity.
Qed.

(** The greedy [.*] of [BRACES_RE] backs up to the last closing brace. *)
Lemma rep_any_closing (fuel : nat) :
  forall (s : pystr) (prev : option N),
    List.length s <= fuel ->
    Re.rep_loop (Re.cls_step (fun _ => true))
      (fun prev' s' => Re.cls_step (N.eqb 125) prev' s' Spec.accept)
      fuel 0 None prev s
    = Spec.after_last_closing s.
Proof.
  induction fuel as [|f IH]; intros s prev Hlen.
  - destruct s; [reflexivity | simpl in Hlen; lia].
  - cbn [Re.rep_loop]. destruct s as [|c s']; [reflexivity|].
    cbn [Re.cls_step Spec.after_last_closing].
    assert (Hlt : (List.length s' <? List.length (c :: s'))%nat = true)
      by (apply Nat.ltb_lt; simpl; lia).
    rewrite Hlt. cbn [pred option_map]. rewrite IH by (simpl in Hlen; lia).
    destruct (Spec.after_last_closing s'); [reflexivity|].
    rewrite N.eqb_sym. reflexivity.
Qed.

Lemma closing_split (s : pystr) :
  match Spec.after_last_closing s, Spec.upto_last_closing s with
  | Some r, Some t => s = t ++ r
  | None, None => True
  | _, _ => False
  end.
Proof.
  induction s as [|c s IH]; simpl; auto.
  destruct (Spec.after_last_closing s), (Spec.upto_last_closing s);
    try contradiction.
  - simpl. congruence.
  - destruct (c =? 125)%N; auto.
Qed.

Lemma match_braces (prev : option N) (s : pystr) :
  Re.match_here Bedrock.BRACES_RE prev s
  = match s with
    | [] => None
    | c :: s' =>
        if (c =? 123)%N then
          match Spec.upto_last_closing s' with
          | Some t => Some (c :: t)
          | None => None
          end
        else None
    end.
Proof.
  unfold Re.match_here, Bedrock.BRACES_RE, Re.star, Re.any, Re.chr.
  cbn [Re.run]. destruct s as [|c s']; [reflexivity|].
  cbn [Re.cls_step]. rewrite N.eqb_sym.
  destruct (c =? 123)%N; [|reflexivity].
  change (fun (prev' : option N) (s'0 : pystr) (k' : Re.cont) =>
            Re.cls_step (fun _ : N => true) prev' s'0 k')
    with (@Re.cls_step pystr (fun _ : N => true)).
  change (fun (prev' : option N) (s'0 : pystr) =>
            Re.cls_step (N.eqb 125) prev' s'0 (fun _ rest => Some rest))
    with (fun (prev' : option N) (s'0 : pystr) =>
            Re.cls_step (N.eqb 125) prev' s'0 Spec.accept).
  rewrite rep_any_closing by lia.
  pose proof (closing_split s') as Hs.
  destruct (Spec.after_last_closing s') as [r|],
           (Spec.upto_last_closing s') as [t|]; try contradiction;
    [|reflexivity].
  f_equal. rewrite Hs at 1 2.
  change (c :: t ++ r) with ((c :: t) ++ r). apply firstn_prefix.
Qed.

Lemma search_braces_none (s : pystr) :
  Spec.upto_last_closing s = None ->
  forall prev, Re.search_from Bedrock.BRACES_RE prev s = None.
Proof.
  induction s as [|c s IH]; intros Hn prev; cbn [Re.search_from];
    rewrite match_braces.
  - reflexivity.
  - cbn [Spec.upto_last_closing] in Hn.
    destruct (Spec.upto_last_closing s); [discriminate|].
    destruct (c =? 123)%N; apply IH; reflexivity.
Qed.

(** [re.search(BRACES_RE, s)] is the first brace-delimited stretch. *)
Lemma search_braces (s : pystr) :
  forall prev, Re.search_from Bedrock.BRACES_RE prev s = Spec.outer_braces s.
Proof.
  induction s as [|c s IH]; intros prev; cbn [Re.search_from];
    rewrite match_braces; [reflexivity|].
  cbn [Spec.outer_braces]. destruct (c =? 123)%N; [|apply IH].
  destruct (Spec.upto_last_closing s) eqn:E; [reflexivity|].
  apply search_braces_none. exact E.
Qed.

Lemma separator_not_empty : Bedrock.SEPARATOR <> [].
Proof. discriminate. Qed.

(** The recovery chain of the code is [fields_of]. *)
Lemma recover_fields (candidate raw : pystr) :
  try_except (Json.loads candidate)
    (fun _ =>
       match Re.search Bedrock.BRACES_RE raw with
       | Some m => try_except (Json.loads m) (fun _ => Ok (PDict []))
       | None => Ok (PDict [])
       end)
  = Ok (Spec.fields_of candidate raw).
Proof.
  unfold Spec.fields_of, Re.search. rewrite search_braces.
  destruct (Json.loads candidate); cbn; auto.
  destruct (Spec.outer_braces raw) as [m|]; auto.
  destruct (Json.loads m); reflexivity.
Qed.

(** C1 (amended). For every input text the parser splits at the separator
    [===JSON===]: what precedes the first separator, trimmed, is the summary
    line; the JSON candidate is what lies between the first separator and
    the next one (everything after the first when there is no other),
    trimmed; a non-empty candidate is parsed strictly, on failure the
    whole text is scanned for its first brace-delimited stretch, which is
    parsed strictly, and on failure again the fields are the empty mapping;
    an empty candidate gives empty fields at once; without a separator the
    whole text, trimmed, is the summary line and the fields are empty. *)
Theorem parse_output_split `{Runtime} :
  forall text : pystr,
    Bedrock.parse_bedrock_output (PStr text)
    = Ok (Spec.parse_output_amended text).
Proof.
  intros text.
  destruct text as [|c t]; [reflexivity|].
  remember (c :: t) as text eqn:Et.
  unfold Bedrock.parse_bedrock_output, Spec.parse_output_amended.
  replace (truthy (PStr text)) with true by (subst; reflexivity).
  cbn [negb py_str].
  rewrite (split_partition text separator_not_empty).
  destruct (partition Bedrock.SEPARATOR text) as [b [a|]] eqn:Ep.
  - destruct (split_head a separator_not_empty) as [rest ->].
    destruct (strip (fst (partition Bedrock.SEPARATOR a))) as [|x cand] eqn:Ec.
    + reflexivity.
    + rewrite recover_fields. reflexivity.
  - apply partition_none in Ep. subst b. reflexivity.
Qed.

(** C1 as stated fails on two texts: an object before a separator that
    nothing follows (the stated scan of the whole text would find the
    object, the code returns empty fields), and two separators (the stated
    candidate runs to the end and fails to parse, the code parses the
    object between the separators). *)
Lemma parse_output_spec_counterexample :
  @Bedrock.parse_bedrock_output Spec.sample_runtime
    (PStr (u "{" ++ Spec.q "a" ++ u ":1} ===JSON==="))
  <> Ok (Spec.parse_output_spec (u "{" ++ Spec.q "a" ++ u ":1} ===JSON==="))
  /\ @Bedrock.parse_bedrock_output Spec.sample_runtime
       (PStr (u "x===JSON==={" ++ Spec.q "k" ++ u ":1}===JSON==={"
                ++ Spec.q "j" ++ u ":2}"))
     <> Ok (Spec.parse_output_spec
              (u "x===JSON==={" ++ Spec.q "k" ++ u ":1}===JSON==={"
                 ++ Spec.q "j" ++ u ":2}")).
Proof. split; vm_compute; discriminate. Qed.

(** The parser never raises. *)
Lemma parse_output_total `{Runtime} (raw : pyval) :
  exists r : pystr * pyval, Bedrock.parse_bedrock_output raw = Ok r.
Proof.
  unfold Bedrock.parse_bedrock_output.
  destruct (negb (truthy raw)); [eexists; reflexivity|].
  destruct (split Bedrock.SEPARATOR (py_str raw)) as [|p0 [|p1 rest]];
    try (eexists; reflexivity).
  destruct (strip p1); [eexists; reflexivity|].
  rewrite recover_fields. eexists; reflexivity.
Qed.

(** C4, at the failing input: a model answer whose JSON part is an array
    comes back from the parser as a list, not as a mapping, and the
    normalisation step of the handler then raises; the parser itself never
    raises. *)
Theorem parse_output_not_a_mapping `{Runtime} :
  Bedrock.parse_bedrock_output (PStr (u "Coffee purchase
===JSON===
[]"))
  = Ok (u "Coffee purchase", PList [])
  /\ is_dict (PList []) = false
  /\ (forall summary_data : pyval,
         Bedrock.normalize (PList []) summary_data = Raise AttributeError)
  /\ Bedrock.parse_bedrock_output (PStr (u "Total 5
===JSON===
5"))
     = Ok (u "Total 5", PInt 5)
  /\ (forall raw : pyval,
         exists r : pystr * pyval, Bedrock.parse_bedrock_output raw = Ok r).
Proof.
  split; [vm_compute; reflexivity|].
  split; [reflexivity|].
  split; [reflexivity|].
  split; [vm_compute; reflexivity|].
  apply parse_output_total.
Qed.

(* ================================================================== *)
(** * ModelOutputParser: the text inside the provider envelope *)
(* ================================================================== *)

Lemma dict_get_truthy (d : list (pystr * pyval)) (k : pystr) :
  truthy (Spec.dict_get d k) = true ->
  py_getitem (PDict d) k = Ok (Spec.dict_get d k).
Proof.
  unfold Spec.dict_get, py_getitem.
  destruct (lookup d k); [reflexivity | discriminate].
Qed.

Lemma newer_loop_first (l : list pyval) :
  Bedrock.newer_loop l = Ok (Spec.first_text l).
Proof.
  induction l as [|c l IH]; [reflexivity|].
  cbn [Bedrock.newer_loop]. unfold Spec.first_text in *. cbn [find].
  destruct c as [| | | | | |d]; cbn [is_dict Spec.text_item]; try exact IH.
  rewrite !py_get_dict. cbn [bind].
  destruct (eq_str (Spec.dict_get d (u "type")) (u "text")); cbn [andb];
    [|exact IH].
  destruct (truthy (Spec.dict_get d (u "text"))) eqn:T; [|exact IH].
  apply dict_get_truthy. exact T.
Qed.

Lemma find_text_item (l : list pyval) (c : pyval) :
  find Spec.text_item l = Some c -> truthy (Spec.item_text c) = true.
Proof.
  intros F. apply find_some in F as [_ F].
  destruct c; try discriminate F. simpl in *.
  apply andb_true_iff in F as [_ F]. exact F.
Qed.

Lemma first_text_cases (l : list pyval) :
  Spec.first_text l = PNone \/ truthy (Spec.first_text l) = true.
Proof.
  unfold Spec.first_text. destruct (find Spec.text_item l) eqn:F; auto.
  right. eapply find_text_item; eassumption.
Qed.

(** Induction on values, through the lists and the mappings. *)
Lemma pyval_nested_ind (P : pyval -> Prop) :
  P PNone ->
  (forall b, P (PBool b)) ->
  (forall z, P (PInt z)) ->
  (forall f, P (PFloat f)) ->
  (forall s, P (PStr s)) ->
  (forall l, Forall P l -> P (PList l)) ->
  (forall d, Forall (fun kv => P (snd kv)) d -> P (PDict d)) ->
  forall v, P v.
Proof.
  intros HN HB HI HF HS HL HD. fix IH 1. intros [|b|z|f|s|l|d].
  - exact HN.
  - apply HB.
  - apply HI.
  - apply HF.
  - apply HS.
  - apply HL. induction l as [|x l IHl]; constructor; [apply IH|exact IHl].
  - apply HD. induction d as [|[k x] d IHd]; constructor;
      [apply IH|exact IHd].
Qed.

Lemma item_events_truthy (l : list pyval) :
  Forall (fun ev => match ev with
                    | Ok t => truthy t = true
                    | Raise _ => True
                    end) (flat_map Spec.item_events l).
Proof.
  induction l as [|c l IH]; [constructor|]. cbn [flat_map].
  apply Forall_app. split; [|exact IH].
  destruct c as [| | | | | |d]; cbn [Spec.item_events];
    try (constructor; [exact I|constructor]).
  destruct (Spec.text_item (PDict d)) eqn:T; [|constructor].
  constructor; [|constructor].
  cbn [Spec.text_item Spec.item_text] in *.
  apply andb_true_iff in T as [_ T]. exact T.
Qed.

(** The inner loop of the older schema stops at the first thing it
    meets. *)
Lemma content_loop_events (l : list pyval) :
  Bedrock.content_loop l = Spec.first_event (flat_map Spec.item_events l).
Proof.
  induction l as [|c l IH]; [reflexivity|].
  cbn [Bedrock.content_loop flat_map].
  destruct c as [| | | | | |d]; try reflexivity.
  cbn [Spec.item_events Spec.text_item].
  rewrite !py_get_dict. cbn [bind].
  destruct (eq_str (Spec.dict_get d (u "type")) (u "text")); cbn [andb];
    [|exact IH].
  destruct (truthy (Spec.dict_get d (u "text"))) eqn:T; [|exact IH].
  cbn [app Spec.first_event Spec.item_text].
  apply dict_get_truthy. exact T.
Qed.

(** So does the outer loop, which goes on to the next item when a message
    gave nothing. *)
Lemma outputs_loop_events (l : list pyval) :
  Bedrock.outputs_loop l = Spec.first_event (flat_map Spec.message_events l).
Proof.
  induction l as [|out l IH]; [reflexivity|].
  cbn [Bedrock.outputs_loop flat_map].
  destruct out as [| | | | | |d]; try reflexivity.
  cbn [Spec.message_events Spec.is_message].
  rewrite py_get_dict. cbn [bind].
  destruct (eq_str (Spec.dict_get d (u "type")) (u "message")); [|exact IH].
  cbn [py_get bind].
  destruct (py_iter _) as [items|e]; cbn [bind]; [|reflexivity].
  rewrite content_loop_events.
  pose proof (item_events_truthy items) as Hev.
  destruct (flat_map Spec.item_events items) as [|ev evs].
  - cbn [Spec.first_event bind truthy app]. exact IH.
  - cbn [Spec.first_event app]. inversion Hev as [|ev' evs' Hx _]; subst.
    destruct ev as [t|e]; cbn [bind]; [|reflexivity].
    rewrite Hx. reflexivity.
Qed.

Lemma first_event_cases (events : list (result pyval)) (t : pyval) :
  Forall (fun ev => match ev with
                    | Ok t => truthy t = true
                    | Raise _ => True
                    end) events ->
  Spec.first_event events = Ok t -> t = PNone \/ truthy t = true.
Proof.
  intros Hev. destruct events as [|ev evs]; cbn [Spec.first_event].
  - intros E; inversion E; auto.
  - inversion Hev as [|ev' evs' Hx _]; subst. intros E; subst ev. auto.
Qed.

Lemma message_events_truthy (l : list pyval) :
  Forall (fun ev => match ev with
                    | Ok t => truthy t = true
                    | Raise _ => True
                    end) (flat_map Spec.message_events l).
Proof.
  induction l as [|out l IH]; [constructor|]. cbn [flat_map].
  apply Forall_app. split; [|exact IH].
  destruct out as [| | | | | |d]; cbn [Spec.message_events];
    try (constructor; [exact I|constructor]).
  destruct (Spec.is_message (PDict d)); [|constructor].
  destruct (py_iter _) as [items|e];
    [apply item_events_truthy|constructor; [exact I|constructor]].
Qed.

(** The search of the code is the search (c) of the amended statement. *)
Lemma find_text_found_text (obj : pyval) :
  Bedrock.find_text obj = Spec.opt_str (Spec.found_text obj).
Proof.
  induction obj as [| | | | |l IH|d IH] using pyval_nested_ind;
    try reflexivity.
  - induction IH as [|x l Hx _ IHl]; [reflexivity|].
    cbn [Bedrock.find_text Spec.found_text map Spec.first_some fold_right]
      in *.
    rewrite Hx.
    destruct (Spec.found_text x) as [[|c s]|];
      cbn [Spec.opt_str truthy Spec.non_empty]; try exact IHl.
    reflexivity.
  - induction IH as [|[k x] d Hx _ IHd]; [reflexivity|].
    cbn [Bedrock.find_text Spec.found_text map Spec.first_some fold_right snd]
      in *.
    destruct x as [|b|z|f|s|l|m]; cbn [is_str];
      rewrite ?andb_false_r, ?andb_true_r.
    1-4, 6-7:
      rewrite Hx;
      destruct (Spec.found_text _) as [[|c s]|];
      cbn [Spec.opt_str truthy Spec.non_empty]; try exact IHd; reflexivity.
    destruct (PyStr.eqb k (u "text")); [reflexivity|].
    cbn [Bedrock.find_text truthy]. exact IHd.
Qed.

(** C3 (amended). The text of the model in a response body.  A body that
    does not decode as JSON is the text itself.  A body that decodes is
    searched in order by (a) the newer schema (output, content list, first
    item that is an object of type "text" with a text that is not empty),
    (b) the older schema (the items of the outputs list in order, and in
    each item of type "message" the items of its content in order: the
    first item of type "text" with a text that is not empty, so that a
    message without such an item is passed over), (c) the recursive search
    [find_text] (in a mapping the entries in order, an entry named "text"
    with a string value ending the search of that mapping with that
    string, empty or not, any other entry being searched in turn and
    ending it when it yields a text that is not empty; in a list the
    items in turn until one yields a text that is not empty); the first
    layer that yields something wins, and the raw string is the text when
    none does.  The extraction fails, and does not fall back to the raw
    string, when the decoded value is not an object or its output entry is
    present without being an object, and when the walk (b), before it has
    found a text, meets an item of outputs or an item of a message content
    that is not an object (AttributeError) or a message content that
    cannot be iterated (TypeError).  Stated for every body. *)
Theorem extract_text_layers :
  (forall raw : pystr,
      Bedrock.extract_text raw = Spec.extract_text_amended raw)
  /\ (forall obj : pyval,
         Bedrock.find_text obj = Spec.opt_str (Spec.found_text obj))
  /\ Bedrock.find_text Spec.empty_text_inside = PStr (u "hello")
  /\ Bedrock.find_text Spec.empty_text_on_top = PStr [].
Proof.
  split; [|split; [exact find_text_found_text|split; reflexivity]].
  intros raw. unfold Bedrock.extract_text, Spec.extract_text_amended.
  destruct (Json.loads raw) as [parsed|e]; [|reflexivity].
  destruct parsed as [| | | | | |d]; try reflexivity.
  assert (Htail : forall t1 : pyval,
             t1 = PNone \/ truthy t1 = true ->
             bind
               (if negb (truthy t1) then
                  bind (py_get (PDict d) (u "outputs") (PList []))
                    (fun outputs =>
                       match outputs with
                       | PList l => Bedrock.outputs_loop l
                       | _ => Ok t1
                       end)
                else Ok t1)
               (fun text_out =>
                  let text_out :=
                    if negb (truthy text_out) then Bedrock.find_text (PDict d)
                    else text_out in
                  Ok (if truthy text_out then text_out else PStr raw))
             = if truthy t1 then Ok t1
               else
                 match Spec.older_walk (PDict d) with
                 | Ok older =>
                     Ok (Spec.first_truthy
                           [older; Spec.opt_str (Spec.found_text (PDict d))]
                           (PStr raw))
                 | Raise e => Raise e
                 end).
  { intros t1 [->|T].
    - cbn [truthy negb py_get bind Spec.older_walk].
      rewrite find_text_found_text. unfold Spec.first_truthy. cbn [find].
      destruct (lookup d (u "outputs")) as [[| | | | |l|]|];
        cbn [bind truthy negb Bedrock.outputs_loop];
        try (destruct (truthy (Spec.opt_str (Spec.found_text (PDict d))));
             reflexivity).
      rewrite outputs_loop_events.
      destruct (Spec.first_event (flat_map Spec.message_events l))
        as [older|e] eqn:Ev; cbn [bind]; [|reflexivity].
      apply (first_event_cases (message_events_truthy l)) in Ev as [->|To].
      + cbn [truthy negb].
        destruct (truthy (Spec.opt_str (Spec.found_text (PDict d))));
          reflexivity.
      + rewrite To. cbn [negb]. rewrite To. reflexivity.
    - rewrite T. cbn [negb bind]. rewrite T. cbn [negb]. rewrite T.
      reflexivity. }
  cbn [py_get bind Spec.newer_text].
  destruct (lookup d (u "output")) as [[| | | | | |o]|];
    try reflexivity; cbn [py_get bind].
  - destruct (lookup o (u "content")) as [[| | | | |l|]|]; cbn [bind];
      try (apply Htail; auto).
    rewrite newer_loop_first. cbn [bind].
    apply Htail. apply first_text_cases.
  - apply Htail. auto.
Qed.

(** An answer of the Messages API is found by the third layer; a newer
    answer is returned although its [outputs] entry is ill-shaped; that
    entry alone makes the extraction fail. *)
Lemma extract_text_layers_witness :
  Bedrock.extract_text (@Json.dumps Spec.sample_runtime Spec.messages_answer)
  = Ok (PStr (u "Coffee purchase"))
  /\ Bedrock.extract_text
       (@Json.dumps Spec.sample_runtime Spec.newer_with_stray_outputs)
     = Ok (PStr (u "hi"))
  /\ Bedrock.extract_text
       (@Json.dumps Spec.sample_runtime Spec.stray_outputs)
     = Raise AttributeError
  /\ Bedrock.extract_text
       (@Json.dumps Spec.sample_runtime Spec.empty_text_on_top)
     = Ok (PStr (@Json.dumps Spec.sample_runtime Spec.empty_text_on_top)).
Proof.
  rewrite !(proj1 extract_text_layers).
  repeat split; vm_compute; reflexivity.
Defined.

(** C3 as stated fails on an answer in the older schema whose first
    message holds no text item: the stated path (b) stops at that message
    and the search (c) then finds the "text" key of its image item, while
    the code goes on to the second message and returns its text. *)
Lemma extract_text_spec_counterexample :
  Bedrock.extract_text (@Json.dumps Spec.sample_runtime Spec.two_messages)
  = Ok (PStr (u "yes"))
  /\ Spec.extract_text_spec (@Json.dumps Spec.sample_runtime Spec.two_messages)
     = PStr (u "no")
  /\ Bedrock.extract_text (@Json.dumps Spec.sample_runtime Spec.two_messages)
     <> Ok (Spec.extract_text_spec
              (@Json.dumps Spec.sample_runtime Spec.two_messages)).
Proof.
  split; [vm_compute; reflexivity|].
  split; [vm_compute; reflexivity|].
  vm_compute. discriminate.
Qed.

(* ================================================================== *)
(** * ExpenseFieldExtractor: the structured fields *)
(* ================================================================== *)

Lemma detection_text_ok (d : list (pystr * pyval)) (name : pystr) :
  Spec.detection_ok d name = true ->
  Textract.detection_text (PDict d) name = Ok (Spec.text_of (PDict d) name).
Proof.
  unfold Spec.detection_ok, Textract.detection_text, Spec.text_of.
  cbn [py_get bind].
  destruct (lookup d name) as [[| | | | | |e]|]; try discriminate;
    [|reflexivity].
  cbn [py_get bind]. destruct (lookup e (u "Text")) as [v|]; [|reflexivity].
  unfold py_or.
  destruct v as [|b|z|f|s|l|x]; cbn [is_str truthy orb negb];
    try discriminate; try reflexivity.
  - destruct b; [discriminate | reflexivity].
  - destruct (z =? 0)%Z; [reflexivity | discriminate].
  - destruct f; try discriminate; reflexivity.
  - destruct s; reflexivity.
  - destruct l; [reflexivity | discriminate].
  - destruct x; [reflexivity | discriminate].
Qed.

Lemma field_step_ok (out : Textract.summary) (field : pyval) :
  Spec.field_ok field = true ->
  Textract.field_step out field
  = Ok (match Spec.classify (Spec.type_of field) with
        | Spec.CVendor => Textract.set_vendor out (Spec.value_of field)
        | Spec.CTotal => Textract.set_total out (Spec.value_of field)
        | Spec.CDate => Textract.set_date out (Spec.value_of field)
        | Spec.COther => out
        end).
Proof.
  destruct field as [| | | | | |d]; try discriminate. cbn [Spec.field_ok].
  intros H. apply andb_true_iff in H as [H Hl].
  apply andb_true_iff in H as [Ht Hv].
  unfold Textract.field_step, Textract.field_type, Textract.field_value.
  rewrite (detection_text_ok _ _ Ht), (detection_text_ok _ _ Hv).
  cbn [bind]. fold (Spec.type_of (PDict d)).
  assert (E : match Spec.text_of (PDict d) (u "ValueDetection") with
              | [] => Textract.detection_text (PDict d) (u "LabelDetection")
              | _ :: _ => Ok (Spec.text_of (PDict d) (u "ValueDetection"))
              end = Ok (Spec.value_of (PDict d))).
  { unfold Spec.value_of.
    destruct (Spec.text_of (PDict d) (u "ValueDetection")); [|reflexivity].
    apply detection_text_ok; exact Hl. }
  rewrite E. cbn [bind]. unfold Spec.classify, Textract.is_vendor,
    Textract.is_total, Textract.is_date.
  destruct (_ || _ || _); [reflexivity|].
  destruct (_ || _); [reflexivity|].
  destruct (contains _ _); reflexivity.
Qed.

Lemma last_value_snoc (c : Spec.category) (fields : list pyval) (f : pyval) :
  Spec.last_value c (fields ++ [f])
  = if Spec.category_eqb (Spec.classify (Spec.type_of f)) c
    then PStr (Spec.value_of f)
    else Spec.last_value c fields.
Proof.
  unfold Spec.last_value. rewrite rev_app_distr. cbn [rev app find].
  destruct (Spec.category_eqb _ c); reflexivity.
Qed.

Lemma last_or_cons (c : Spec.category) (f : pyval) (fields : list pyval)
  (before : pyval) :
  Spec.last_or c (f :: fields) before
  = Spec.last_or c fields
      (if Spec.category_eqb (Spec.classify (Spec.type_of f)) c
       then PStr (Spec.value_of f) else before).
Proof.
  revert before. induction fields as [|g fields IH] using rev_ind; intros before.
  - unfold Spec.last_or, Spec.last_value. cbn [rev app find].
    destruct (Spec.category_eqb _ c); reflexivity.
  - unfold Spec.last_or in *.
    change (f :: fields ++ [g]) with ((f :: fields) ++ [g]).
    rewrite !last_value_snoc.
    destruct (Spec.category_eqb (Spec.classify (Spec.type_of g)) c);
      [reflexivity | apply IH].
Qed.

Lemma fields_loop_last (fields : list pyval) :
  forallb Spec.field_ok fields = true ->
  forall out : Textract.summary,
  exists s : Textract.summary,
    Textract.fields_loop out fields = Ok s
    /\ Textract.Vendor s = Spec.last_or Spec.CVendor fields (Textract.Vendor out)
    /\ Textract.Total s = Spec.last_or Spec.CTotal fields (Textract.Total out)
    /\ Textract.Date s = Spec.last_or Spec.CDate fields (Textract.Date out)
    /\ Textract.Items s = Textract.Items out.
Proof.
  induction fields as [|f fields IH]; intros Hok out.
  - exists out. repeat split; reflexivity.
  - cbn [forallb] in Hok. apply andb_true_iff in Hok as [Hf Hfs].
    cbn [Textract.fields_loop]. rewrite (field_step_ok _ _ Hf). cbn [bind].
    destruct (IH Hfs
                (match Spec.classify (Spec.type_of f) with
                 | Spec.CVendor => Textract.set_vendor out (Spec.value_of f)
                 | Spec.CTotal => Textract.set_total out (Spec.value_of f)
                 | Spec.CDate => Textract.set_date out (Spec.value_of f)
                 | Spec.COther => out
                 end)) as (s & Hs & Hv & Ht & Hd & Hi).
    exists s. rewrite !last_or_cons.
    split; [exact Hs|].
    destruct (Spec.classify (Spec.type_of f));
      cbn [Spec.category_eqb Textract.set_vendor Textract.set_total
           Textract.set_date Textract.Vendor Textract.Total Textract.Date
           Textract.Items] in *; auto.
Qed.

Lemma lines_loop_keeps (lines : list pyval) :
  forall out s : Textract.summary,
    Textract.lines_loop out lines = Ok s ->
    Textract.Vendor s = Textract.Vendor out
    /\ Textract.Total s = Textract.Total out
    /\ Textract.Date s = Textract.Date out.
Proof.
  induction lines as [|line lines IH]; intros out s; cbn [Textract.lines_loop].
  - intros E; inversion E; auto.
  - destruct (py_get line _ _) as [f|]; cbn [bind]; [|discriminate].
    destruct (py_iter f) as [kvs|]; cbn [bind]; [|discriminate].
    destruct (Textract.parts_loop [] kvs) as [[|p ps]|]; cbn [bind];
      [| |discriminate]; intros E; apply IH in E; exact E.
Qed.

Lemma groups_loop_keeps (groups : list pyval) :
  forall out s : Textract.summary,
    Textract.groups_loop out groups = Ok s ->
    Textract.Vendor s = Textract.Vendor out
    /\ Textract.Total s = Textract.Total out
    /\ Textract.Date s = Textract.Date out.
Proof.
  induction groups as [|g groups IH]; intros out s;
    cbn [Textract.groups_loop].
  - intros E; inversion E; auto.
  - destruct (py_get g _ _) as [l|]; cbn [bind]; [|discriminate].
    destruct (py_iter l) as [lines|]; cbn [bind]; [|discriminate].
    destruct (Textract.lines_loop out lines) as [out'|] eqn:El; cbn [bind];
      [|discriminate].
    intros E. apply IH in E as (E1 & E2 & E3).
    apply lines_loop_keeps in El as (L1 & L2 & L3).
    repeat split; congruence.
Qed.

Lemma fallback_entries (txt : pystr) (p : Textract.summary) :
  Textract.Vendor (Textract.fallback txt p) = Textract.Vendor p
  /\ Textract.Items (Textract.fallback txt p) = Textract.Items p
  /\ Textract.Total (Textract.fallback txt p)
     = (if truthy (Textract.Total p) then Textract.Total p
        else match Re.search Textract.TOTAL_RE txt with
             | Some m => PStr m
             | None => Textract.Total p
             end)
  /\ Textract.Date (Textract.fallback txt p)
     = (if truthy (Textract.Date p) then Textract.Date p
        else match Re.search Textract.DATE_RE txt with
             | Some m => PStr m
             | None => Textract.Date p
             end).
Proof.
  unfold Textract.fallback.
  destruct (truthy (Textract.Total p)); cbn [negb];
    destruct (Re.search Textract.TOTAL_RE txt);
    cbn [Textract.set_total Textract.Date];
    destruct (truthy (Textract.Date p)); cbn [negb];
    destruct (Re.search Textract.DATE_RE txt); repeat split.
Qed.

(** C7 (amended). The primary path of the extractor reads the first
    document only (the other documents do not occur in what it computes).
    Each summary field is classified by its lower-cased type text: it is a
    vendor when that contains "vendor", "merchant" or "merchant_name", else
    a total when it contains "total" or is equal to "amount", else a date
    when it contains "date".  The value of a field is its detected value
    text, its label text when the value is empty.  On the primary path each
    of vendor, total and date ends up as the value of the last field of its
    category in source order ([None] without such a field), and the line
    items do not change them.  In the result of the extractor the vendor is
    that value, and so are the total and the date when they are not empty
    (the fallback fills the others from the whole response). *)
Theorem summary_fields_classified `{Runtime}
  (d dd : list (pystr * pyval)) (rest fields : list pyval) :
  lookup d (u "ExpenseDocuments") = Some (PList (PDict dd :: rest)) ->
  lookup dd (u "SummaryFields") = Some (PList fields) ->
  forallb Spec.field_ok fields = true ->
  exists s : Textract.summary,
    Textract.fields_loop Textract.empty_summary fields = Ok s
    /\ Textract.Vendor s = Spec.last_value Spec.CVendor fields
    /\ Textract.Total s = Spec.last_value Spec.CTotal fields
    /\ Textract.Date s = Spec.last_value Spec.CDate fields
    /\ Textract.primary_path (PDict d)
       = bind (py_iter (match lookup dd (u "LineItemGroups") with
                        | Some g => g
                        | None => PList []
                        end))
           (fun groups => Textract.groups_loop s groups)
    /\ (forall out : Textract.summary,
           Textract.primary_path (PDict d) = Ok out ->
           Textract.Vendor out = Textract.Vendor s
           /\ Textract.Total out = Textract.Total s
           /\ Textract.Date out = Textract.Date s)
    /\ (forall out : Textract.summary,
           Textract.parse_textract_expense (PDict d) = Ok out ->
           Textract.Vendor out = Spec.last_value Spec.CVendor fields
           /\ (truthy (Spec.last_value Spec.CTotal fields) = true ->
               Textract.Total out = Spec.last_value Spec.CTotal fields)
           /\ (truthy (Spec.last_value Spec.CDate fields) = true ->
               Textract.Date out = Spec.last_value Spec.CDate fields)).
Proof.
  intros Hdocs Hfields Hok.
  destruct (fields_loop_last fields Hok Textract.empty_summary)
    as (s & Hs & Hv & Ht & Hd & _).
  assert (Hp : Textract.primary_path (PDict d)
               = bind (py_iter (match lookup dd (u "LineItemGroups") with
                                | Some g => g
                                | None => PList []
                                end))
                   (fun groups => Textract.groups_loop s groups)).
  { unfold Textract.primary_path, Textract.document_summary.
    cbn [py_get bind]. rewrite Hdocs. cbn [truthy py_first bind py_get].
    rewrite Hfields. cbn [py_iter bind]. rewrite Hs. reflexivity. }
  assert (Hv' : Textract.Vendor s = Spec.last_value Spec.CVendor fields)
    by (rewrite Hv; unfold Spec.last_or; cbn;
        destruct (Spec.last_value Spec.CVendor fields); reflexivity).
  assert (Ht' : Textract.Total s = Spec.last_value Spec.CTotal fields)
    by (rewrite Ht; unfold Spec.last_or; cbn;
        destruct (Spec.last_value Spec.CTotal fields); reflexivity).
  assert (Hd' : Textract.Date s = Spec.last_value Spec.CDate fields)
    by (rewrite Hd; unfold Spec.last_or; cbn;
        destruct (Spec.last_value Spec.CDate fields); reflexivity).
  assert (Hkeep : forall out : Textract.summary,
             Textract.primary_path (PDict d) = Ok out ->
             Textract.Vendor out = Textract.Vendor s
             /\ Textract.Total out = Textract.Total s
             /\ Textract.Date out = Textract.Date s).
  { intros out Hout. rewrite Hp in Hout.
    destruct (py_iter _) as [groups|]; cbn [bind] in Hout; [|discriminate].
    eapply groups_loop_keeps; eassumption. }
  exists s. repeat (split; [assumption|]).
  intros out Hout. unfold Textract.parse_textract_expense in Hout.
  destruct (Textract.primary_path (PDict d)) as [p|] eqn:Ep;
    cbn [bind] in Hout; [|discriminate].
  inversion Hout as [Hout']. clear Hout.
  destruct (Hkeep p eq_refl) as (Kv & Kt & Kd).
  destruct (fallback_entries (Json.dumps (PDict d)) p) as (Fv & _ & Ft & Fd).
  rewrite Fv, Ft, Fd, Kv, Kt, Kd, Hv', Ht', Hd'.
  split; [reflexivity|]. split; intros T; rewrite T; reflexivity.
Qed.

(** The receipt of the specification: one field of type MERCHANT_NAME
    with the value Acme gives the vendor Acme. *)
Lemma summary_fields_classified_witness :
  exists s : Textract.summary,
    Textract.fields_loop Textract.empty_summary
      [Spec.summary_field "MERCHANT_NAME" "Acme"] = Ok s
    /\ Textract.Vendor s = PStr (u "Acme")
    /\ Textract.Total s = PNone
    /\ Textract.primary_path
         (Spec.expense_response [Spec.summary_field "MERCHANT_NAME" "Acme"])
       = Ok s.
Proof.
  destruct (@summary_fields_classified Spec.sample_runtime
              [(u "ExpenseDocuments",
                PList [PDict [(u "ExpenseIndex", PInt 1);
                              (u "SummaryFields",
                               PList [Spec.summary_field "MERCHANT_NAME" "Acme"])]])]
              [(u "ExpenseIndex", PInt 1);
               (u "SummaryFields",
                PList [Spec.summary_field "MERCHANT_NAME" "Acme"])]
              [] [Spec.summary_field "MERCHANT_NAME" "Acme"]
              eq_refl eq_refl eq_refl)
    as (s & Hs & Hv & Ht & _ & Hp & _).
  exists s. repeat split; assumption.
Defined.

(** C7 as stated fails for the extractor as a whole: with a first document
    that has no total, the total of the result is read by the fallback from
    the second document, and it is absent without that document. *)
Lemma first_document_only_counterexample :
  (exists out : Textract.summary,
      @Textract.parse_textract_expense Spec.sample_runtime
        (PDict [(u "ExpenseDocuments",
                 PList [Spec.vendor_document; Spec.total_document])])
      = Ok out
      /\ Textract.Vendor out = PStr (u "Acme")
      /\ Textract.Total out = PStr (u "$5.00"))
  /\ (exists out : Textract.summary,
         @Textract.parse_textract_expense Spec.sample_runtime
           (PDict [(u "ExpenseDocuments", PList [Spec.vendor_document])])
         = Ok out
         /\ Textract.Total out = PNone)
  /\ ~ @Spec.first_document_only Spec.sample_runtime.
Proof.
  split; [eexists; split; [vm_compute; reflexivity | split; reflexivity]|].
  split; [eexists; split; [vm_compute; reflexivity | reflexivity]|].
  intros C.
  specialize (C Spec.vendor_document [Spec.total_document] []).
  vm_compute in C. discriminate.
Qed.

(* ================================================================== *)
(** * ExpenseFieldExtractor: the fallback scans *)
(* ================================================================== *)

Lemma match_here_prefix (r : Re.regex) (prev : option N) (s m : pystr) :
  Re.match_here r prev s = Some m -> exists tail : pystr, s = m ++ tail.
Proof.
  unfold Re.match_here. destruct (Re.run _ _ _ _); [|discriminate].
  intros E; inversion E. eexists. symmetry. apply firstn_skipn.
Qed.

(** [re.search] returns the match at the leftmost position that has one. *)
Lemma search_from_leftmost (r : Re.regex) (s : pystr) :
  forall (prev : option N) (m : pystr),
    Re.search_from r prev s = Some m ->
    exists pre tail : pystr,
      s = pre ++ m ++ tail
      /\ Re.match_here r (Spec.last_prev prev pre) (m ++ tail) = Some m
      /\ (forall i : nat,
             i < List.length pre ->
             Re.match_here r (Spec.last_prev prev (firstn i s)) (skipn i s)
             = None).
Proof.
  induction s as [|c s IH]; intros prev m; cbn [Re.search_from].
  - destruct (Re.match_here r prev []) as [m'|] eqn:E; [|discriminate].
    intros H; inversion H; subst m'.
    destruct (match_here_prefix _ _ _ E) as [tail Ht].
    exists [], tail. cbn [app Spec.last_prev List.length].
    rewrite <- Ht. repeat split; auto. intros i Hi; lia.
  - destruct (Re.match_here r prev (c :: s)) as [m'|] eqn:E.
    + intros H; inversion H; subst m'.
      destruct (match_here_prefix _ _ _ E) as [tail Ht].
      exists [], tail. cbn [app Spec.last_prev List.length].
      rewrite <- Ht. repeat split; auto. intros i Hi; lia.
    + intros H. apply IH in H as (pre & tail & Hs & Hm & Hearlier).
      exists (c :: pre), tail. cbn [app Spec.last_prev List.length].
      split; [rewrite Hs; reflexivity|]. split; [exact Hm|].
      intros [|i] Hi; cbn [firstn skipn Spec.last_prev]; [exact E|].
      apply Hearlier. lia.
Qed.


(** C8 (amended). The fallback serialises the whole response to one text
    and scans it only for the entries the primary path left unset or set
    to the empty string: the total becomes the first match of the
    currency-then-number pattern, the date the first match of the
    day-month-year pattern, each the match at the leftmost position of the
    text that has one, and an entry stays as it is when the text has no
    match; a non-empty entry set by the primary path is never overwritten,
    and the vendor and the items are not touched. *)
Theorem fallback_fills_empty `{Runtime} (response : pyval)
  (p : Textract.summary) :
  Textract.primary_path response = Ok p ->
  exists out : Textract.summary,
    Textract.parse_textract_expense response = Ok out
    /\ Textract.Vendor out = Textract.Vendor p
    /\ Textract.Items out = Textract.Items p
    /\ Textract.Total out
       = (if truthy (Textract.Total p) then Textract.Total p
          else match Re.search Textract.TOTAL_RE (Json.dumps response) with
               | Some m => PStr m
               | None => Textract.Total p
               end)
    /\ Textract.Date out
       = (if truthy (Textract.Date p) then Textract.Date p
          else match Re.search Textract.DATE_RE (Json.dumps response) with
               | Some m => PStr m
               | None => Textract.Date p
               end)
    /\ (forall (r : Re.regex) (m : pystr),
           Re.search r (Json.dumps response) = Some m ->
           exists pre tail : pystr,
             Json.dumps response = pre ++ m ++ tail
             /\ (forall i : nat,
                    i < List.length pre ->
                    Re.match_here r
                      (Spec.last_prev None (firstn i (Json.dumps response)))
                      (skipn i (Json.dumps response)) = None)).
Proof.
  intros Hp. exists (Textract.fallback (Json.dumps response) p).
  split; [unfold Textract.parse_textract_expense; rewrite Hp; reflexivity|].
  destruct (fallback_entries (Json.dumps response) p) as (Hv & Hi & Ht & Hd).
  repeat (split; [assumption|]).
  intros r m Hs. apply search_from_leftmost in Hs as (pre & tail & E & _ & Hl).
  exists pre, tail. split; assumption.
Qed.

(** A total that was read stays, and the date comes from the scan. *)
Lemma fallback_fills_empty_witness :
  exists p out : Textract.summary,
    Textract.primary_path Spec.read_total_response = Ok p
    /\ @Textract.parse_textract_expense Spec.sample_runtime
         Spec.read_total_response = Ok out
    /\ Textract.Total p = PStr (u "$10.00")
    /\ Textract.Total out = PStr (u "$10.00")
    /\ Textract.Date p = PNone
    /\ Textract.Date out = PStr (u "1/2/2024").
Proof.
  eexists.
  destruct (@fallback_fills_empty Spec.sample_runtime Spec.read_total_response
              _ eq_refl) as (out & Ho & _ & _ & Ht & Hd & _).
  exists out. split; [reflexivity|]. split; [exact Ho|].
  split; [reflexivity|]. split; [exact Ht|]. split; [reflexivity|]. exact Hd.
Defined.

(** C8 as stated fails on a receipt whose total field was detected with an
    empty text: the primary path sets the total (to the empty string), and
    the fallback overwrites it with an amount found elsewhere. *)
Lemma fallback_spec_counterexample :
  exists p out : Textract.summary,
    Textract.primary_path Spec.empty_total_response = Ok p
    /\ Textract.Total p = PStr []
    /\ @Textract.parse_textract_expense Spec.sample_runtime
         Spec.empty_total_response = Ok out
    /\ Textract.Total out = PStr (u "$12.50")
    /\ Textract.Total
         (Spec.fallback_spec
            (@Json.dumps Spec.sample_runtime Spec.empty_total_response) p)
       = PStr []
    /\ out <> Spec.fallback_spec
                (@Json.dumps Spec.sample_runtime Spec.empty_total_response) p.
Proof.
  eexists. eexists.
  split; [vm_compute; reflexivity|]. split; [reflexivity|].
  split; [vm_compute; reflexivity|]. split; [reflexivity|].
  split; [vm_compute; reflexivity|]. vm_compute. discriminate.
Qed.

(* ================================================================== *)
(** * The model stage: failures inside the guarded spans *)
(* ================================================================== *)

Section GuardedSpans.
Context `{Runtime}.
Variable E : Bedrock.env.
Variables (event bucket : pyval) (key : pystr).
Variables (summary_data : pyval) (prompt : pystr).

(** The run gets as far as the first span: the event names an accepted
    key, the summary loads and the prompt is built. *)
Hypothesis Hevent : Bedrock.event_target event = Ok (bucket, PStr key).
Hypothesis Hprefix : startswith Bedrock.TEXTRACT_PREFIX key = true.
Hypothesis Hsuffix : endswith Bedrock.SUMMARY_SUFFIX key = true.
Hypothesis Hload :
  bind (Bedrock.get_object E bucket key) (fun text => Json.loads text)
  = Ok summary_data.
Hypothesis Hprompt : Bedrock.make_prompt summary_data = Ok prompt.

Lemma handler_from_call (st : Bedrock.state) :
  Bedrock.lambda_handler E event st
  = Bedrock.bindM
      (Bedrock.tryM (Bedrock.model_span E prompt)
         (Bedrock.on_model_failure E bucket key))
      (fun out =>
         let '(summary_line, summary_json) := out in
         Bedrock.bindM
           (Bedrock.lift (Bedrock.normalize summary_json summary_data))
           (fun summary_json =>
              Bedrock.bindM
                (Bedrock.tryM
                   (Bedrock.save_span E bucket key summary_line summary_json)
                   (Bedrock.on_save_failure E bucket key))
                (fun _ => Bedrock.ret (Bedrock.response 200 "Success"))))
      (Spec.at_call st).
Proof.
  unfold Bedrock.lambda_handler, Bedrock.process.
  unfold Bedrock.bindM at 1 2 3 4 5. unfold Bedrock.logger at 1 2.
  unfold Bedrock.tryM at 1, Bedrock.lift at 1. rewrite Hevent.
  cbn [Bedrock.py_startswith Bedrock.py_endswith Bedrock.lift Bedrock.ret].
  rewrite Hprefix, Hsuffix. cbn [andb negb].
  unfold Bedrock.bindM at 1 2 3. unfold Bedrock.tryM at 1, Bedrock.lift at 1 2.
  rewrite Hload, Hprompt. unfold Bedrock.logger at 1. reflexivity.
Qed.

(** The first span writes nothing. *)
Lemma model_span_writes_nothing (st st1 : Bedrock.state)
  (r : result (pystr * pyval)) :
  Bedrock.model_span E prompt st = (r, st1) ->
  Bedrock.written st1 = Bedrock.written st
  /\ Bedrock.put_calls st1 = Bedrock.put_calls st.
Proof.
  unfold Bedrock.model_span, Bedrock.bindM, Bedrock.lift, Bedrock.logger.
  destruct (Bedrock.call_bedrock_messages E prompt);
    intros Eq; inversion Eq; subst; auto.
Qed.

(** What the [except] clause of a span does with the marker. *)
Lemma marker_then_reraise (A : Type) (msg1 msg2 : pystr) (body : Bedrock.bytes)
  (e : exn) (st : Bedrock.state) :
  Bedrock.bindM (Bedrock.logger msg1)
    (fun _ =>
       Bedrock.bindM
         (Bedrock.tryM
            (Bedrock.put_object E bucket (Bedrock.error_key key) body)
            (fun _ => Bedrock.logger msg2))
         (fun _ => @Bedrock.raise A e)) st
  = (Raise e,
     match Bedrock.put_fault E (Bedrock.put_calls st) with
     | None =>
         Bedrock.add_object bucket (Bedrock.error_key key) body
           (Bedrock.add_log msg1 st)
     | Some _ =>
         Bedrock.add_log msg2 (Bedrock.add_call (Bedrock.add_log msg1 st))
     end).
Proof.
  unfold Bedrock.bindM, Bedrock.tryM, Bedrock.logger, Bedrock.put_object,
    Bedrock.raise. cbn [Bedrock.add_log Bedrock.put_calls].
  destruct (Bedrock.put_fault E (Bedrock.put_calls st)); reflexivity.
Qed.

(** Where a failing second span stops: before anything was written, or
    after the summary text was. *)
Lemma save_span_failure (line : pystr) (norm : pyval) (e : exn)
  (st st1 : Bedrock.state) :
  Bedrock.save_span E bucket key line norm st = (Raise e, st1) ->
  Bedrock.log st1 = Bedrock.log st
  /\ (Bedrock.written st1 = Bedrock.written st
      \/ exists body : Bedrock.bytes,
           Bedrock.encode_utf8 line = Ok body
           /\ Bedrock.written st1
              = {| Bedrock.obj_bucket := bucket;
                   Bedrock.obj_key := Bedrock.summary_txt_key key;
                   Bedrock.obj_body := body |} :: Bedrock.written st).
Proof.
  unfold Bedrock.save_span, Bedrock.bindM, Bedrock.lift, Bedrock.put_object,
    Bedrock.logger.
  destruct (Bedrock.encode_utf8 line) as [body1|e1];
    [|intros Eq; inversion Eq; auto].
  destruct (Bedrock.put_fault E (Bedrock.put_calls st));
    [intros Eq; inversion Eq; auto|].
  destruct (Bedrock.encode_utf8 (Json.dumps_indent 2 norm)) as [body2|e2];
    [|intros Eq; inversion Eq; split; [reflexivity|];
      right; exists body1; auto].
  cbn [Bedrock.add_object Bedrock.put_calls].
  destruct (Bedrock.put_fault E (S (Bedrock.put_calls st)));
    intros Eq; inversion Eq. split; [reflexivity|].
  right; exists body1; auto.
Qed.

(** C9 (amended). When the call/parse span fails, nothing has been
    written; when the artifact-write span fails, the record artifact
    [<base>.bedrock.json] has not been written, and [<base>.summary.txt]
    either has not been written or stays in the store (the failure came
    after its write).  In both cases the handler logs, tries to write the
    marker [<base>.error.txt] with the payload of the span, and raises the
    original failure again; when the marker write fails too, that failure
    is logged and dropped, and the original failure is still the one
    raised. *)
Theorem guarded_spans_mark_and_reraise (st : Bedrock.state) :
  (forall (e : exn) (st1 : Bedrock.state),
      Bedrock.model_span E prompt (Spec.at_call st) = (Raise e, st1) ->
      Bedrock.written st1 = Bedrock.written st
      /\ Bedrock.lambda_handler E event st
         = (Raise e,
            match Bedrock.put_fault E (Bedrock.put_calls st1) with
            | None =>
                Bedrock.add_object bucket (Bedrock.error_key key)
                  Bedrock.CALL_FAILED
                  (Bedrock.add_log (u "Bedrock call or parse failed") st1)
            | Some _ =>
                Bedrock.add_log (u "failed to write error marker")
                  (Bedrock.add_call
                     (Bedrock.add_log (u "Bedrock call or parse failed") st1))
            end))
  /\ (forall (line : pystr) (json norm : pyval) (e : exn)
        (st1 st2 : Bedrock.state),
         Bedrock.model_span E prompt (Spec.at_call st) = (Ok (line, json), st1) ->
         Bedrock.normalize json summary_data = Ok norm ->
         Bedrock.save_span E bucket key line norm st1 = (Raise e, st2) ->
         (Bedrock.written st2 = Bedrock.written st
          \/ exists body : Bedrock.bytes,
               Bedrock.written st2
               = {| Bedrock.obj_bucket := bucket;
                    Bedrock.obj_key := Bedrock.summary_txt_key key;
                    Bedrock.obj_body := body |} :: Bedrock.written st)
         /\ Bedrock.lambda_handler E event st
            = (Raise e,
               match Bedrock.put_fault E (Bedrock.put_calls st2) with
               | None =>
                   Bedrock.add_object bucket (Bedrock.error_key key)
                     Bedrock.SAVE_FAILED
                     (Bedrock.add_log
                        (u "Failed to save Bedrock outputs to S3") st2)
               | Some _ =>
                   Bedrock.add_log (u "Also failed to write error marker")
                     (Bedrock.add_call
                        (Bedrock.add_log
                           (u "Failed to save Bedrock outputs to S3") st2))
               end)).
Proof.
  split.
  - intros e st1 Hspan. split.
    + apply model_span_writes_nothing in Hspan as [Hw _]. exact Hw.
    + rewrite handler_from_call. unfold Bedrock.bindM at 1.
      unfold Bedrock.tryM at 1. rewrite Hspan.
      unfold Bedrock.on_model_failure.
      rewrite marker_then_reraise. cbn [Bedrock.add_log Bedrock.put_calls].
      reflexivity.
  - intros line json norm e st1 st2 Hspan Hnorm Hsave. split.
    + apply model_span_writes_nothing in Hspan as [Hw _].
      apply save_span_failure in Hsave as [_ [Hs|(body & _ & Hs)]].
      * left. rewrite Hs, Hw. reflexivity.
      * right. exists body. rewrite Hs, Hw. reflexivity.
    + rewrite handler_from_call. unfold Bedrock.bindM at 1.
      unfold Bedrock.tryM at 1. rewrite Hspan.
      unfold Bedrock.bindM at 1, Bedrock.lift at 1. rewrite Hnorm.
      unfold Bedrock.bindM at 1. unfold Bedrock.tryM at 1. rewrite Hsave.
      unfold Bedrock.on_save_failure.
      rewrite marker_then_reraise. cbn [Bedrock.add_log Bedrock.put_calls].
      reflexivity.
Qed.

End GuardedSpans.


(** Two failing runs of the end-to-end scenario.  With a throttled model
    endpoint the marker is the only object written and the throttling error
    is raised; when the second write fails, the error of that write is
    raised, and the store holds the marker next to the summary text. *)
Lemma guarded_spans_mark_and_reraise_witness :
  (exists st2 : Bedrock.state,
      @Bedrock.lambda_handler Spec.sample_runtime Spec.throttled_world
        Spec.sample_event Spec.initial_state
      = (Raise (ServiceError (u "ThrottlingException")), st2)
      /\ Spec.wrote (Bedrock.error_key Spec.sample_key) st2 = true
      /\ Spec.wrote (Bedrock.summary_txt_key Spec.sample_key) st2 = false
      /\ Spec.wrote (Bedrock.bedrock_json_key Spec.sample_key) st2 = false)
  /\ (exists st2 : Bedrock.state,
         @Bedrock.lambda_handler Spec.sample_runtime Spec.second_put_fails
           Spec.sample_event Spec.initial_state
         = (Raise (ServiceError (u "SlowDown")), st2)
         /\ Spec.wrote (Bedrock.error_key Spec.sample_key) st2 = true
         /\ Spec.wrote (Bedrock.bedrock_json_key Spec.sample_key) st2 = false).
Proof.
  split.
  - destruct (proj1 (@guarded_spans_mark_and_reraise Spec.sample_runtime
                       Spec.throttled_world Spec.sample_event
                       (PStr (u "receipts")) Spec.sample_key
                       Spec.sample_summary _
                       eq_refl eq_refl eq_refl eq_refl eq_refl
                       Spec.initial_state) _ _ eq_refl) as [_ Hh].
    eexists. split; [exact Hh|]. repeat split; vm_compute; reflexivity.
  - destruct (proj2 (@guarded_spans_mark_and_reraise Spec.sample_runtime
                       Spec.second_put_fails Spec.sample_event
                       (PStr (u "receipts")) Spec.sample_key
                       Spec.sample_summary _
                       eq_refl eq_refl eq_refl eq_refl eq_refl
                       Spec.initial_state) _ _ _ _ _ _ eq_refl eq_refl eq_refl)
      as [_ Hh].
    eexists. split; [exact Hh|]. repeat split; vm_compute; reflexivity.
Defined.

(** C9 as stated fails when the second write fails: the handler raises,
    the marker is written, and the summary text written just before is in
    the store next to it. *)
Lemma marker_instead_of_outputs_counterexample :
  Spec.wrote (Bedrock.error_key Spec.sample_key)
    (snd (@Bedrock.lambda_handler Spec.sample_runtime Spec.second_put_fails
            Spec.sample_event Spec.initial_state)) = true
  /\ Spec.wrote (Bedrock.summary_txt_key Spec.sample_key)
       (snd (@Bedrock.lambda_handler Spec.sample_runtime Spec.second_put_fails
               Spec.sample_event Spec.initial_state)) = true
  /\ ~ @Spec.marker_instead_of_outputs Spec.sample_runtime
         Spec.second_put_fails Spec.sample_event Spec.sample_key
         Spec.initial_state.
Proof.
  split; [vm_compute; reflexivity|]. split; [vm_compute; reflexivity|].
  intros C.
  assert (Hr : @Bedrock.lambda_handler Spec.sample_runtime
                 Spec.second_put_fails Spec.sample_event Spec.initial_state
               = (Raise (ServiceError (u "SlowDown")),
                  snd (@Bedrock.lambda_handler Spec.sample_runtime
                         Spec.second_put_fails Spec.sample_event
                         Spec.initial_state)))
    by (vm_compute; reflexivity).
  destruct (C _ _ Hr) as [C1 _]; [vm_compute; reflexivity|].
  vm_compute in C1. discriminate.
Qed.

(* ================================================================== *)
(** * Keys, guards and the way the two stages feed each other *)
(* ================================================================== *)

Lemma startswith_app (p s : pystr) : startswith p (p ++ s) = true.
Proof.
  induction p as [|x p IH]; simpl; auto. rewrite N.eqb_refl. exact IH.
Qed.

Lemma endswith_app (p s : pystr) : endswith p (s ++ p) = true.
Proof. unfold endswith. rewrite rev_app_distr. apply startswith_app. Qed.

Lemma startswith_prefix_app (p a b : pystr) :
  startswith p a = true -> startswith p (a ++ b) = true.
Proof.
  revert a; induction p as [|x p IH]; intros [|y a]; simpl; auto;
    try discriminate.
  intros E. apply andb_true_iff in E as [E1 E2]. rewrite E1. simpl. auto.
Qed.

Lemma startswith_first (p a b : pystr) :
  List.length p <= List.length a ->
  startswith p (a ++ b) = startswith p a.
Proof.
  revert a; induction p as [|x p IH]; intros [|y a]; simpl; auto; try lia.
  intros L. rewrite IH by lia. reflexivity.
Qed.

(** A suffix test only looks at the end of the text. *)
Lemma endswith_last (p a b : pystr) :
  List.length p <= List.length b ->
  endswith p (a ++ b) = endswith p b.
Proof.
  intros L. unfold endswith. rewrite rev_app_distr.
  apply startswith_first. rewrite !length_rev. exact L.
Qed.

Lemma lower_app (a b : pystr) : lower (a ++ b) = lower a ++ lower b.
Proof. apply map_app. Qed.

(** The pieces of a split at a one-point separator do not hold it. *)
Lemma split_aux_single_free (c : N) (s : pystr) :
  forall cur : pystr,
    ~ In c cur ->
    Forall (fun piece => ~ In c piece) (split_aux [c] 0 cur s).
Proof.
  induction s as [|x s IH]; intros cur Hc.
  - constructor; [|constructor]. rewrite <- in_rev. exact Hc.
  - cbn [split_aux startswith List.length Nat.sub].
    destruct (c =? x)%N eqn:E; cbn [andb].
    + constructor; [rewrite <- in_rev; exact Hc|]. apply IH. intros [].
    + apply IH. intros [H|H]; [|exact (Hc H)].
      apply N.eqb_neq in E. congruence.
Qed.

Lemma Forall_last {A : Type} (P : A -> Prop) (l : list A) (d : A) :
  Forall P l -> P d -> P (last l d).
Proof.
  induction 1 as [|x l Hx Hl IH]; intros Hd; simpl; auto.
  destruct l; auto.
Qed.

(** [os.path.basename] never returns a text with a slash. *)
Lemma basename_no_slash (p : pystr) : ~ In 47%N (basename p).
Proof.
  unfold basename, split. apply Forall_last; [|intros []].
  apply split_aux_single_free. intros [].
Qed.

(** Removing every occurrence of a text brings in no new code point. *)
Lemma split_aux_pieces (sep : pystr) (s : pystr) :
  forall (k : nat) (cur : pystr) (c : N),
    In c (List.concat (split_aux sep k cur s)) -> In c cur \/ In c s.
Proof.
  induction s as [|x s IH]; intros k cur c; cbn [split_aux].
  - cbn [List.concat]. rewrite app_nil_r, <- in_rev. auto.
  - destruct k as [|k].
    + destruct (startswith sep (x :: s)).
      * cbn [List.concat]. rewrite in_app_iff, <- in_rev.
        intros [H|H]; [auto|]. apply IH in H as [[]|H]. right; right; exact H.
      * intros H. apply IH in H as [[H|H]|H]; subst; simpl; auto.
    + intros H. apply IH in H as [H|H]; simpl; auto.
Qed.

Lemma join_nil_concat (l : list pystr) : join [] l = List.concat l.
Proof.
  induction l as [|p l IH]; [reflexivity|].
  rewrite join_nil_cons, IH. reflexivity.
Qed.

Lemma replace_nil_subset (old s : pystr) (c : N) :
  In c (replace old [] s) -> In c s.
Proof.
  unfold replace, split. rewrite join_nil_concat. intros H.
  apply split_aux_pieces in H as [[]|H]. exact H.
Qed.

Lemma base_name_no_slash (key : pystr) : ~ In 47%N (Bedrock.base_name key).
Proof.
  unfold Bedrock.base_name. intros H. apply replace_nil_subset in H.
  exact (basename_no_slash key H).
Qed.

Lemma path_join_prefix (name ext : pystr) :
  ~ In 47%N name -> startswith [47%N] ext = false ->
  Textract.path_join Textract.OUTPUT_PREFIX (name ++ ext)
  = Textract.OUTPUT_PREFIX ++ name ++ ext.
Proof.
  intros Hn He. unfold Textract.path_join.
  assert (Hs : startswith [47%N] (name ++ ext) = false).
  { destruct name as [|c name]; [exact He|].
    cbn [app startswith]. destruct (47 =? c)%N eqn:E; [|reflexivity].
    apply N.eqb_eq in E. subst c. exfalso. apply Hn. left; reflexivity. }
  rewrite Hs. reflexivity.
Qed.

Section Guards.
Context `{Runtime}.

(** The guard of the model stage: a key it does not accept is skipped. *)
Lemma model_stage_skips (E : Bedrock.env) (event bucket : pyval)
  (key : pystr) (st : Bedrock.state) :
  Bedrock.event_target event = Ok (bucket, PStr key) ->
  startswith Bedrock.TEXTRACT_PREFIX key
  && endswith Bedrock.SUMMARY_SUFFIX key = false ->
  Bedrock.lambda_handler E event st
  = (Ok (Bedrock.response 200 "skipped"),
     Bedrock.add_log (u "Skipping non-summary or wrong prefix: %s")
       (Bedrock.add_log (u "Triggered for S3 object: %s/%s")
          (Bedrock.add_log (u "Received event: %s") st))).
Proof.
  intros He Hg. unfold Bedrock.lambda_handler.
  unfold Bedrock.bindM at 1 2 3 4 5. unfold Bedrock.logger at 1 2.
  unfold Bedrock.tryM at 1, Bedrock.lift at 1. rewrite He.
  cbn [Bedrock.py_startswith Bedrock.py_endswith Bedrock.lift Bedrock.ret].
  destruct (startswith Bedrock.TEXTRACT_PREFIX key); cbn [andb] in Hg.
  - rewrite Hg. reflexivity.
  - reflexivity.
Qed.

(** The two guards of the OCR stage. *)
Lemma ocr_stage_skips (E : Textract.env) (event bucket : pyval)
  (key : pystr) (st : Bedrock.state) :
  Bedrock.event_target event = Ok (bucket, PStr key) ->
  startswith Textract.OUTPUT_PREFIX key
  || negb (Textract.is_receipt_file (lower key)) = true ->
  exists (body : string) (msg : pystr),
    Textract.lambda_handler E event st
    = (Ok (Textract.skipped body),
       Bedrock.add_log msg
         (Bedrock.add_log (u "Processing S3 object: %s/%s")
            (Bedrock.add_log (u "Received event: %s") st))).
Proof.
  intros He Hg. unfold Textract.lambda_handler.
  unfold Bedrock.bindM at 1 2 3 4. unfold Bedrock.logger at 1 2.
  unfold Bedrock.tryM at 1, Bedrock.lift at 1. rewrite He.
  cbn [Bedrock.py_startswith Bedrock.lift].
  destruct (startswith Textract.OUTPUT_PREFIX key); cbn [orb] in Hg.
  - do 2 eexists. reflexivity.
  - rewrite Hg. do 2 eexists. reflexivity.
Qed.

End Guards.


Lemma path_join_suffix (b : pystr) :
  exists pre : pystr, Textract.path_join Textract.OUTPUT_PREFIX b = pre ++ b.
Proof.
  unfold Textract.path_join. destruct (startswith [47%N] b).
  - exists []. reflexivity.
  - exists Textract.OUTPUT_PREFIX. reflexivity.
Qed.

Lemma not_receipt_suffix (pre ext : pystr) :
  5 <= List.length ext ->
  Textract.is_receipt_file (lower ext) = false ->
  Textract.is_receipt_file (lower (pre ++ ext)) = false.
Proof.
  intros L Hx. rewrite lower_app. unfold Textract.is_receipt_file in *.
  assert (L' : 5 <= List.length (lower ext))
    by (unfold lower; rewrite length_map; exact L).
  rewrite !endswith_last by (cbn [List.length u]; simpl; lia).
  exact Hx.
Qed.

Lemma model_stage_key_shape (src key : pystr) :
  In key (Spec.model_stage_keys src) ->
  exists base ext : pystr,
    key = Bedrock.BEDROCK_PREFIX ++ base ++ ext
    /\ In ext [u ".error.txt"; u ".summary.txt"; u ".bedrock.json"].
Proof.
  intros [K|[K|[K|[]]]]; subst key; exists (Bedrock.base_name src);
    eexists; (split; [reflexivity|]); simpl; auto.
Qed.

Lemma ocr_stage_key_shape (name key : pystr) :
  In key (Spec.ocr_stage_keys name) ->
  exists pre ext : pystr,
    key = pre ++ ext /\ In ext [u ".textract.json"; u ".summary.json"].
Proof.
  intros [K|[K|[]]]; subst key;
    [destruct (path_join_suffix (name ++ u ".textract.json")) as [pre P]
    |destruct (path_join_suffix (name ++ u ".summary.json")) as [pre P]];
    exists (pre ++ name); eexists;
    (split; [unfold Textract.textract_key, Textract.summary_key;
             rewrite P, app_assoc; reflexivity|]); simpl; auto.
Qed.

(** X1. Nothing the pipeline writes next to the summaries starts the model
    stage again: on an event for one of its own three artifacts, or for the
    raw OCR answer saved by the first stage, the handler of the model stage
    answers "skipped" and leaves the store as it was. *)
Theorem model_stage_ignores_other_artifacts `{Runtime} (E : Bedrock.env)
  (event bucket : pyval) (src key : pystr) (st : Bedrock.state) :
  Bedrock.event_target event = Ok (bucket, PStr key) ->
  In key (Textract.textract_key src :: Spec.model_stage_keys src) ->
  exists st' : Bedrock.state,
    Bedrock.lambda_handler E event st
    = (Ok (Bedrock.response 200 "skipped"), st')
    /\ Spec.same_store st st'.
Proof.
  intros He Hk. eexists. split.
  - apply (model_stage_skips E event st He).
    destruct Hk as [K|K].
    + subst key. unfold Textract.textract_key.
      destruct (path_join_suffix (src ++ u ".textract.json")) as [pre P].
      rewrite P, app_assoc, endswith_last by (simpl; lia).
      apply andb_false_r.
    + apply model_stage_key_shape in K as (base & ext & K & _). subst key.
      reflexivity.
  - split; reflexivity.
Qed.

Lemma model_stage_ignores_other_artifacts_witness :
  exists st' : Bedrock.state,
    @Bedrock.lambda_handler Spec.sample_runtime Spec.throttled_world
      (Spec.s3_event (PStr (u "receipts"))
         (PStr (Bedrock.summary_txt_key Spec.sample_key)))
      Spec.initial_state
    = (Ok (Bedrock.response 200 "skipped"), st')
    /\ Spec.same_store Spec.initial_state st'.
Proof.
  apply (@model_stage_ignores_other_artifacts Spec.sample_runtime
           Spec.throttled_world
           (Spec.s3_event (PStr (u "receipts"))
              (PStr (Bedrock.summary_txt_key Spec.sample_key)))
           (PStr (u "receipts")) Spec.sample_key
           (Bedrock.summary_txt_key Spec.sample_key) Spec.initial_state
           eq_refl).
  right; right; left; reflexivity.
Defined.

(** X2. The OCR stage never runs on an output of the pipeline: on an event
    for one of the two objects it writes itself, or for one of the three
    artifacts of the model stage, its handler answers with a "skipped"
    message and leaves the store as it was. *)
Theorem ocr_stage_ignores_pipeline_outputs `{Runtime} (E : Textract.env)
  (event bucket : pyval) (src key : pystr) (st : Bedrock.state) :
  Bedrock.event_target event = Ok (bucket, PStr key) ->
  In key (Spec.ocr_stage_keys src ++ Spec.model_stage_keys src) ->
  exists (message : string) (st' : Bedrock.state),
    Textract.lambda_handler E event st = (Ok (Textract.skipped message), st')
    /\ Spec.same_store st st'.
Proof.
  intros He Hk.
  assert (Hg : negb (Textract.is_receipt_file (lower key)) = true).
  { apply negb_true_iff. apply in_app_or in Hk as [K|K].
    - apply ocr_stage_key_shape in K as (pre & ext & K & Hx). subst key.
      destruct Hx as [X|[X|[]]]; subst ext;
        (apply not_receipt_suffix; [simpl; lia|reflexivity]).
    - apply model_stage_key_shape in K as (base & ext & K & Hx). subst key.
      rewrite app_assoc.
      destruct Hx as [X|[X|[X|[]]]]; subst ext;
        (apply not_receipt_suffix; [simpl; lia|reflexivity]). }
  destruct (@ocr_stage_skips _ E event bucket key st He) as (body & msg & Hh).
  - rewrite Hg. apply orb_true_r.
  - exists body. eexists. split; [exact Hh|]. split; reflexivity.
Qed.

Lemma ocr_stage_ignores_pipeline_outputs_witness :
  exists (message : string) (st' : Bedrock.state),
    @Textract.lambda_handler Spec.sample_runtime
      (Spec.ocr_world Spec.sample_receipt)
      (Spec.s3_event (PStr (u "receipts"))
         (PStr (Textract.summary_key (u "foo.jpg"))))
      Spec.initial_state
    = (Ok (@Textract.skipped Spec.sample_runtime message), st')
    /\ Spec.same_store Spec.initial_state st'.
Proof.
  apply (@ocr_stage_ignores_pipeline_outputs Spec.sample_runtime
           (Spec.ocr_world Spec.sample_receipt)
           (Spec.s3_event (PStr (u "receipts"))
              (PStr (Textract.summary_key (u "foo.jpg"))))
           (PStr (u "receipts")) (u "foo.jpg") (Textract.summary_key (u "foo.jpg"))
           Spec.initial_state eq_refl).
  right; left; reflexivity.
Defined.


Lemma summary_key_shape (file : pystr) :
  Textract.summary_key (basename file)
  = Textract.OUTPUT_PREFIX ++ basename file ++ u ".summary.json".
Proof.
  apply path_join_prefix; [apply basename_no_slash|reflexivity].
Qed.

Lemma textract_key_shape (file : pystr) :
  Textract.textract_key (basename file)
  = Textract.OUTPUT_PREFIX ++ basename file ++ u ".textract.json".
Proof.
  apply path_join_prefix; [apply basename_no_slash|reflexivity].
Qed.

(** X3. The hand-over between the stages: for every file name, the key
    under which the OCR stage saves its summary passes the guard of the
    model stage, whose handler goes on to load and process that object
    (after its two log lines). *)
Theorem ocr_summary_starts_model_stage `{Runtime} (E : Bedrock.env)
  (event bucket : pyval) (file : pystr) (st : Bedrock.state) :
  Bedrock.event_target event
  = Ok (bucket, PStr (Textract.summary_key (basename file))) ->
  Bedrock.lambda_handler E event st
  = Bedrock.process E bucket (Textract.summary_key (basename file))
      (Bedrock.add_log (u "Triggered for S3 object: %s/%s")
         (Bedrock.add_log (u "Received event: %s") st)).
Proof.
  intros He. unfold Bedrock.lambda_handler.
  unfold Bedrock.bindM at 1 2 3 4 5. unfold Bedrock.logger at 1 2.
  unfold Bedrock.tryM at 1, Bedrock.lift at 1. rewrite He.
  cbn [Bedrock.py_startswith Bedrock.py_endswith Bedrock.lift Bedrock.ret].
  rewrite summary_key_shape.
  assert (A : startswith Bedrock.TEXTRACT_PREFIX
                (Textract.OUTPUT_PREFIX ++ basename file ++ u ".summary.json")
              = true) by apply startswith_app.
  assert (B : endswith Bedrock.SUMMARY_SUFFIX
                (Textract.OUTPUT_PREFIX ++ basename file ++ u ".summary.json")
              = true) by (rewrite app_assoc; apply endswith_app).
  rewrite A. cbn [Bedrock.lift]. rewrite B. reflexivity.
Qed.

Lemma ocr_summary_starts_model_stage_witness :
  @Bedrock.lambda_handler Spec.sample_runtime Spec.throttled_world
    (Spec.s3_event (PStr (u "receipts"))
       (PStr (Textract.summary_key (basename (u "inbox/foo.jpg")))))
    Spec.initial_state
  = @Bedrock.process Spec.sample_runtime Spec.throttled_world
      (PStr (u "receipts"))
      (Textract.summary_key (basename (u "inbox/foo.jpg")))
      (Bedrock.add_log (u "Triggered for S3 object: %s/%s")
         (Bedrock.add_log (u "Received event: %s") Spec.initial_state)).
Proof.
  apply (@ocr_summary_starts_model_stage Spec.sample_runtime
           Spec.throttled_world
           (Spec.s3_event (PStr (u "receipts"))
              (PStr (Textract.summary_key (basename (u "inbox/foo.jpg")))))
           (PStr (u "receipts")) (u "inbox/foo.jpg") Spec.initial_state
           eq_refl).
Defined.


(* ================================================================== *)
(** * The handler of the OCR stage *)
(* ================================================================== *)

Section OcrHandler.
Context `{Runtime}.
Variable E : Textract.env.

Lemma ocr_handler_accepts (event bucket : pyval) (key : pystr)
  (st : Bedrock.state) :
  Bedrock.event_target event = Ok (bucket, PStr key) ->
  startswith Textract.OUTPUT_PREFIX key = false ->
  Textract.is_receipt_file (lower key) = true ->
  Textract.lambda_handler E event st
  = Textract.process E bucket key
      (Bedrock.add_log (u "Processing S3 object: %s/%s")
         (Bedrock.add_log (u "Received event: %s") st)).
Proof.
  intros He Hp Hr. unfold Textract.lambda_handler.
  unfold Bedrock.bindM at 1 2 3 4. unfold Bedrock.logger at 1 2.
  unfold Bedrock.tryM at 1, Bedrock.lift at 1. rewrite He.
  cbn [Bedrock.py_startswith Bedrock.lift]. rewrite Hp, Hr. reflexivity.
Qed.

Lemma summarise_total (answer : pyval) (name : pystr) (st : Bedrock.state) :
  exists st' : Bedrock.state,
    Textract.summarise answer name st = (Ok (Spec.summary_of answer name), st')
    /\ Spec.same_store st st'.
Proof.
  unfold Textract.summarise, Spec.summary_of, Bedrock.tryM, Bedrock.lift.
  destruct (Textract.parse_textract_expense answer) as [out|e]; cbn [bind].
  - exists st. split; [reflexivity|split; reflexivity].
  - eexists. split; [reflexivity|split; reflexivity].
Qed.

(** X4. A run of the OCR stage on a receipt file: when the download, the
    expense analysis and the two writes go through, the handler answers 200
    with the serialised summary and has added exactly two objects to the
    store, the raw answer under textract-output/<file name>.textract.json
    and then the summary under textract-output/<file name>.summary.json,
    the file name being the key without its directories.  The summary is
    the parsed one or, when the parse raises, the all-empty one: a failure
    of the parse never fails the run. *)
Theorem ocr_stage_saves_answer_and_summary (event bucket : pyval)
  (key : pystr) (data body1 body2 : Bedrock.bytes) (answer : pyval)
  (st : Bedrock.state) :
  Bedrock.event_target event = Ok (bucket, PStr key) ->
  startswith Textract.OUTPUT_PREFIX key = false ->
  Textract.is_receipt_file (lower key) = true ->
  Textract.download_file E bucket key = Ok data ->
  Textract.analyze_expense E data = Ok answer ->
  Textract.put_fault E (Bedrock.put_calls st) = None ->
  Textract.put_fault E (S (Bedrock.put_calls st)) = None ->
  Bedrock.encode_utf8 (Json.dumps answer) = Ok body1 ->
  Bedrock.encode_utf8
    (Json.dumps_indent 2 (Spec.summary_of answer (basename key))) = Ok body2 ->
  exists st' : Bedrock.state,
    Textract.lambda_handler E event st
    = (Ok (PDict [(u "statusCode", PInt 200);
                  (u "body",
                   PStr (Json.dumps (Spec.summary_of answer (basename key))))]),
       st')
    /\ Bedrock.written st'
       = Spec.stored bucket
           (Textract.OUTPUT_PREFIX ++ basename key ++ u ".summary.json") body2
         :: Spec.stored bucket
              (Textract.OUTPUT_PREFIX ++ basename key ++ u ".textract.json")
              body1
         :: Bedrock.written st.
Proof.
  intros He Hp Hr Hd Ha Hf1 Hf2 Hb1 Hb2.
  rewrite (ocr_handler_accepts event st He Hp Hr).
  unfold Textract.process.
  unfold Bedrock.bindM at 1. unfold Bedrock.tryM at 1, Bedrock.lift at 1.
  rewrite Hd.
  unfold Bedrock.bindM at 1. unfold Bedrock.tryM at 1, Bedrock.lift at 1.
  rewrite Ha.
  unfold Bedrock.bindM at 1. unfold Bedrock.lift at 1. rewrite Hb1.
  unfold Bedrock.bindM at 1. unfold Textract.put_object at 1.
  cbn [Bedrock.add_log Bedrock.put_calls]. rewrite Hf1.
  unfold Bedrock.bindM at 1.
  match goal with
  | |- context [Textract.summarise answer (basename key) ?s] =>
      destruct (summarise_total answer (basename key) s) as (s1 & Hs & Hw & Hc);
      rewrite Hs
  end.
  unfold Bedrock.bindM at 1. unfold Bedrock.lift at 1. rewrite Hb2.
  unfold Bedrock.bindM at 1. unfold Textract.put_object at 1.
  rewrite Hc. cbn [Bedrock.add_object Bedrock.add_log Bedrock.put_calls].
  rewrite Hf2.
  eexists. split; [reflexivity|].
  cbn. rewrite Hw. cbn.
  rewrite summary_key_shape, textract_key_shape. reflexivity.
Qed.

(** X5. Failures of the OCR stage before its first write: a malformed
    event, a failed download and a failed expense analysis each end the
    run with the very exception that was raised, and the store is left as
    it was. *)
Theorem ocr_stage_early_failure (event : pyval) (e : exn)
  (st : Bedrock.state) :
  (Bedrock.event_target event = Raise e
   \/ exists (bucket : pyval) (key : pystr),
        Bedrock.event_target event = Ok (bucket, PStr key)
        /\ startswith Textract.OUTPUT_PREFIX key = false
        /\ Textract.is_receipt_file (lower key) = true
        /\ (Textract.download_file E bucket key = Raise e
            \/ exists data : Bedrock.bytes,
                 Textract.download_file E bucket key = Ok data
                 /\ Textract.analyze_expense E data = Raise e)) ->
  exists st' : Bedrock.state,
    Textract.lambda_handler E event st = (Raise e, st')
    /\ Spec.same_store st st'.
Proof.
  intros [He|(bucket & key & He & Hp & Hr & Hx)].
  - unfold Textract.lambda_handler.
    unfold Bedrock.bindM at 1 2. unfold Bedrock.logger at 1.
    unfold Bedrock.tryM at 1, Bedrock.lift at 1. rewrite He.
    eexists. split; [reflexivity|split; reflexivity].
  - rewrite (ocr_handler_accepts event st He Hp Hr).
    unfold Textract.process.
    unfold Bedrock.bindM at 1. unfold Bedrock.tryM at 1, Bedrock.lift at 1.
    destruct Hx as [Hd|(data & Hd & Ha)]; rewrite Hd.
    + eexists. split; [reflexivity|split; reflexivity].
    + unfold Bedrock.bindM at 1. unfold Bedrock.tryM at 1, Bedrock.lift at 1.
      rewrite Ha. eexists. split; [reflexivity|split; reflexivity].
Qed.

End OcrHandler.


Lemma ocr_stage_saves_answer_and_summary_witness :
  exists st' : Bedrock.state,
    @Textract.lambda_handler Spec.sample_runtime
      (Spec.ocr_world Spec.sample_receipt) Spec.receipt_event
      Spec.initial_state
    = (Ok (PDict
             [(u "statusCode", PInt 200);
              (u "body",
               PStr (@Json.dumps Spec.sample_runtime
                       (@Spec.summary_of Spec.sample_runtime
                          Spec.sample_receipt (u "foo.jpg"))))]), st')
    /\ map Bedrock.obj_key (Bedrock.written st')
       = [u "textract-output/foo.jpg.summary.json";
          u "textract-output/foo.jpg.textract.json"].
Proof.
  destruct (@ocr_stage_saves_answer_and_summary Spec.sample_runtime
              (Spec.ocr_world Spec.sample_receipt) Spec.receipt_event
              (PStr (u "receipts")) (u "inbox/foo.jpg") (u "bytes")
              (Spec.encoded (@Json.dumps Spec.sample_runtime
                               Spec.sample_receipt))
              (Spec.encoded
                 (@Json.dumps_indent Spec.sample_runtime 2
                    (@Spec.summary_of Spec.sample_runtime
                       Spec.sample_receipt (u "foo.jpg"))))
              Spec.sample_receipt Spec.initial_state)
    as (st' & Hh & Hw); try (vm_compute; reflexivity).
  exists st'. split; [exact Hh|]. rewrite Hw. vm_compute. reflexivity.
Defined.

Lemma ocr_stage_early_failure_witness :
  exists st' : Bedrock.state,
    @Textract.lambda_handler Spec.sample_runtime Spec.no_such_file
      Spec.receipt_event Spec.initial_state
    = (Raise (ServiceError (u "404")), st')
    /\ Spec.same_store Spec.initial_state st'.
Proof.
  apply (@ocr_stage_early_failure Spec.sample_runtime Spec.no_such_file
           Spec.receipt_event (ServiceError (u "404")) Spec.initial_state).
  right. exists (PStr (u "receipts")), (u "inbox/foo.jpg").
  repeat split; try reflexivity. left. reflexivity.
Defined.


(* ================================================================== *)
(** * The handler of the model stage, outside its guarded spans *)
(* ================================================================== *)

Lemma normalize_not_a_mapping `{Runtime} (json summary_data : pyval) :
  is_dict json = false ->
  Bedrock.normalize json summary_data = Raise AttributeError.
Proof. destruct json; intros D; try discriminate D; reflexivity. Qed.

(** X6. Failures of the model stage before its first guarded span: a
    malformed event, a summary object that cannot be read or is not JSON,
    and a summary for which no prompt can be built each end the run with
    the very exception that was raised; the store is left as it was, so no
    marker artifact tells of the failure. *)
Theorem model_stage_early_failure `{Runtime} (E : Bedrock.env)
  (event : pyval) (e : exn) (st : Bedrock.state) :
  (Bedrock.event_target event = Raise e
   \/ exists (bucket : pyval) (key : pystr),
        Bedrock.event_target event = Ok (bucket, PStr key)
        /\ startswith Bedrock.TEXTRACT_PREFIX key = true
        /\ endswith Bedrock.SUMMARY_SUFFIX key = true
        /\ (bind (Bedrock.get_object E bucket key) (fun text => Json.loads text)
            = Raise e
            \/ exists summary_data : pyval,
                 bind (Bedrock.get_object E bucket key)
                      (fun text => Json.loads text) = Ok summary_data
                 /\ Bedrock.make_prompt summary_data = Raise e)) ->
  exists st' : Bedrock.state,
    Bedrock.lambda_handler E event st = (Raise e, st')
    /\ Spec.same_store st st'.
Proof.
  intros [He|(bucket & key & He & Hp & Hs & Hx)];
    unfold Bedrock.lambda_handler;
    unfold Bedrock.bindM at 1 2; unfold Bedrock.logger at 1;
    unfold Bedrock.tryM at 1, Bedrock.lift at 1; rewrite He.
  - eexists. split; [reflexivity|split; reflexivity].
  - unfold Bedrock.bindM at 1 2 3. unfold Bedrock.logger at 1.
    cbn [Bedrock.py_startswith Bedrock.py_endswith Bedrock.lift Bedrock.ret].
    rewrite Hp, Hs. cbn [andb negb]. unfold Bedrock.process.
    unfold Bedrock.bindM at 1. unfold Bedrock.tryM at 1, Bedrock.lift at 1.
    destruct Hx as [Hl|(summary_data & Hl & Hm)]; rewrite Hl.
    + eexists. split; [reflexivity|split; reflexivity].
    + unfold Bedrock.bindM at 1. unfold Bedrock.lift at 1. rewrite Hm.
      eexists. split; [reflexivity|split; reflexivity].
Qed.

Lemma model_stage_early_failure_witness :
  exists st' : Bedrock.state,
    @Bedrock.lambda_handler Spec.sample_runtime Spec.no_such_summary
      Spec.sample_event Spec.initial_state
    = (Raise (ServiceError (u "NoSuchKey")), st')
    /\ Spec.same_store Spec.initial_state st'.
Proof.
  apply (@model_stage_early_failure Spec.sample_runtime Spec.no_such_summary
           Spec.sample_event (ServiceError (u "NoSuchKey"))
           Spec.initial_state).
  right. exists (PStr (u "receipts")), Spec.sample_key.
  repeat split; try reflexivity. left. reflexivity.
Defined.

Section ModelHandler.
Context `{Runtime}.
Variable E : Bedrock.env.
Variables (event bucket : pyval) (key : pystr).
Variables (summary_data : pyval) (prompt : pystr).

Hypothesis Hevent : Bedrock.event_target event = Ok (bucket, PStr key).
Hypothesis Hprefix : startswith Bedrock.TEXTRACT_PREFIX key = true.
Hypothesis Hsuffix : endswith Bedrock.SUMMARY_SUFFIX key = true.
Hypothesis Hload :
  bind (Bedrock.get_object E bucket key) (fun text => Json.loads text)
  = Ok summary_data.
Hypothesis Hprompt : Bedrock.make_prompt summary_data = Ok prompt.

(** X7. A run of the model stage that goes through: when the model span
    returns a summary line and fields that can be normalised, and both
    writes succeed, the handler answers 200 "Success" and has added exactly
    two objects to the store, first the summary line under
    bedrock-output/<base>.summary.txt and then the normalised fields,
    indented by two, under bedrock-output/<base>.bedrock.json; no marker is
    written. *)
Theorem model_stage_saves_line_and_fields (line : pystr) (json norm : pyval)
  (body1 body2 : Bedrock.bytes) (st st1 : Bedrock.state) :
  Bedrock.model_span E prompt (Spec.at_call st) = (Ok (line, json), st1) ->
  Bedrock.normalize json summary_data = Ok norm ->
  Bedrock.encode_utf8 line = Ok body1 ->
  Bedrock.encode_utf8 (Json.dumps_indent 2 norm) = Ok body2 ->
  Bedrock.put_fault E (Bedrock.put_calls st) = None ->
  Bedrock.put_fault E (S (Bedrock.put_calls st)) = None ->
  exists st2 : Bedrock.state,
    Bedrock.lambda_handler E event st
    = (Ok (Bedrock.response 200 "Success"), st2)
    /\ Bedrock.written st2
       = Spec.stored bucket
           (Bedrock.BEDROCK_PREFIX ++ Bedrock.base_name key
              ++ u ".bedrock.json") body2
         :: Spec.stored bucket
              (Bedrock.BEDROCK_PREFIX ++ Bedrock.base_name key
                 ++ u ".summary.txt") body1
         :: Bedrock.written st.
Proof.
  intros Hspan Hnorm Hb1 Hb2 Hf1 Hf2.
  destruct (model_span_writes_nothing _ _ _ Hspan) as [Hw Hc].
  rewrite (@handler_from_call _ E _ _ _ _ _ Hevent Hprefix Hsuffix Hload Hprompt).
  unfold Bedrock.bindM at 1. unfold Bedrock.tryM at 1. rewrite Hspan.
  unfold Bedrock.bindM at 1. unfold Bedrock.lift at 1. rewrite Hnorm.
  unfold Bedrock.bindM at 1. unfold Bedrock.tryM at 1.
  unfold Bedrock.save_span.
  unfold Bedrock.bindM at 1. unfold Bedrock.lift at 1. rewrite Hb1.
  unfold Bedrock.bindM at 1. unfold Bedrock.put_object at 1.
  rewrite Hc. cbn [Spec.at_call Bedrock.add_log Bedrock.put_calls].
  rewrite Hf1.
  unfold Bedrock.bindM at 1. unfold Bedrock.lift at 1. rewrite Hb2.
  unfold Bedrock.bindM at 1. unfold Bedrock.put_object at 1.
  cbn [Bedrock.add_object Bedrock.put_calls]. rewrite Hc.
  cbn [Spec.at_call Bedrock.add_log Bedrock.put_calls]. rewrite Hf2.
  eexists. split; [reflexivity|].
  cbn. rewrite Hw. reflexivity.
Qed.

(** X8. The normalisation of lines 251-252 stands outside both guarded
    spans: when the fields returned by the model span are not a mapping
    (the parser hands on any JSON value), the handler raises
    AttributeError, and neither an artifact nor a marker is written. *)
Theorem not_a_mapping_fails_without_marker (line : pystr) (json : pyval)
  (st st1 : Bedrock.state) :
  Bedrock.model_span E prompt (Spec.at_call st) = (Ok (line, json), st1) ->
  is_dict json = false ->
  Bedrock.lambda_handler E event st = (Raise AttributeError, st1)
  /\ Spec.same_store st st1.
Proof.
  intros Hspan Hd.
  destruct (model_span_writes_nothing _ _ _ Hspan) as [Hw Hc].
  split; [|split; assumption].
  rewrite (@handler_from_call _ E _ _ _ _ _ Hevent Hprefix Hsuffix Hload Hprompt).
  unfold Bedrock.bindM at 1. unfold Bedrock.tryM at 1. rewrite Hspan.
  unfold Bedrock.bindM at 1. unfold Bedrock.lift at 1.
  rewrite (@normalize_not_a_mapping _ json summary_data Hd). reflexivity.
Qed.

End ModelHandler.


Lemma model_stage_saves_line_and_fields_witness :
  exists st2 : Bedrock.state,
    @Bedrock.lambda_handler Spec.sample_runtime
      (Spec.answering_world Spec.sample_answer) Spec.sample_event
      Spec.initial_state
    = (Ok (Bedrock.response 200 "Success"), st2)
    /\ map Bedrock.obj_key (Bedrock.written st2)
       = [u "bedrock-output/foo.jpg.bedrock.json";
          u "bedrock-output/foo.jpg.summary.txt"].
Proof.
  destruct (@model_stage_saves_line_and_fields Spec.sample_runtime
              (Spec.answering_world Spec.sample_answer) Spec.sample_event
              (PStr (u "receipts")) Spec.sample_key Spec.sample_summary _
              eq_refl eq_refl eq_refl eq_refl eq_refl
              _ _ _ _ _ Spec.initial_state _
              eq_refl eq_refl eq_refl eq_refl eq_refl eq_refl)
    as (st2 & Hh & Hw).
  exists st2. split; [exact Hh|]. rewrite Hw. vm_compute. reflexivity.
Defined.

Lemma not_a_mapping_fails_without_marker_witness :
  exists st1 : Bedrock.state,
    @Bedrock.lambda_handler Spec.sample_runtime
      (Spec.answering_world Spec.array_answer) Spec.sample_event
      Spec.initial_state
    = (Raise AttributeError, st1)
    /\ Spec.same_store Spec.initial_state st1.
Proof.
  eexists.
  apply (@not_a_mapping_fails_without_marker Spec.sample_runtime
           (Spec.answering_world Spec.array_answer) Spec.sample_event
           (PStr (u "receipts")) Spec.sample_key Spec.sample_summary _
           eq_refl eq_refl eq_refl eq_refl eq_refl
           _ (PList []) Spec.initial_state _ eq_refl eq_refl).
Defined.


(* ================================================================== *)
(** * The prompt *)
(* ================================================================== *)

Lemma endswith_app_r (p a b : pystr) :
  endswith p b = true -> endswith p (a ++ b) = true.
Proof.
  unfold endswith. rewrite rev_app_distr. apply startswith_prefix_app.
Qed.

Lemma contains_app_r (sub a b : pystr) :
  contains sub b = true -> contains sub (a ++ b) = true.
Proof.
  intros Hb. induction a as [|x a IH]; [exact Hb|].
  cbn [app contains]. rewrite IH. apply orb_true_r.
Qed.

Lemma contains_app_l (sub a b : pystr) :
  contains sub a = true -> contains sub (a ++ b) = true.
Proof.
  induction a as [|x a IH]; cbn [app contains].
  - rewrite orb_false_r. destruct sub; [|discriminate].
    intros _. destruct b; reflexivity.
  - intros Ha. apply orb_true_iff in Ha as [Ha|Ha].
    + change (x :: a ++ b) with ((x :: a) ++ b).
      rewrite (startswith_prefix_app _ _ b Ha). reflexivity.
    + rewrite (IH Ha). apply orb_true_r.
Qed.

(** X9. The prompt builder.  A summary that is not a mapping raises
    AttributeError; a mapping whose Items entry is truthy but cannot be
    iterated (a number, True) raises TypeError; for every other mapping,
    whatever its entries hold, a prompt is built that starts with the
    Human turn, ends with the Assistant turn and holds the separator token
    the output parser splits on. *)
Theorem make_prompt_contract `{Runtime} :
  (forall summary : pyval,
      is_dict summary = false ->
      Bedrock.make_prompt summary = Raise AttributeError)
  /\ (forall d : list (pystr * pyval),
         Spec.falsy_or_iterable (Spec.dict_get d (u "Items")) = false ->
         Bedrock.make_prompt (PDict d) = Raise TypeError)
  /\ (forall d : list (pystr * pyval),
         Spec.falsy_or_iterable (Spec.dict_get d (u "Items")) = true ->
         exists prompt : pystr,
           Bedrock.make_prompt (PDict d) = Ok prompt
           /\ startswith (u "Human: ") prompt = true
           /\ endswith (u "Assistant:") prompt = true
           /\ contains Bedrock.SEPARATOR prompt = true).
Proof.
  split; [|split].
  - intros summary D. destruct summary; try discriminate D; reflexivity.
  - intros d. unfold Bedrock.make_prompt, Spec.dict_get. cbn [py_get bind].
    destruct (lookup d (u "Items")) as [items|]; [|discriminate].
    unfold Spec.falsy_or_iterable, py_or.
    destruct items as [|b|z|f|s|l|m]; cbn [truthy is_str is_list is_dict negb orb];
      rewrite ?orb_true_r; try discriminate.
    + destruct b; [reflexivity|discriminate].
    + destruct (z =? 0)%Z eqn:Z0; [discriminate|].
      intros _. cbn [negb truthy]. rewrite Z0. reflexivity.
    + destruct f; try discriminate; reflexivity.
  - intros d Hi.
    assert (exists items_text : pystr,
               (if truthy (py_or (Spec.dict_get d (u "Items")) (PList []))
                then its <- py_iter (py_or (Spec.dict_get d (u "Items"))
                                       (PList [])) ;;
                     Ok (join (u "
") (map (fun it => u "- " ++ py_str it) its))
                else Ok (u "(none)")) = Ok items_text) as [items_text Ht].
    { unfold py_or. unfold Spec.falsy_or_iterable in Hi.
      destruct (truthy (Spec.dict_get d (u "Items"))) eqn:T;
        [|eexists; reflexivity].
      rewrite T. cbn [negb orb] in Hi.
      destruct (Spec.dict_get d (u "Items")); try discriminate Hi;
        eexists; reflexivity. }
    unfold Bedrock.make_prompt. cbn [py_get bind].
    unfold Spec.dict_get in Ht. rewrite Ht. cbn [bind].
    eexists. split; [reflexivity|]. split; [|split].
    + apply startswith_prefix_app. vm_compute. reflexivity.
    + do 8 apply endswith_app_r. vm_compute. reflexivity.
    + do 8 apply contains_app_r. vm_compute. reflexivity.
Qed.

Lemma make_prompt_contract_witness :
  exists prompt : pystr,
    @Bedrock.make_prompt Spec.sample_runtime Spec.sample_summary = Ok prompt
    /\ startswith (u "Human: ") prompt = true
    /\ endswith (u "Assistant:") prompt = true
    /\ contains Bedrock.SEPARATOR prompt = true.
Proof.
  apply (proj2 (proj2 (@make_prompt_contract Spec.sample_runtime))
           [(u "Vendor", PStr (u "Acme")); (u "Total", PStr (u "$10.00"));
            (u "Date", PStr (u "2024-01-01"));
            (u "Items", PList [PStr (u "Coffee")])]).
  reflexivity.
Defined.


(* ================================================================== *)
(** * Text extraction at its edges *)
(* ================================================================== *)

Lemma extract_text_not_an_object (raw : pystr) (parsed : pyval) :
  Json.loads raw = Ok parsed -> is_dict parsed = false ->
  Bedrock.extract_text raw = Raise AttributeError.
Proof.
  intros Hl Hd. unfold Bedrock.extract_text. rewrite Hl.
  destruct parsed; try discriminate Hd; reflexivity.
Qed.

Section ScalarEnvelope.
Context `{Runtime}.
Variable E : Bedrock.env.
Variables (event bucket : pyval) (key : pystr).
Variables (summary_data : pyval) (prompt : pystr).

Hypothesis Hevent : Bedrock.event_target event = Ok (bucket, PStr key).
Hypothesis Hprefix : startswith Bedrock.TEXTRACT_PREFIX key = true.
Hypothesis Hsuffix : endswith Bedrock.SUMMARY_SUFFIX key = true.
Hypothesis Hload :
  bind (Bedrock.get_object E bucket key) (fun text => Json.loads text)
  = Ok summary_data.
Hypothesis Hprompt : Bedrock.make_prompt summary_data = Ok prompt.

(** X10. A response body of the model endpoint that is valid JSON but not
    an object (a number, a quoted string, an array, null) is not taken as
    raw text: the first [.get] of the text extraction raises
    AttributeError.  The failure falls in the first guarded span, so the
    handler writes the marker bedrock-output/<base>.error.txt, nothing
    else, and raises AttributeError. *)
Theorem scalar_envelope_marks_and_raises (raw : pystr) (parsed : pyval)
  (st : Bedrock.state) :
  Bedrock.invoke_model E (Json.dumps (Bedrock.messages_payload prompt))
  = Ok raw ->
  Json.loads raw = Ok parsed ->
  is_dict parsed = false ->
  Bedrock.put_fault E (Bedrock.put_calls st) = None ->
  Bedrock.extract_text raw = Raise AttributeError
  /\ exists st' : Bedrock.state,
       Bedrock.lambda_handler E event st = (Raise AttributeError, st')
       /\ Bedrock.written st'
          = Spec.stored bucket
              (Bedrock.BEDROCK_PREFIX ++ Bedrock.base_name key
                 ++ u ".error.txt") Bedrock.CALL_FAILED
            :: Bedrock.written st.
Proof.
  intros Hi Hl Hd Hf.
  pose proof (extract_text_not_an_object raw Hl Hd) as Hx.
  split; [exact Hx|].
  rewrite (@handler_from_call _ E _ _ _ _ _ Hevent Hprefix Hsuffix Hload
             Hprompt).
  unfold Bedrock.bindM at 1. unfold Bedrock.tryM at 1.
  unfold Bedrock.model_span. unfold Bedrock.bindM at 1.
  unfold Bedrock.lift at 1. unfold Bedrock.call_bedrock_messages.
  rewrite Hi. cbn [bind]. rewrite Hx.
  unfold Bedrock.on_model_failure, Bedrock.bindM, Bedrock.tryM,
    Bedrock.logger, Bedrock.put_object, Bedrock.raise.
  cbn [Spec.at_call Bedrock.add_log Bedrock.put_calls]. rewrite Hf.
  eexists. split; reflexivity.
Qed.

End ScalarEnvelope.

Lemma scalar_envelope_marks_and_raises_witness :
  @Bedrock.extract_text (u "42") = Raise AttributeError
  /\ exists st' : Bedrock.state,
       @Bedrock.lambda_handler Spec.sample_runtime
         (Spec.answering_world (u "42")) Spec.sample_event
         Spec.initial_state
       = (Raise AttributeError, st')
       /\ map Bedrock.obj_key (Bedrock.written st')
          = [u "bedrock-output/foo.jpg.error.txt"].
Proof.
  destruct (@scalar_envelope_marks_and_raises Spec.sample_runtime
              (Spec.answering_world (u "42")) Spec.sample_event
              (PStr (u "receipts")) Spec.sample_key Spec.sample_summary _
              eq_refl eq_refl eq_refl eq_refl eq_refl
              (u "42") (PInt 42) Spec.initial_state
              eq_refl eq_refl eq_refl eq_refl)
    as (Hx & st' & Hh & Hw).
  split; [exact Hx|]. exists st'. split; [exact Hh|].
  rewrite Hw. vm_compute. reflexivity.
Defined.


Lemma find_text_found (obj : pyval) :
  Bedrock.find_text obj = PNone
  \/ exists s : pystr,
       Bedrock.find_text obj = PStr s /\ In s (Spec.text_values obj).
Proof.
  induction obj as [| | | | |l IH|d IH] using pyval_nested_ind; auto.
  - induction IH as [|x l Hx _ IHl]; [left; reflexivity|].
    cbn [Bedrock.find_text Spec.text_values] in *.
    destruct (truthy (Bedrock.find_text x)) eqn:T.
    + destruct Hx as [Hx|(s & Hx & Hin)]; [rewrite Hx in T; discriminate|].
      right. exists s. split; [exact Hx|]. apply in_or_app. auto.
    + destruct IHl as [Hl|(s & Hl & Hin)]; [left; exact Hl|].
      right. exists s. split; [exact Hl|]. apply in_or_app. auto.
  - induction IH as [|[k x] d Hx _ IHd]; [left; reflexivity|].
    cbn [Bedrock.find_text Spec.text_values snd] in *.
    destruct (PyStr.eqb k (u "text") && is_str x) eqn:K.
    + apply andb_true_iff in K as [_ K]. destruct x; try discriminate K.
      right. eexists. split; [reflexivity|]. left. reflexivity.
    + destruct (truthy (Bedrock.find_text x)) eqn:T.
      * destruct Hx as [Hx|(s & Hx & Hin)]; [rewrite Hx in T; discriminate|].
        right. exists s. split; [exact Hx|]. apply in_or_app. auto.
      * destruct IHd as [Hd|(s & Hd & Hin)]; [left; exact Hd|].
        right. exists s. split; [exact Hd|]. apply in_or_app. auto.
Qed.

Lemma find_text_first (obj : pyval) :
  (forall s : pystr, In s (Spec.text_values obj) -> s <> []) ->
  Bedrock.find_text obj = Spec.first_or_none (Spec.text_values obj).
Proof.
  induction obj as [| | | | |l IH|d IH] using pyval_nested_ind; auto.
  - induction IH as [|x l Hx _ IHl]; [reflexivity|]. intros Hne.
    cbn [Bedrock.find_text Spec.text_values] in *.
    rewrite Hx by (intros s Hs; apply Hne, in_or_app; auto).
    destruct (Spec.text_values x) as [|s r] eqn:V.
    + cbn [Spec.first_or_none truthy app]. apply IHl.
      intros s Hs. apply Hne. exact Hs.
    + cbn [Spec.first_or_none app]. 
      assert (s <> []) by (apply Hne; left; reflexivity).
      destruct s; [congruence|reflexivity].
  - induction IH as [|[k x] d Hx _ IHd]; [reflexivity|]. intros Hne.
    cbn [Bedrock.find_text Spec.text_values snd] in *.
    destruct (PyStr.eqb k (u "text") && is_str x) eqn:K.
    + apply andb_true_iff in K as [_ K]. destruct x; try discriminate K.
      reflexivity.
    + rewrite Hx by (intros s Hs; apply Hne, in_or_app; auto).
      destruct (Spec.text_values x) as [|s r] eqn:V.
      * cbn [Spec.first_or_none truthy app]. apply IHd.
        intros s Hs. apply Hne. exact Hs.
      * cbn [Spec.first_or_none app].
        assert (s <> []) by (apply Hne; left; reflexivity).
        destruct s; [congruence|reflexivity].
Qed.

(** X11. The last-resort search.  Whatever the value, [find_text] returns
    nothing or a string that stands under a key named text in it; and when
    no such string is empty, it returns the first of them in depth-first
    order, nothing when there is none.  (An empty one met at the top of a
    nested value ends the search of that value.) *)
Theorem find_text_depth_first (obj : pyval) :
  (Bedrock.find_text obj = PNone
   \/ exists s : pystr,
        Bedrock.find_text obj = PStr s /\ In s (Spec.text_values obj))
  /\ ((forall s : pystr, In s (Spec.text_values obj) -> s <> []) ->
      Bedrock.find_text obj = Spec.first_or_none (Spec.text_values obj))
  /\ Bedrock.find_text
       (PList [PDict [(u "text", PStr []); (u "more", PDict [(u "text", PStr (u "late"))])]])
     = PNone.
Proof.
  split; [apply find_text_found|]. split; [apply find_text_first|].
  reflexivity.
Qed.

Lemma find_text_depth_first_witness :
  Bedrock.find_text Spec.nested_envelope = PStr (u "Lunch at Acme").
Proof.
  rewrite (proj1 (proj2 (find_text_depth_first Spec.nested_envelope))).
  - reflexivity.
  - intros s [Hs|[Hs|[]]]; subst s; discriminate.
Defined.


(* ================================================================== *)
(** * Amounts have no sign *)
(* ================================================================== *)

Lemma binary_round_aux_sign (prec emax : Z) (mx ex : Z) (lx : location) :
  Spec.sign_bit (binary_round_aux prec emax false mx ex lx) = false.
Proof.
  unfold binary_round_aux.
  destruct (shr_fexp prec emax mx ex lx) as [mrs' e'].
  destruct (shr_fexp prec emax _ e' loc_Exact) as [mrs'' e''].
  destruct (shr_m mrs''); try reflexivity.
  destruct (e'' <=? emax - prec)%Z; reflexivity.
Qed.

Lemma float_of_decimal_sign (m : N) (e10 : Z) :
  Spec.sign_bit (float_of_decimal false m e10) = false.
Proof.
  unfold float_of_decimal, f64_round, binary_round.
  destruct m as [|p]; [reflexivity|].
  destruct e10 as [|k|k].
  - destruct (shl_align p 0 _). apply binary_round_aux_sign.
  - destruct (shl_align (p * 10 ^ k) 0 _). apply binary_round_aux_sign.
  - unfold SFdiv.
    destruct (SFdiv_core_binary 53 1024 (Z.pos p) 0 (Z.pos (10 ^ k)) 0)
      as [[mz ez] lz].
    apply binary_round_aux_sign.
Qed.

Lemma py_float_sign (text : pystr) (f : float) :
  Bedrock.py_float text = Ok f -> Spec.sign_bit f = false.
Proof.
  unfold Bedrock.py_float.
  destruct (Json.span_digits text) as [[|d ip] [|c r]]; try discriminate.
  - intros E; inversion E. apply float_of_decimal_sign.
  - destruct (c =? 46)%N; [|discriminate].
    destruct (Json.span_digits r) as [[|d' fd] [|c' r']]; try discriminate.
    intros E; inversion E. apply float_of_decimal_sign.
Qed.

(** X12. The amount parser never returns a negative amount: whatever the
    value, the result is nothing or a float whose sign bit is clear, since
    the numeral pattern has no sign and a minus before the digits is passed
    over.  "-12.50" gives 12.5, and the number -5 gives 5.0. *)
Theorem parse_amount_drops_sign `{Runtime} :
  (forall v : pyval,
      Bedrock.parse_amount v = PNone
      \/ exists f : float,
           Bedrock.parse_amount v = PFloat f /\ Spec.sign_bit f = false)
  /\ Bedrock.parse_amount (PStr (u "-12.50"))
     = PFloat (float_of_decimal false 1250 (-2))
  /\ Bedrock.parse_amount (PInt (-5)) = PFloat (float_of_decimal false 5 0).
Proof.
  split; [|split; vm_compute; reflexivity].
  intros v. unfold Bedrock.parse_amount.
  destruct (negb (truthy v)); [left; reflexivity|].
  destruct (Re.search Bedrock.NUMBER_RE _) as [m|]; [|left; reflexivity].
  destruct (Bedrock.py_float m) as [f|e] eqn:F; [|left; reflexivity].
  right. exists f. split; [reflexivity|]. exact (py_float_sign m F).
Qed.


(* ================================================================== *)
(** * When the normalisation fails *)
(* ================================================================== *)

Lemma extract_currency_cases (t : pyval) :
  if Spec.truthy_scalar t
  then Bedrock.extract_currency t = Raise TypeError
  else exists code : pystr, Bedrock.extract_currency t = Ok code.
Proof.
  unfold Spec.truthy_scalar, Bedrock.extract_currency.
  destruct t as [|b|z|f|s|l|d]; cbn [truthy is_str is_list is_dict negb orb andb].
  - eexists; reflexivity.
  - destruct b; cbn [negb andb]; [reflexivity|eexists; reflexivity].
  - destruct (z =? 0)%Z; cbn [negb andb]; [eexists; reflexivity|reflexivity].
  - destruct f; cbn [negb andb]; try reflexivity; eexists; reflexivity.
  - rewrite andb_false_r. destruct s; cbn [negb]; [eexists; reflexivity|].
    cbn [py_in bind].
    repeat match goal with
           | |- context [if ?c then _ else _] => destruct c; cbn [bind]
           end; eexists; reflexivity.
  - rewrite andb_false_r. destruct l; cbn [negb]; [eexists; reflexivity|].
    cbn [py_in bind].
    repeat match goal with
           | |- context [if ?c then _ else _] => destruct c; cbn [bind]
           end; eexists; reflexivity.
  - rewrite andb_false_r. destruct d; cbn [negb]; [eexists; reflexivity|].
    cbn [py_in bind].
    repeat match goal with
           | |- context [if ?c then _ else _] => destruct c; cbn [bind]
           end; eexists; reflexivity.
Qed.

(** X13. When the normalisation of two mappings fails.  The amount step
    never fails; the currency step fails, with TypeError, exactly when the
    model gave no truthy currency and the raw Total of the summary is a
    number other than zero (or True), on which the symbol test [in] is not
    defined.  In every other case the normalised fields come back. *)
Theorem normalize_fails_on_numeric_total `{Runtime}
  (fields sd : list (pystr * pyval)) :
  if negb (truthy (Spec.dict_get fields (u "currency")))
     && Spec.truthy_scalar (Spec.dict_get sd (u "Total"))
  then Bedrock.normalize (PDict fields) (PDict sd) = Raise TypeError
  else exists out : list (pystr * pyval),
         Bedrock.normalize (PDict fields) (PDict sd) = Ok (PDict out).
Proof.
  set (amount := Spec.dict_get fields (u "amount")).
  set (x := if truthy amount then amount else Spec.dict_get sd (u "Total")).
  set (d1 := dict_set fields (u "amount") (Bedrock.parse_amount x)).
  assert (Hc : Spec.dict_get d1 (u "currency")
               = Spec.dict_get fields (u "currency")).
  { unfold Spec.dict_get, d1. rewrite lookup_dict_set_other; [reflexivity|].
    intros E; vm_compute in E; discriminate. }
  assert (Hn : Bedrock.normalize (PDict fields) (PDict sd)
               = bind (if truthy (Spec.dict_get fields (u "currency"))
                       then Ok (Spec.dict_get fields (u "currency"))
                       else bind (py_get (PDict sd) (u "Total") (PStr []))
                              (fun t => bind (Bedrock.extract_currency t)
                                          (fun s => Ok (PStr s))))
                   (fun cur => py_setitem (PDict d1) (u "currency") cur)).
  { unfold Bedrock.normalize. rewrite py_get_dict. cbn [bind].
    fold amount.
    replace (if truthy amount then Ok amount
             else py_get (PDict sd) (u "Total") PNone) with (Ok x)
      by (unfold x; rewrite py_get_dict; destruct (truthy amount); reflexivity).
    cbn [bind py_setitem]. fold d1. rewrite py_get_dict. cbn [bind].
    rewrite Hc. reflexivity. }
  rewrite Hn.
  destruct (truthy (Spec.dict_get fields (u "currency"))); cbn [negb andb].
  - eexists. reflexivity.
  - assert (Ht : py_get (PDict sd) (u "Total") (PStr [])
                 = Ok (match lookup sd (u "Total") with
                       | Some t => t
                       | None => PStr []
                       end)) by reflexivity.
    rewrite Ht. cbn [bind]. unfold Spec.dict_get.
    destruct (lookup sd (u "Total")) as [t|].
    + pose proof (extract_currency_cases t) as Hx.
      destruct (Spec.truthy_scalar t).
      * rewrite Hx. reflexivity.
      * destruct Hx as [code Hx]. rewrite Hx. eexists. reflexivity.
    + eexists. reflexivity.
Qed.


(* ================================================================== *)
(** * The summary line *)
(* ================================================================== *)

Lemma partition_prefix (sep s : pystr) :
  exists rest : pystr, s = fst (partition sep s) ++ rest.
Proof.
  induction s as [|c s IH]; cbn [partition].
  - destruct (startswith sep []); exists []; reflexivity.
  - destruct (startswith sep (c :: s)); [exists (c :: s); reflexivity|].
    destruct IH as [rest IH]. destruct (partition sep s) as [b a].
    exists rest. cbn [fst app] in *. congruence.
Qed.

Lemma partition_before_free (sep s : pystr) :
  sep <> [] -> contains sep (fst (partition sep s)) = false.
Proof.
  intros Hsep.
  assert (Hnil : contains sep [] = false)
    by (destruct sep; [congruence|reflexivity]).
  induction s as [|c s IH]; cbn [partition].
  - destruct (startswith sep []); exact Hnil.
  - destruct (startswith sep (c :: s)) eqn:S; [exact Hnil|].
    destruct (partition_prefix sep s) as [rest Hr].
    destruct (partition sep s) as [b a]. cbn [fst] in *.
    cbn [contains]. rewrite IH, orb_false_r.
    destruct (startswith sep (c :: b)) eqn:S'; [|reflexivity].
    rewrite Hr in S. change (c :: b ++ rest) with ((c :: b) ++ rest) in S.
    rewrite (startswith_prefix_app _ _ rest S') in S. discriminate.
Qed.

Lemma lstrip_suffix (s : pystr) : exists pre : pystr, s = pre ++ lstrip s.
Proof.
  induction s as [|c s [pre IH]]; [exists []; reflexivity|].
  cbn [lstrip]. destruct (isspace c); [|exists []; reflexivity].
  exists (c :: pre). cbn [app]. congruence.
Qed.

Lemma rstrip_prefix (s : pystr) : exists post : pystr, s = rstrip s ++ post.
Proof.
  unfold rstrip. destruct (lstrip_suffix (rev s)) as [pre Hp].
  exists (rev pre). rewrite <- rev_app_distr, <- Hp, rev_involutive.
  reflexivity.
Qed.

Lemma contains_inside (sub pre mid post : pystr) :
  contains sub (pre ++ mid ++ post) = false -> contains sub mid = false.
Proof.
  intros Hc. destruct (contains sub mid) eqn:M; [|reflexivity].
  rewrite (contains_app_r sub pre (mid ++ post)) in Hc; [discriminate|].
  apply contains_app_l. exact M.
Qed.

Lemma strip_free (sub s : pystr) :
  contains sub s = false -> contains sub (strip s) = false.
Proof.
  intros Hc. unfold strip.
  destruct (lstrip_suffix s) as [pre Hp].
  destruct (rstrip_prefix (lstrip s)) as [post Hq].
  apply (contains_inside sub pre _ post). rewrite <- Hq, <- Hp. exact Hc.
Qed.

Lemma lstrip_idem (s : pystr) : lstrip (lstrip s) = lstrip s.
Proof.
  induction s as [|c s IH]; [reflexivity|]. cbn [lstrip].
  destruct (isspace c) eqn:C; [exact IH|]. cbn [lstrip]. rewrite C.
  reflexivity.
Qed.

Lemma rstrip_idem (s : pystr) : rstrip (rstrip s) = rstrip s.
Proof. unfold rstrip. rewrite rev_involutive, lstrip_idem. reflexivity. Qed.

Lemma lstrip_fixed (s : pystr) :
  lstrip s = s <-> match s with [] => True | c :: _ => isspace c = false end.
Proof.
  destruct s as [|c s]; cbn [lstrip]; [tauto|].
  destruct (isspace c) eqn:C; split; auto; try discriminate.
  intros E. destruct (lstrip_suffix s) as [pre Hp]. rewrite E in Hp.
  apply (f_equal (@List.length N)) in Hp.
  rewrite length_app in Hp. cbn [List.length] in Hp. lia.
Qed.

Lemma lstrip_rstrip (s : pystr) :
  lstrip s = s -> lstrip (rstrip s) = rstrip s.
Proof.
  intros Hs. apply lstrip_fixed. apply lstrip_fixed in Hs.
  destruct (rstrip_prefix s) as [post Hp].
  destruct (rstrip s) as [|c r]; [exact I|].
  rewrite Hp in Hs. exact Hs.
Qed.

Lemma strip_idem (s : pystr) : strip (strip s) = strip s.
Proof.
  unfold strip.
  rewrite (@lstrip_rstrip (lstrip s) (lstrip_idem s)). apply rstrip_idem.
Qed.

(** X14. The summary line the parser returns is clean, whatever the
    answer of the model: it never holds the separator token, and it has no
    blank at either end (stripping it again changes nothing). *)
Theorem summary_line_is_clean `{Runtime} (raw : pyval) (line : pystr)
  (fields : pyval) :
  Bedrock.parse_bedrock_output raw = Ok (line, fields) ->
  contains Bedrock.SEPARATOR line = false /\ strip line = line.
Proof.
  unfold Bedrock.parse_bedrock_output.
  destruct (negb (truthy raw)).
  - intros E; inversion E. split; reflexivity.
  - destruct (split_head (py_str raw) separator_not_empty) as [rest Hs].
    rewrite Hs.
    match goal with
    | |- (bind ?c _ = _) -> _ => destruct c as [parsed|e]
    end; cbn [bind]; [|discriminate].
    intros E; inversion E. split.
    + apply strip_free. apply partition_before_free.
      exact separator_not_empty.
    + apply strip_idem.
Qed.

Lemma summary_line_is_clean_witness :
  contains Bedrock.SEPARATOR (u "Coffee purchase") = false
  /\ strip (u "Coffee purchase") = u "Coffee purchase".
Proof.
  apply (@summary_line_is_clean Spec.sample_runtime
           (PStr (u "  Coffee purchase
===JSON===
{}")) (u "Coffee purchase") (PDict [])).
  vm_compute. reflexivity.
Defined.


(* ================================================================== *)
(** * ExpenseFieldExtractor: the line items *)
(* ================================================================== *)

Lemma parts_loop_parts (kvs : list pyval) :
  forallb Spec.expense_field_ok kvs = true ->
  forall parts : list pystr,
    Textract.parts_loop parts kvs
    = Ok (parts ++ flat_map Spec.item_part kvs).
Proof.
  induction kvs as [|kv kvs IH]; intros Hok parts.
  - cbn. rewrite app_nil_r. reflexivity.
  - cbn [forallb] in Hok. apply andb_true_iff in Hok as [Hkv Hkvs].
    destruct kv as [| | | | | |d]; try discriminate Hkv.
    cbn [Spec.expense_field_ok] in Hkv.
    apply andb_true_iff in Hkv as [Ht Hv].
    cbn [Textract.parts_loop flat_map].
    rewrite (detection_text_ok _ _ Ht), (detection_text_ok _ _ Hv).
    cbn [bind]. unfold Spec.item_part at 1.
    destruct (Spec.text_of (PDict d) (u "ValueDetection")) as [|c v].
    + destruct (Spec.text_of (PDict d) (u "Type")); rewrite (IH Hkvs);
        reflexivity.
    + destruct (Spec.text_of (PDict d) (u "Type")); rewrite (IH Hkvs);
        rewrite <- app_assoc; reflexivity.
Qed.

Lemma lines_loop_items (lines : list pyval) :
  forallb Spec.line_ok lines = true ->
  forall out : Textract.summary,
  exists s : Textract.summary,
    Textract.lines_loop out lines = Ok s
    /\ Textract.Items s
       = Textract.Items out ++ flat_map Spec.item_line lines.
Proof.
  induction lines as [|line lines IH]; intros Hok out.
  - exists out. cbn. rewrite app_nil_r. split; reflexivity.
  - cbn [forallb] in Hok. apply andb_true_iff in Hok as [Hl Hls].
    destruct line as [| | | | | |d]; try discriminate Hl.
    cbn [Spec.line_ok] in Hl.
    cbn [Textract.lines_loop flat_map py_get bind].
    unfold Spec.item_line at 1. cbn [Spec.list_of].
    unfold Spec.list_entry in *.
    destruct (lookup d (u "LineItemExpenseFields")) as [[| | | | |kvs|]|];
      try discriminate Hl; cbn [py_iter bind].
    + rewrite (parts_loop_parts kvs Hl []). cbn [bind app].
      destruct (flat_map Spec.item_part kvs) as [|p ps].
      * apply (IH Hls).
      * destruct (IH Hls (Textract.add_item out (join (u " | ") (p :: ps))))
          as (s & Hs & Hi).
        exists s. split; [exact Hs|]. rewrite Hi. cbn [Textract.add_item Textract.Items].
        rewrite <- app_assoc. reflexivity.
    + cbn [Textract.parts_loop bind flat_map]. apply (IH Hls).
Qed.

Lemma groups_loop_items (groups : list pyval) :
  forallb Spec.group_ok groups = true ->
  forall out : Textract.summary,
  exists s : Textract.summary,
    Textract.groups_loop out groups = Ok s
    /\ Textract.Items s = Textract.Items out ++ Spec.item_lines groups.
Proof.
  induction groups as [|grp groups IH]; intros Hok out.
  - exists out. cbn. rewrite app_nil_r. split; reflexivity.
  - cbn [forallb] in Hok. apply andb_true_iff in Hok as [Hg Hgs].
    destruct grp as [| | | | | |d]; try discriminate Hg.
    cbn [Spec.group_ok] in Hg.
    cbn [Textract.groups_loop py_get bind].
    unfold Spec.item_lines. cbn [flat_map Spec.list_of].
    fold (Spec.item_lines groups).
    unfold Spec.list_entry in *.
    assert (exists lines : list pyval,
               py_iter (match lookup d (u "LineItems") with
                        | Some x => x
                        | None => PList []
                        end) = Ok lines
               /\ match lookup d (u "LineItems") with
                  | Some (PList l) => Some l
                  | Some _ => None
                  | None => Some []
                  end = Some lines
               /\ forallb Spec.line_ok lines = true)
      as (lines & Hi & Hl & Hlok).
    { destruct (lookup d (u "LineItems")) as [[| | | | |l|]|];
        try discriminate Hg; eexists; repeat split; try reflexivity;
        exact Hg. }
    rewrite Hi, Hl. cbn [bind].
    destruct (lines_loop_items lines Hlok out) as (s1 & Hs1 & Hi1).
    rewrite Hs1. cbn [bind].
    destruct (IH Hgs s1) as (s & Hs & Hi2).
    exists s. split; [exact Hs|]. rewrite Hi2, Hi1, <- app_assoc.
    reflexivity.
Qed.

(** X15. The line items of a well-formed response.  When the first
    document holds well-formed summary fields and line-item groups, the
    extractor returns (it does not raise), and its Items are, in source
    order over all groups, one text for every line that has a part: the
    parts joined by " | ", a part being "name: value" for an expense field
    with both texts, the value alone when the name is empty, and nothing
    when the value is empty; a line without parts gives no item.  The
    fallback does not touch them. *)
Theorem line_items_joined `{Runtime} (d dd : list (pystr * pyval))
  (rest fields groups : list pyval) :
  lookup d (u "ExpenseDocuments") = Some (PList (PDict dd :: rest)) ->
  Spec.list_entry dd (u "SummaryFields") = Some fields ->
  forallb Spec.field_ok fields = true ->
  Spec.list_entry dd (u "LineItemGroups") = Some groups ->
  forallb Spec.group_ok groups = true ->
  exists out : Textract.summary,
    Textract.parse_textract_expense (PDict d) = Ok out
    /\ Textract.Items out = Spec.item_lines groups.
Proof.
  intros Hdocs Hfields Hfok Hgroups Hgok.
  destruct (fields_loop_last fields Hfok Textract.empty_summary)
    as (s & Hs & _ & _ & _ & Hi).
  destruct (groups_loop_items groups Hgok s) as (p & Hp & Hip).
  assert (Hprim : Textract.primary_path (PDict d) = Ok p).
  { unfold Textract.primary_path, Textract.document_summary.
    cbn [py_get bind]. rewrite Hdocs. cbn [truthy py_first bind py_get].
    unfold Spec.list_entry in Hfields, Hgroups.
    assert (Ef : py_iter (match lookup dd (u "SummaryFields") with
                          | Some x => x
                          | None => PList []
                          end) = Ok fields).
    { destruct (lookup dd (u "SummaryFields")) as [[| | | | |l|]|];
        try discriminate Hfields; inversion Hfields; reflexivity. }
    assert (Eg : py_iter (match lookup dd (u "LineItemGroups") with
                          | Some x => x
                          | None => PList []
                          end) = Ok groups).
    { destruct (lookup dd (u "LineItemGroups")) as [[| | | | |l|]|];
        try discriminate Hgroups; inversion Hgroups; reflexivity. }
    rewrite Ef. cbn [bind]. rewrite Hs. cbn [bind]. rewrite Eg. cbn [bind].
    exact Hp. }
  unfold Textract.parse_textract_expense. rewrite Hprim. cbn [bind].
  eexists. split; [reflexivity|].
  destruct (fallback_entries (Json.dumps (PDict d)) p) as (_ & Hit & _).
  rewrite Hit, Hip, Hi. reflexivity.
Qed.

Lemma line_items_joined_witness :
  exists out : Textract.summary,
    @Textract.parse_textract_expense Spec.sample_runtime
      Spec.two_line_receipt = Ok out
    /\ Textract.Items out = [u "ITEM: Coffee | PRICE: 3.50"; u "1.00"].
Proof.
  destruct (@line_items_joined Spec.sample_runtime
              [(u "ExpenseDocuments",
                PList
                  [PDict
                     [(u "LineItemGroups",
                       PList
                         [PDict
                            [(u "LineItems",
                              PList
                                [PDict
                                   [(u "LineItemExpenseFields",
                                     PList
                                       [Spec.expense_field "ITEM" "Coffee";
                                        Spec.expense_field "PRICE" "3.50"])];
                                 PDict
                                   [(u "LineItemExpenseFields",
                                     PList
                                       [Spec.expense_field "ITEM" " ";
                                        Spec.expense_field " " "1.00"])]])]])]])]
              _ _ _ _ eq_refl eq_refl eq_refl eq_refl eq_refl)
    as (out & Ho & Hi).
  exists out. split; [exact Ho|]. rewrite Hi. vm_compute. reflexivity.
Defined.


(* ================================================================== *)
(** * The serialised response is ASCII *)
(* ================================================================== *)

Lemma forallb_app_true {A : Type} (p : A -> bool) (a b : list A) :
  forallb p a = true -> forallb p b = true -> forallb p (a ++ b) = true.
Proof. intros Ha Hb. rewrite forallb_app, Ha, Hb. reflexivity. Qed.

Lemma digits_fuel_ascii (fuel : nat) :
  forall (n : N) (acc : pystr),
    forallb Spec.is_ascii acc = true ->
    forallb Spec.is_ascii (digits_fuel fuel n acc) = true.
Proof.
  induction fuel as [|fuel IH]; intros n acc Hacc; cbn [digits_fuel]; auto.
  assert (Hd : forallb Spec.is_ascii ((48 + n mod 10)%N :: acc) = true).
  { cbn [forallb]. rewrite Hacc, andb_true_r. unfold Spec.is_ascii.
    apply N.ltb_lt. pose proof (N.mod_upper_bound n 10). lia. }
  destruct (n <? 10)%N; [exact Hd|]. apply IH. exact Hd.
Qed.

Lemma of_Z_ascii (z : Z) : forallb Spec.is_ascii (of_Z z) = true.
Proof.
  unfold of_Z, of_N. destruct z; apply digits_fuel_ascii; reflexivity.
Qed.

Lemma hexdigit_ascii (n : N) :
  (n < 16)%N -> Spec.is_ascii (Json.hexdigit n) = true.
Proof.
  intros Hn. unfold Json.hexdigit, Spec.is_ascii.
  destruct (n <? 10)%N; apply N.ltb_lt; lia.
Qed.

Lemma escape_u_ascii (c : N) : forallb Spec.is_ascii (Json.escape_u c) = true.
Proof.
  unfold Json.escape_u. cbn [forallb].
  rewrite !hexdigit_ascii by (apply N.mod_upper_bound; lia). reflexivity.
Qed.

Lemma escape_cp_ascii (c : N) : forallb Spec.is_ascii (Json.escape_cp c) = true.
Proof.
  unfold Json.escape_cp.
  repeat match goal with
         | |- context [if ?b then _ else _] =>
             destruct b eqn:?; try reflexivity
         end;
    try apply escape_u_ascii.
  - cbn [forallb]. rewrite andb_true_r. unfold Spec.is_ascii.
    match goal with
    | E : (_ && _)%bool = true |- _ => apply andb_true_iff in E as [_ E];
                                      apply N.leb_le in E
    end.
    apply N.ltb_lt. lia.
  - apply forallb_app_true; apply escape_u_ascii.
Qed.

Lemma dumps_str_ascii (s : pystr) :
  forallb Spec.is_ascii (Json.dumps_str s) = true.
Proof.
  unfold Json.dumps_str. cbn [app forallb]. 
  rewrite forallb_app. cbn [forallb]. rewrite andb_true_r.
  change (Spec.is_ascii 34) with true. cbn [andb].
  induction s as [|c s IH]; [reflexivity|]. cbn [flat_map].
  apply forallb_app_true; [apply escape_cp_ascii|exact IH].
Qed.

Lemma join_ascii (sep : pystr) (parts : list pystr) :
  forallb Spec.is_ascii sep = true ->
  Forall (fun p => forallb Spec.is_ascii p = true) parts ->
  forallb Spec.is_ascii (join sep parts) = true.
Proof.
  intros Hsep Hp. induction Hp as [|p parts Hp _ IH]; [reflexivity|].
  cbn [join]. destruct parts as [|q parts]; [exact Hp|].
  apply forallb_app_true; [exact Hp|].
  apply forallb_app_true; [exact Hsep|exact IH].
Qed.

Lemma newline_indent_ascii (indent : option nat) (level : nat) :
  forallb Spec.is_ascii (Json.newline_indent indent level) = true.
Proof.
  destruct indent as [n|]; [|reflexivity]. cbn [Json.newline_indent forallb].
  change (Spec.is_ascii 10) with true. cbn [andb].
  induction (n * level) as [|k IH]; [reflexivity|exact IH].
Qed.

Lemma item_sep_ascii (indent : option nat) (level : nat) :
  forallb Spec.is_ascii (Json.item_sep indent level) = true.
Proof.
  destruct indent as [n|]; [|reflexivity].
  cbn [Json.item_sep forallb]. change (Spec.is_ascii 44) with true.
  apply (newline_indent_ascii (Some n) level).
Qed.

(** [json.dumps] with [ensure_ascii] writes ASCII only, whatever the value
    and the indentation. *)
Lemma dumps_at_ascii `{Runtime} (v : pyval) :
  Spec.ascii_repr ->
  forall (indent : option nat) (level : nat),
    forallb Spec.is_ascii (Json.dumps_at indent level v) = true.
Proof.
  intros Hr.
  induction v as [|b|z|f|s|l IH|d IH] using pyval_nested_ind;
    intros indent level.
  - reflexivity.
  - destruct b; reflexivity.
  - apply of_Z_ascii.
  - cbn [Json.dumps_at]. unfold Json.dumps_float.
    destruct f as [s0|[|]| |]; try reflexivity; apply Hr.
  - apply dumps_str_ascii.
  - destruct l as [|x l]; [reflexivity|].
    cbn [Json.dumps_at].
    apply forallb_app_true; [reflexivity|].
    apply forallb_app_true; [apply newline_indent_ascii|].
    apply forallb_app_true;
      [|apply forallb_app_true; [apply newline_indent_ascii|reflexivity]].
    apply join_ascii; [apply item_sep_ascii|].
    inversion IH as [|x0 l0 Hx Hl]; subst. constructor; [apply Hx|].
    clear IH Hx. induction Hl as [|y l' Hy _ IHl]; constructor;
      [apply Hy|exact IHl].
  - destruct d as [|kx d]; [reflexivity|].
    cbn [Json.dumps_at].
    apply forallb_app_true; [reflexivity|].
    apply forallb_app_true; [apply newline_indent_ascii|].
    apply forallb_app_true;
      [|apply forallb_app_true; [apply newline_indent_ascii|reflexivity]].
    apply join_ascii; [apply item_sep_ascii|].
    inversion IH as [|kx0 d0 Hx Hd]; subst. destruct kx as [k x].
    constructor.
    { apply forallb_app_true; [apply dumps_str_ascii|].
      apply forallb_app_true; [reflexivity|apply Hx]. }
    clear IH Hx. induction Hd as [|[k' y] d' Hy _ IHd]; constructor;
      [|exact IHd].
    apply forallb_app_true; [apply dumps_str_ascii|].
    apply forallb_app_true; [reflexivity|apply Hy].
Qed.

Lemma encode_ascii (s : pystr) :
  forallb Spec.is_ascii s = true -> Bedrock.encode_utf8 s = Ok s.
Proof.
  induction s as [|c s IH]; [reflexivity|]. cbn [forallb].
  intros Hs. apply andb_true_iff in Hs as [Hc Hs].
  cbn [Bedrock.encode_utf8]. unfold Bedrock.encode_cp.
  unfold Spec.is_ascii in Hc. rewrite Hc. cbn [bind].
  rewrite (IH Hs). reflexivity.
Qed.


(* ================================================================== *)
(** * The total of the fallback starts with its symbol *)
(* ================================================================== *)

(** A successful run hands to its continuation a text that is not longer
    than the one it started on. *)
Lemma rep_loop_shrinks {A : Type}
  (body : option N -> pystr -> @Re.cont A -> option A) (k : @Re.cont A) :
  (forall (prev : option N) (s : pystr) (k' : @Re.cont A) (x : A),
      body prev s k' = Some x ->
      exists (prev' : option N) (s' : pystr),
        List.length s' <= List.length s /\ k' prev' s' = Some x) ->
  forall (fuel lo : nat) (hi : option nat) (prev : option N) (s : pystr)
    (x : A),
    Re.rep_loop body k fuel lo hi prev s = Some x ->
    exists (prev' : option N) (s' : pystr),
      List.length s' <= List.length s /\ k prev' s' = Some x.
Proof.
  intros Hbody. induction fuel as [|fuel IH]; intros lo hi prev s x.
  - cbn [Re.rep_loop]. destruct lo; [|discriminate].
    intros E. exists prev, s. split; [lia|exact E].
  - cbn [Re.rep_loop].
    assert (Hstop : match lo with O => k prev s | S _ => None end = Some x ->
                    exists (prev' : option N) (s' : pystr),
                      List.length s' <= List.length s /\ k prev' s' = Some x).
    { destruct lo; [|discriminate]. intros E. exists prev, s.
      split; [lia|exact E]. }
    assert (Hround :
              match
                body prev s
                  (fun prev' s' =>
                     if (List.length s' <? List.length s)%nat
                     then Re.rep_loop body k fuel (pred lo)
                            (option_map pred hi) prev' s'
                     else None)
              with
              | Some x0 => Some x0
              | None => match lo with O => k prev s | S _ => None end
              end = Some x ->
              exists (prev' : option N) (s' : pystr),
                List.length s' <= List.length s /\ k prev' s' = Some x).
    { destruct (body prev s _) as [x0|] eqn:B; [|exact Hstop].
      intros E; inversion E; subst x0.
      apply Hbody in B as (p1 & s1 & L1 & B).
      destruct (List.length s1 <? List.length s)%nat; [|discriminate].
      apply IH in B as (p2 & s2 & L2 & B).
      exists p2, s2. split; [lia|exact B]. }
    destruct hi as [[|h]|]; [exact Hstop|exact Hround|exact Hround].
Qed.

Lemma run_shrinks {A : Type} (r : Re.regex) :
  forall (prev : option N) (s : pystr) (k : @Re.cont A) (x : A),
    Re.run r prev s k = Some x ->
    exists (prev' : option N) (s' : pystr),
      List.length s' <= List.length s /\ k prev' s' = Some x.
Proof.
  induction r as [|p|a IHa b IHb|a IHa b IHb|a IHa lo hi|];
    intros prev s k x; cbn [Re.run].
  - intros E. exists prev, s. split; [lia|exact E].
  - unfold Re.cls_step. destruct s as [|c s]; [discriminate|].
    destruct (p c); [|discriminate].
    intros E. exists (Some c), s. cbn [List.length]. split; [lia|exact E].
  - intros E. apply IHa in E as (p1 & s1 & L1 & E).
    apply IHb in E as (p2 & s2 & L2 & E).
    exists p2, s2. split; [lia|exact E].
  - destruct (Re.run a prev s k) as [x0|] eqn:Ea.
    + intros E; inversion E; subst x0. apply IHa in Ea. exact Ea.
    + apply IHb.
  - apply rep_loop_shrinks. intros prev0 s0 k' x0. apply IHa.
  - destruct (Re.boundary prev s); [|discriminate].
    intros E. exists prev, s. split; [lia|exact E].
Qed.

(** A match of a pattern that begins with a class begins with a code
    point of that class. *)
Lemma match_here_first (p : N -> bool) (r : Re.regex) (prev : option N)
  (s m : pystr) :
  Re.match_here (Re.Seq (Re.Cls p) r) prev s = Some m ->
  exists (c : N) (rest : pystr), m = c :: rest /\ p c = true.
Proof.
  unfold Re.match_here. cbn [Re.run]. unfold Re.cls_step.
  destruct s as [|c s]; [discriminate|].
  destruct (p c) eqn:P; [|discriminate].
  destruct (Re.run r (Some c) s _) as [rest|] eqn:R; [|discriminate].
  apply run_shrinks in R as (p1 & s1 & L1 & R). inversion R; subst s1.
  intros E. apply (f_equal (fun o => match o with Some t => t | None => [] end))
    in E. subst m.
  change (List.length (c :: s)) with (S (List.length s)).
  replace (S (List.length s) - List.length rest)
    with (S (List.length s - List.length rest)) by lia.
  cbn [firstn]. eexists. eexists. split; [reflexivity|exact P].
Qed.

Lemma search_total_first (txt m : pystr) :
  Re.search Textract.TOTAL_RE txt = Some m ->
  exists (c : N) (rest : pystr),
    m = c :: rest /\ Textract.is_currency_symbol c = true /\ In c txt.
Proof.
  unfold Re.search. intros Hs.
  apply search_from_leftmost in Hs as (pre & tail & Ht & Hm & _).
  apply match_here_first in Hm as (c & rest & Hm & Hc).
  exists c, rest. repeat split; auto.
  rewrite Ht, Hm. apply in_or_app. right. left. reflexivity.
Qed.

(** X16. The total of the fallback.  The text the fallback finds for the
    total begins with one of the three currency symbols; and since the
    scan runs over the serialised response, in which [json.dumps] has
    escaped every character that is not ASCII, it can only be the dollar
    sign: when the structured fields give no total, the total of the result
    is what they gave (nothing, or the empty text) or a text that begins
    with "$".  The rupee and euro branches of the pattern never match. *)
Theorem fallback_total_is_dollar `{Runtime} (response : pyval)
  (p out : Textract.summary) :
  Spec.ascii_repr ->
  Textract.primary_path response = Ok p ->
  truthy (Textract.Total p) = false ->
  Textract.parse_textract_expense response = Ok out ->
  Textract.Total out = Textract.Total p
  \/ exists rest : pystr, Textract.Total out = PStr (36%N :: rest).
Proof.
  intros Hr Hp Ht. unfold Textract.parse_textract_expense. rewrite Hp.
  cbn [bind]. intros E; inversion E.
  destruct (fallback_entries (Json.dumps response) p) as (_ & _ & Htot & _).
  rewrite Htot, Ht.
  destruct (Re.search Textract.TOTAL_RE (Json.dumps response)) as [m|] eqn:S;
    [|left; reflexivity].
  right. apply search_total_first in S as (c & rest & Hm & Hc & Hin).
  exists rest. rewrite Hm. f_equal. f_equal.
  pose proof (dumps_at_ascii response Hr None 0) as Ha.
  rewrite forallb_forall in Ha. apply Ha in Hin.
  unfold Spec.is_ascii in Hin. apply N.ltb_lt in Hin.
  unfold Textract.is_currency_symbol in Hc.
  apply orb_true_iff in Hc as [Hc|Hc];
    [apply orb_true_iff in Hc as [Hc|Hc]|]; apply N.eqb_eq in Hc; lia.
Qed.

Lemma fallback_total_is_dollar_witness :
  (exists rest : pystr,
      option_map Textract.Total
        (match @Textract.parse_textract_expense Spec.sample_runtime
                 Spec.empty_total_response with
         | Ok out => Some out
         | Raise _ => None
         end) = Some (PStr (36%N :: rest)))
  /\ option_map Textract.Total
       (match @Textract.parse_textract_expense Spec.sample_runtime
                Spec.rupee_response with
        | Ok out => Some out
        | Raise _ => None
        end) = Some PNone.
Proof.
  split; [|vm_compute; reflexivity].
  destruct (@Textract.parse_textract_expense Spec.sample_runtime
              Spec.empty_total_response) as [out|e] eqn:E;
    [|vm_compute in E; discriminate E].
  destruct (@Textract.primary_path Spec.empty_total_response) as [p|e] eqn:P;
    [|vm_compute in P; discriminate P].
  assert (Ht : truthy (Textract.Total p) = false)
    by (vm_compute in P; inversion P; reflexivity).
  destruct (@fallback_total_is_dollar Spec.sample_runtime
              Spec.empty_total_response p out
              (fun _ => eq_refl) P Ht E) as [Hsame|[rest Hd]].
  - exfalso. vm_compute in E, P. inversion E; subst out.
    inversion P; subst p. discriminate Hsame.
  - exists rest. cbn [option_map]. rewrite Hd. reflexivity.
Defined.


(* ================================================================== *)
(** * Directories are dropped from the output keys *)
(* ================================================================== *)

Lemma split_aux_free (c : N) (s : pystr) :
  forallb (fun x => negb (x =? c)%N) s = true ->
  forall cur : pystr, split_aux [c] 0 cur s = [rev cur ++ s].
Proof.
  induction s as [|x s IH]; intros Hs cur.
  - cbn. rewrite app_nil_r. reflexivity.
  - cbn [forallb] in Hs. apply andb_true_iff in Hs as [Hx Hs].
    cbn [split_aux startswith]. rewrite N.eqb_sym.
    apply negb_true_iff in Hx. rewrite Hx. cbn [andb].
    rewrite (IH Hs). cbn [rev]. rewrite <- app_assoc. reflexivity.
Qed.

Lemma split_aux_not_nil (sep : pystr) (s : pystr) :
  forall (k : nat) (cur : pystr), split_aux sep k cur s <> [].
Proof.
  induction s as [|x s IH]; intros k cur; cbn [split_aux]; [discriminate|].
  destruct k; [|apply IH].
  destruct (startswith sep (x :: s)); [discriminate|apply IH].
Qed.

Lemma last_cons_not_nil {A : Type} (a d : A) (l : list A) :
  l <> [] -> last (a :: l) d = last l d.
Proof. destruct l; [congruence|reflexivity]. Qed.

Lemma basename_of_path (dir name : pystr) :
  Spec.no_slash name = true -> basename (dir ++ 47%N :: name) = name.
Proof.
  intros Hn. unfold basename, split.
  assert (Hcur : forall cur : pystr,
             last (split_aux [47%N] 0 cur (dir ++ 47%N :: name)) [] = name);
    [|apply Hcur].
  induction dir as [|x dir IH]; intros cur.
  - cbn [app split_aux startswith List.length Nat.sub].
    rewrite N.eqb_refl. cbn [andb startswith].
    rewrite last_cons_not_nil by apply split_aux_not_nil.
    rewrite (split_aux_free 47 name) by exact Hn.
    reflexivity.
  - cbn [app split_aux startswith List.length Nat.sub].
    destruct (47 =? x)%N; cbn [andb startswith].
    + rewrite last_cons_not_nil by apply split_aux_not_nil. apply IH.
    + apply IH.
Qed.

(** X17. Only the file name of an input key reaches the output keys.  For
    a key dir/name, whatever the directories, the OCR stage writes
    textract-output/name.textract.json and textract-output/name.summary.json,
    and the three artifact keys of the model stage for a summary key are
    those of its file name: two receipts with the same file name in
    different folders are written to the same objects. *)
Theorem directories_are_dropped (dir name : pystr) :
  Spec.no_slash name = true ->
  basename (dir ++ 47%N :: name) = name
  /\ Spec.ocr_stage_keys (basename (dir ++ 47%N :: name))
     = [Textract.OUTPUT_PREFIX ++ name ++ u ".textract.json";
        Textract.OUTPUT_PREFIX ++ name ++ u ".summary.json"]
  /\ Spec.model_stage_keys (dir ++ 47%N :: name) = Spec.model_stage_keys name.
Proof.
  intros Hn. pose proof (@basename_of_path dir name Hn) as Hb.
  split; [exact Hb|]. split.
  - unfold Spec.ocr_stage_keys.
    rewrite textract_key_shape, summary_key_shape, Hb. reflexivity.
  - assert (Hname : basename name = name).
    { unfold basename, split.
      rewrite (split_aux_free 47 name) by exact Hn. reflexivity. }
    unfold Spec.model_stage_keys, Bedrock.error_key, Bedrock.summary_txt_key,
      Bedrock.bedrock_json_key, Bedrock.base_name.
    rewrite Hb, Hname. reflexivity.
Qed.

Lemma directories_are_dropped_witness :
  Spec.ocr_stage_keys (basename (u "2024/jan/foo.jpg"))
  = Spec.ocr_stage_keys (basename (u "2025/foo.jpg")).
Proof.
  destruct (@directories_are_dropped (u "2024/jan") (u "foo.jpg") eq_refl)
    as (_ & H1 & _).
  destruct (@directories_are_dropped (u "2025") (u "foo.jpg") eq_refl)
    as (_ & H2 & _).
  change (u "2024/jan/foo.jpg") with (u "2024/jan" ++ 47%N :: u "foo.jpg").
  change (u "2025/foo.jpg") with (u "2025" ++ 47%N :: u "foo.jpg").
  rewrite H1, H2. reflexivity.
Defined.


(* ================================================================== *)
(** * Answers without documents, answers in plain words *)
(* ================================================================== *)

(** X18. An answer of the expense analysis without documents.  When the
    answer is not a mapping the extractor raises AttributeError, and the
    handler takes the all-empty summary in its place; when it is a mapping
    whose ExpenseDocuments entry is absent or falsy (an empty list, null),
    the extractor returns no vendor and no items, and the total and the
    date are whatever the two scans find in the serialised answer. *)
Theorem answer_without_documents `{Runtime} :
  (forall (answer : pyval) (name : pystr),
      is_dict answer = false ->
      Textract.parse_textract_expense answer = Raise AttributeError
      /\ Spec.summary_of answer name = Textract.failed_summary name)
  /\ (forall d : list (pystr * pyval),
         truthy (match lookup d (u "ExpenseDocuments") with
                 | Some docs => docs
                 | None => PList []
                 end) = false ->
         exists out : Textract.summary,
           Textract.parse_textract_expense (PDict d) = Ok out
           /\ Textract.Vendor out = PNone
           /\ Textract.Items out = []
           /\ Textract.Total out
              = match Re.search Textract.TOTAL_RE (Json.dumps (PDict d)) with
                | Some m => PStr m
                | None => PNone
                end
           /\ Textract.Date out
              = match Re.search Textract.DATE_RE (Json.dumps (PDict d)) with
                | Some m => PStr m
                | None => PNone
                end).
Proof.
  split.
  - intros answer name Hd.
    assert (Hp : Textract.parse_textract_expense answer = Raise AttributeError)
      by (destruct answer; try discriminate Hd; reflexivity).
    split; [exact Hp|]. unfold Spec.summary_of. rewrite Hp. reflexivity.
  - intros d Hd.
    assert (Hp : Textract.primary_path (PDict d) = Ok Textract.empty_summary).
    { unfold Textract.primary_path. cbn [py_get bind]. rewrite Hd.
      reflexivity. }
    unfold Textract.parse_textract_expense. rewrite Hp. cbn [bind].
    eexists. split; [reflexivity|].
    destruct (fallback_entries (Json.dumps (PDict d)) Textract.empty_summary)
      as (Hv & Hi & Ht & Hdt).
    rewrite Hv, Hi, Ht, Hdt. cbn [Textract.empty_summary Textract.Vendor
      Textract.Items Textract.Total Textract.Date truthy].
    repeat split; reflexivity.
Qed.

Lemma answer_without_documents_witness :
  @Textract.parse_textract_expense Spec.sample_runtime (PList [])
  = Raise AttributeError
  /\ @Spec.summary_of Spec.sample_runtime (PList []) (u "foo.jpg")
     = Textract.failed_summary (u "foo.jpg").
Proof.
  apply (proj1 (@answer_without_documents Spec.sample_runtime) (PList [])
           (u "foo.jpg") eq_refl).
Defined.

Lemma partition_absent (sep s : pystr) :
  contains sep s = false -> partition sep s = (s, None).
Proof.
  induction s as [|c s IH]; cbn [contains partition].
  - rewrite orb_false_r. intros E. rewrite E. reflexivity.
  - intros E. apply orb_false_iff in E as [E1 E2].
    rewrite E1, (IH E2). reflexivity.
Qed.

(** X19. An answer in plain words.  When the body of the model's response
    is not JSON and does not hold the separator, the first guarded span
    hands on the trimmed body as the summary line together with empty
    fields; the normalisation then fills the two entries from the raw
    total of the summary alone: amount is the amount parser's reading of
    it and currency the detector's. *)
Theorem plain_text_answer `{Runtime} (E : Bedrock.env) (prompt raw : pystr)
  (e : exn) (sd : list (pystr * pyval)) (st : Bedrock.state) :
  Bedrock.invoke_model E (Json.dumps (Bedrock.messages_payload prompt))
  = Ok raw ->
  Json.loads raw = Raise e ->
  contains Bedrock.SEPARATOR raw = false ->
  Spec.optional_string (Spec.dict_get sd (u "Total")) = true ->
  Bedrock.model_span E prompt st
  = (Ok (strip raw, PDict []),
     Bedrock.add_log (u "Raw Bedrock output length: %d") st)
  /\ Bedrock.normalize (PDict []) (PDict sd)
     = Ok (PDict
             [(u "amount",
               Bedrock.parse_amount (Spec.dict_get sd (u "Total")));
              (u "currency",
               PStr (Spec.currency_code
                       (Spec.as_opt_str (Spec.dict_get sd (u "Total")))))]).
Proof.
  intros Hi Hl Hc Ht. split.
  - unfold Bedrock.model_span, Bedrock.bindM, Bedrock.lift, Bedrock.logger,
      Bedrock.call_bedrock_messages.
    rewrite Hi. cbn [bind]. unfold Bedrock.extract_text. rewrite Hl.
    assert (Hp : Bedrock.parse_bedrock_output (PStr raw)
                 = Ok (strip raw, PDict [])).
    { unfold Bedrock.parse_bedrock_output.
      destruct raw as [|c raw]; [reflexivity|].
      cbn [truthy negb py_str].
      rewrite (split_partition (c :: raw) separator_not_empty).
      rewrite (partition_absent _ _ Hc). reflexivity. }
    rewrite Hp. reflexivity.
  - unfold Bedrock.normalize. cbn [py_get lookup bind truthy py_setitem
      dict_set].
    unfold Spec.dict_get in *.
    destruct (lookup sd (u "Total")) as [[| | | |s| |]|];
      try discriminate Ht; try reflexivity.
    cbn [bind Spec.as_opt_str].
    pose proof (extract_currency_opt (Some s)) as Hx.
    cbn [Spec.opt_str] in Hx. rewrite Hx. reflexivity.
Qed.

Lemma plain_text_answer_witness :
  @Bedrock.model_span Spec.sample_runtime
    (Spec.answering_world Spec.plain_answer) (u "prompt") Spec.initial_state
  = (Ok (u "Coffee at Acme, 10 dollars.", PDict []),
     Bedrock.add_log (u "Raw Bedrock output length: %d") Spec.initial_state)
  /\ @Bedrock.normalize Spec.sample_runtime (PDict [])
       (PDict [(u "Total", PStr (u "$10.00"))])
     = Ok (PDict [(u "amount", PFloat (float_of_decimal false 1000 (-2)));
                  (u "currency", PStr (u "USD"))]).
Proof.
  destruct (@plain_text_answer Spec.sample_runtime
              (Spec.answering_world Spec.plain_answer) (u "prompt")
              Spec.plain_answer JSONDecodeError
              [(u "Total", PStr (u "$10.00"))] Spec.initial_state
              eq_refl eq_refl eq_refl eq_refl) as [H1 H2].
  split.
  - rewrite H1. vm_compute. reflexivity.
  - rewrite H2. vm_compute. reflexivity.
Defined.


(* ================================================================== *)
(** * Encoding and failed writes *)
(* ================================================================== *)

(** X20. What the handlers write is the serialised text itself: with a
    [repr] of floats made of ASCII characters, [json.dumps] of any value,
    indented or not, holds ASCII characters only (every other character of
    a string is escaped), so its UTF-8 encoding never fails and is the
    same sequence of code points. *)
Theorem serialised_text_encodes_to_itself `{Runtime} (v : pyval) :
  Spec.ascii_repr ->
  (forallb Spec.is_ascii (Json.dumps v) = true
   /\ Bedrock.encode_utf8 (Json.dumps v) = Ok (Json.dumps v))
  /\ (forall n : nat,
         forallb Spec.is_ascii (Json.dumps_indent n v) = true
         /\ Bedrock.encode_utf8 (Json.dumps_indent n v)
            = Ok (Json.dumps_indent n v)).
Proof.
  intros Hr. split.
  - pose proof (dumps_at_ascii v Hr None 0) as Ha.
    split; [exact Ha|]. apply encode_ascii. exact Ha.
  - intros n. pose proof (dumps_at_ascii v Hr (Some n) 0) as Ha.
    split; [exact Ha|]. apply encode_ascii. exact Ha.
Qed.

Lemma serialised_text_encodes_to_itself_witness :
  Bedrock.encode_utf8
    (@Json.dumps Spec.sample_runtime (PDict [(u "Vendor", PStr (u "Café ₹"))]))
  = Ok (u "{" ++ Spec.q "Vendor" ++ u ": " ++ Spec.dq
          ++ u "Caf\u00e9 \u20b9" ++ Spec.dq ++ u "}").
Proof.
  destruct (@serialised_text_encodes_to_itself Spec.sample_runtime
              (PDict [(u "Vendor", PStr (u "Café ₹"))]) (fun _ => eq_refl))
    as [[_ He] _].
  rewrite He. vm_compute. reflexivity.
Defined.

Section OcrWrites.
Context `{Runtime}.
Variable E : Textract.env.
Variables (event bucket : pyval) (key : pystr).
Variables (data : Bedrock.bytes) (answer : pyval).

Hypothesis Hrepr : Spec.ascii_repr.
Hypothesis Hevent : Bedrock.event_target event = Ok (bucket, PStr key).
Hypothesis Hprefix : startswith Textract.OUTPUT_PREFIX key = false.
Hypothesis Hfile : Textract.is_receipt_file (lower key) = true.
Hypothesis Hdownload : Textract.download_file E bucket key = Ok data.
Hypothesis Hanalyze : Textract.analyze_expense E data = Ok answer.

(** X21. Failed writes of the OCR stage.  Once the file is downloaded and
    analysed, the only thing that can fail is a write, and it is not
    guarded: when the first [put_object] fails the handler raises its
    exception and the store is as before; when the second one fails the
    handler raises its exception and the raw answer stays in the store
    under textract-output/<file name>.textract.json, without a summary
    next to it and without any marker. *)
Theorem ocr_stage_failed_writes (e : exn) (st : Bedrock.state) :
  (Textract.put_fault E (Bedrock.put_calls st) = Some e ->
   exists st' : Bedrock.state,
     Textract.lambda_handler E event st = (Raise e, st')
     /\ Bedrock.written st' = Bedrock.written st)
  /\ (Textract.put_fault E (Bedrock.put_calls st) = None ->
      Textract.put_fault E (S (Bedrock.put_calls st)) = Some e ->
      exists st' : Bedrock.state,
        Textract.lambda_handler E event st = (Raise e, st')
        /\ Bedrock.written st'
           = Spec.stored bucket
               (Textract.OUTPUT_PREFIX ++ basename key ++ u ".textract.json")
               (Json.dumps answer)
             :: Bedrock.written st).
Proof.
  assert (Hb1 : Bedrock.encode_utf8 (Json.dumps answer)
                = Ok (Json.dumps answer))
    by (apply encode_ascii, (dumps_at_ascii answer Hrepr None 0)).
  assert (Hb2 : forall v : pyval,
             Bedrock.encode_utf8 (Json.dumps_indent 2 v)
             = Ok (Json.dumps_indent 2 v))
    by (intros v; apply encode_ascii, (dumps_at_ascii v Hrepr (Some 2) 0)).
  assert (Hstart : forall st0 : Bedrock.state,
             Textract.lambda_handler E event st0
             = Bedrock.bindM
                 (Textract.put_object E bucket
                    (Textract.textract_key (basename key))
                    (Json.dumps answer))
                 (fun _ =>
                    Bedrock.bindM (Textract.summarise answer (basename key))
                      (fun summary =>
                         Bedrock.bindM
                           (Bedrock.lift
                              (Bedrock.encode_utf8
                                 (Json.dumps_indent 2 summary)))
                           (fun body =>
                              Bedrock.bindM
                                (Textract.put_object E bucket
                                   (Textract.summary_key (basename key)) body)
                                (fun _ =>
                                   Bedrock.bindM
                                     (Bedrock.logger
                                        (u "✅ Saved outputs in s3://%s/%s*"))
                                     (fun _ =>
                                        Bedrock.ret
                                          (PDict
                                             [(u "statusCode", PInt 200);
                                              (u "body",
                                               PStr (Json.dumps summary))]))))))
                 (Bedrock.add_log (u "Processing S3 object: %s/%s")
                    (Bedrock.add_log (u "Received event: %s") st0))).
  { intros st0.
    rewrite (@ocr_handler_accepts _ E event bucket key st0 Hevent Hprefix
               Hfile).
    unfold Textract.process.
    unfold Bedrock.bindM at 1. unfold Bedrock.tryM at 1, Bedrock.lift at 1.
    rewrite Hdownload.
    unfold Bedrock.bindM at 1. unfold Bedrock.tryM at 1, Bedrock.lift at 1.
    rewrite Hanalyze.
    unfold Bedrock.bindM at 1. unfold Bedrock.lift at 1. rewrite Hb1.
    reflexivity. }
  split.
  - intros Hf. rewrite Hstart.
    unfold Bedrock.bindM at 1. unfold Textract.put_object at 1.
    cbn [Bedrock.add_log Bedrock.put_calls]. rewrite Hf.
    eexists. split; reflexivity.
  - intros Hf1 Hf2. rewrite Hstart.
    unfold Bedrock.bindM at 1. unfold Textract.put_object at 1.
    cbn [Bedrock.add_log Bedrock.put_calls]. rewrite Hf1.
    unfold Bedrock.bindM at 1.
    match goal with
    | |- context [Textract.summarise answer (basename key) ?s] =>
        destruct (summarise_total answer (basename key) s)
          as (s1 & Hs & Hw & Hc);
        rewrite Hs
    end.
    unfold Bedrock.bindM at 1. unfold Bedrock.lift at 1. rewrite Hb2.
    unfold Bedrock.bindM at 1. unfold Textract.put_object at 1.
    rewrite Hc. cbn [Bedrock.add_object Bedrock.add_log Bedrock.put_calls].
    rewrite Hf2.
    eexists. split; [reflexivity|].
    cbn. rewrite Hw. cbn. rewrite textract_key_shape. reflexivity.
Qed.

End OcrWrites.

Lemma ocr_stage_failed_writes_witness :
  exists st' : Bedrock.state,
    @Textract.lambda_handler Spec.sample_runtime Spec.summary_put_fails
      Spec.receipt_event Spec.initial_state
    = (Raise (ServiceError (u "SlowDown")), st')
    /\ map Bedrock.obj_key (Bedrock.written st')
       = [u "textract-output/foo.jpg.textract.json"].
Proof.
  destruct (proj2 (@ocr_stage_failed_writes Spec.sample_runtime
                     Spec.summary_put_fails Spec.receipt_event
                     (PStr (u "receipts")) (u "inbox/foo.jpg") (u "bytes")
                     Spec.sample_receipt (fun _ => eq_refl)
                     eq_refl eq_refl eq_refl eq_refl eq_refl
                     (ServiceError (u "SlowDown")) Spec.initial_state)
              eq_refl eq_refl) as (st' & Hh & Hw).
  exists st'. split; [exact Hh|]. rewrite Hw. vm_compute. reflexivity.
Defined.
